(** * Recommendation engine: a shallow embedding of the two implementations

    The repository ships two near-duplicate recommendation helpers:

    - the Prisma one ([Module Prisma], source [src/unnamed/part_000]):
      product- and order-seeded recommendations over a relational store;
    - the cache-based one ([Module Cache], source [src/unnamed/part_012]):
      product-seeded recommendations over a module-level product cache.

    Both talk to two collaborators, the storage layer and the Ollama HTTP
    endpoint.  They are modelled as oracles of an explicit world; the
    JavaScript control flow ([await], [try]/[catch], early [return]) is
    written in a small state-and-exception monad, whose state counts the
    storage queries and records the outbound calls.

    Conventions of the embedding:

    - [limit] is a natural number (the default 4 is the caller's);
    - product ids of the relational store are numbers, kept exact; ids of
      the document store are object ids, kept as their text;
    - a query ordered by popularity breaks ties in table order, and rows
      come in table order otherwise;
    - a prompt is kept as the data its text is built from (the template
      literals read fields that are always there and cannot throw);
    - logging and the timers that only serve the timeout are left out: a
      timeout shows as the rejection of [fetch]. *)

From Stdlib Require Import String Ascii Bool Arith ZArith NArith Lia.
From Stdlib Require Import List Permutation.
Import ListNotations.

Set Implicit Arguments.

(* ================================================================= *)
(** ** JavaScript array helpers *)

(** [arr.slice(0, n)] for a natural number [n]. *)
Definition slice0 {A : Type} (n : nat) (l : list A) : list A := firstn n l.

(** [arr.filter((x, i, self) => self.indexOf(x) === i)]: keep the first
    occurrence of every element. *)
Fixpoint uniqueFirst {A : Type} (eqb : A -> A -> bool) (l : list A) : list A :=
  match l with
  | [] => []
  | x :: l' => x :: filter (fun y => negb (eqb x y)) (uniqueFirst eqb l')
  end.

(** [arr.map(f).filter(Boolean)] where [f] yields an object or [undefined]. *)
Definition filterMapDefined {A B : Type} (f : A -> option B) (l : list A) : list B :=
  flat_map (fun x => match f x with Some y => [y] | None => [] end) l.

(** Stable sort in descending order of a numeric key: what
    [arr.sort((a, b) => key(b) - key(a))] computes (the sort of the
    language is stable), and what an [ORDER BY key DESC] over rows kept in
    table order yields. *)
Fixpoint insertDesc {A : Type} (key : A -> Z) (x : A) (l : list A) : list A :=
  match l with
  | [] => [x]
  | y :: l' => if (key x <? key y)%Z then y :: insertDesc key x l' else x :: y :: l'
  end.

Definition sortDesc {A : Type} (key : A -> Z) (l : list A) : list A :=
  fold_right (insertDesc key) [] l.

(* ================================================================= *)
(** ** Text scanning: the regular expressions of the rankers

    A model response is a sequence of code units; only ASCII matters to the
    three regular expressions, so a [string] of bytes is enough. *)

Definition chars (s : string) : list ascii := list_ascii_of_string s.

Definition isDigit (c : ascii) : bool :=
  let n := nat_of_ascii c in (48 <=? n) && (n <=? 57).

Definition isLetter (c : ascii) : bool :=
  let n := nat_of_ascii c in
  ((65 <=? n) && (n <=? 90)) || ((97 <=? n) && (n <=? 122)).

(** The class [\w]. *)
Definition isWordChar (c : ascii) : bool :=
  isDigit c || isLetter c || (nat_of_ascii c =? 95).

Definition isNewline (c : ascii) : bool := nat_of_ascii c =? 10.

Definition flush (cur : list ascii) : list (list ascii) :=
  match cur with [] => [] | _ => [rev cur] end.

(** Maximal runs of characters of a class, left to right; [cur] holds the
    run being read, reversed. *)
Fixpoint runsOf (cls : ascii -> bool) (s cur : list ascii) : list (list ascii) :=
  match s with
  | [] => flush cur
  | c :: s' => if cls c then runsOf cls s' (c :: cur)
               else flush cur ++ runsOf cls s' []
  end.

(** [text.match(/\d+/g)]: the maximal digit runs ([[]] stands for [null]). *)
Definition matchDigits (s : list ascii) : list (list ascii) := runsOf isDigit s [].

(** [text.match(/\b\d+\b/g)]: a match starts and ends at a word boundary
    and holds digits only, so it is a maximal [\w] run made of digits. *)
Definition matchBoundedDigits (s : list ascii) : list (list ascii) :=
  filter (forallb isDigit) (runsOf isWordChar s []).

Definition digitValue (c : ascii) : N := N.of_nat (nat_of_ascii c - 48).

(** [parseInt(run, 10)] on a digit run.  The value is exact here; the
    double it is rounded to in the source equals a stored id (below 2^53)
    exactly when the exact value does. *)
Definition parseInt (run : list ascii) : N :=
  fold_left (fun acc c => (10 * acc + digitValue c)%N) run 0%N.

Definition lowerAscii (c : ascii) : ascii :=
  let n := nat_of_ascii c in
  if (65 <=? n) && (n <=? 90) then ascii_of_nat (n + 32) else c.

(** Case-insensitive match of a literal at the head of [s]; the rest on
    success. *)
Fixpoint stripPrefixCI (lit s : list ascii) : option (list ascii) :=
  match lit, s with
  | [], _ => Some s
  | _ :: _, [] => None
  | a :: lit', c :: s' =>
      if Ascii.eqb (lowerAscii a) (lowerAscii c) then stripPrefixCI lit' s' else None
  end.

Fixpoint takeWhile {A : Type} (f : A -> bool) (l : list A) : list A :=
  match l with
  | [] => []
  | x :: l' => if f x then x :: takeWhile f l' else []
  end.

Definition idLabel : list ascii := chars "Recommended product IDs:".

(** [text.match(/Recommended product IDs:([^\n]+)/i)]: the capture group of
    the leftmost match, [None] for [null].  The group needs one character
    at least, so a label followed by a newline or by the end of the text is
    skipped. *)
Fixpoint idSection (s : list ascii) : option (list ascii) :=
  match s with
  | [] => None
  | _ :: s' =>
      match stripPrefixCI idLabel s with
      | Some rest =>
          match takeWhile (fun c => negb (isNewline c)) rest with
          | [] => idSection s'
          | cap => Some cap
          end
      | None => idSection s'
      end
  end.

(* ================================================================= *)
(** ** Effects: state and exceptions *)

Inductive Exn : Type :=
| StorageError   (* the storage layer rejected a query *)
| FetchError     (* fetch rejected: network failure *)
| AbortError     (* fetch rejected: the timeout aborted it *)
| SyntaxError    (* response.json() rejected *)
| TypeError.     (* a property of undefined or null was read *)

Inductive Res (A : Type) : Type :=
| Ok (a : A)
| Throw (e : Exn).

Arguments Throw {A} e.

(** A computation reads and updates the state [S]; the state survives a
    throw, as the heap of the program does. *)
Definition M (S A : Type) : Type := S -> Res A * S.

Definition ret {S A : Type} (a : A) : M S A := fun s => (Ok a, s).

Definition throw {S A : Type} (e : Exn) : M S A := fun s => (Throw e, s).

Definition bind {S A B : Type} (m : M S A) (k : A -> M S B) : M S B :=
  fun s => match m s with
           | (Ok a, s') => k a s'
           | (Throw e, s') => (Throw e, s')
           end.

(** [try { m } catch (error) { h error }]. *)
Definition tryCatch {S A : Type} (m : M S A) (h : Exn -> M S A) : M S A :=
  fun s => match m s with
           | (Ok a, s') => (Ok a, s')
           | (Throw e, s') => h e s'
           end.

Definition gets {S A : Type} (f : S -> A) : M S A := fun s => (Ok (f s), s).

Definition modify {S : Type} (f : S -> S) : M S unit := fun s => (Ok tt, f s).

Declare Scope js_scope.
Delimit Scope js_scope with js.
Notation "x <- m ;; k" := (bind m (fun x => k))
  (at level 100, m at next level, right associativity) : js_scope.
Notation "m ;;; k" := (bind m (fun _ => k))
  (at level 100, right associativity) : js_scope.

(** The result and the final state of a run. *)
Definition result {S A : Type} (m : M S A) (s : S) : Res A := fst (m s).
Definition final {S A : Type} (m : M S A) (s : S) : S := snd (m s).

(* ================================================================= *)
(** ** The Ollama endpoint as seen by [fetch] *)

(** What [await response.json()] and [result.response] give. *)
Inductive Body : Type :=
| BadJson               (* the body is not JSON *)
| NoText                (* JSON without a textual [response] field *)
| Text (s : string).    (* [result.response] *)

(** What [await fetch(...)] gives. *)
Inductive Fetch : Type :=
| NetworkFailure
| TimedOut
| Http (ok : bool) (body : Body).

(** An outbound call to the endpoint: the liveness probe, or a generation
    request carrying a prompt. *)
Inductive Call (P : Type) : Type :=
| Probe
| Generate (prompt : P).

Arguments Probe {P}.

(* ================================================================= *)
(** ** The Prisma implementation ([src/unnamed/part_000]) *)

Module Prisma.

Local Open Scope js_scope.

(** *** Data model: the rows the queries return *)

Record Category : Type := { cat_id : N; cat_name : string }.

Record Product : Type := {
  id : N;
  name : string;
  description : option string;
  categories : list Category     (* include: { categories: true } *)
}.

(** Stored order lines, and orders. *)
Record OrderItemRow : Type := { row_productId : N }.
Record OrderRow : Type := { row_id : N; row_items : list OrderItemRow }.

(** An order loaded with [include: { items: { include: { product } } }]. *)
Record OrderItem : Type := { productId : N; product : option Product }.
Record Order : Type := { order_id : N; items : list OrderItem }.

Record Db : Type := { products : list Product; orders : list OrderRow }.

(** The prompt of a generation request, kept as the data its text is
    built from: the context, the products to rank and the limit. *)
Inductive Prompt : Type :=
| ProductPrompt (currentProduct : Product) (productsToRank : list Product) (limit : nat)
| OrderPrompt (order : Order) (productsToRank : list Product) (limit : nat).

Definition promptPool (p : Prompt) : list Product :=
  match p with
  | ProductPrompt _ pool _ => pool
  | OrderPrompt _ pool _ => pool
  end.

(** The world of one request: configuration, storage and endpoint.
    [storageUp n] tells whether the [n]-th storage query of the run is
    answered or rejected. *)
Record World : Type := {
  USE_OLLAMA : bool;                 (* process.env.USE_OLLAMA !== "false" *)
  db : Db;
  storageUp : nat -> bool;
  probe : Fetch;                     (* answer to GET baseUrl *)
  generate : Prompt -> Fetch         (* answer to POST OLLAMA_URL *)
}.

Record State : Type := {
  queries : nat;                     (* storage queries issued so far *)
  calls : list (Call Prompt)         (* outbound calls, oldest first *)
}.

Definition start : State := {| queries := 0; calls := [] |}.

(** The state after one more storage query, and after one more outbound
    call. *)
Definition asked (s : State) : State :=
  {| queries := S (queries s); calls := calls s |}.

Definition withCall (c : Call Prompt) (s : State) : State :=
  {| queries := queries s; calls := calls s ++ [c] |}.

(** *** Queries *)

(** [_count] of [orderItems] of a product. *)
Definition orderItemsCount (d : Db) (p : Product) : Z :=
  Z.of_nat (length (filter (fun r => N.eqb (row_productId r) (id p))
                           (flat_map row_items (orders d)))).

(** [prisma.product.findMany({ where, orderBy?, take })]: rows in table
    order, or by descending order-line count. *)
Definition findMany (where_ : Product -> bool) (byPopularity : bool) (take : nat)
    (d : Db) : list Product :=
  let rows := filter where_ (products d) in
  firstn take (if byPopularity then sortDesc (orderItemsCount d) rows else rows).

Definition findUniqueProduct (pid : N) (d : Db) : option Product :=
  find (fun p => N.eqb (id p) pid) (products d).

Definition loadItem (d : Db) (r : OrderItemRow) : OrderItem :=
  {| productId := row_productId r; product := findUniqueProduct (row_productId r) d |}.

Definition findUniqueOrder (oid : N) (d : Db) : option Order :=
  match find (fun o => N.eqb (row_id o) oid) (orders d) with
  | Some o => Some {| order_id := row_id o; items := map (loadItem d) (row_items o) |}
  | None => None
  end.

(** A number used as a condition: [undefined] and [0] are falsy. *)
Definition truthyId (x : option N) : option N :=
  match x with
  | Some n => if N.eqb n 0 then None else Some n
  | None => None
  end.

Definition isEmpty {A : Type} (l : list A) : bool :=
  match l with [] => true | _ => false end.

(** [arr.includes(x)] on numbers. *)
Definition includes (l : list N) (x : N) : bool := existsb (N.eqb x) l.

(** [new Map(pool.map(p => [p.id, p])).get(i)]: a later entry replaces an
    earlier one with the same key. *)
Definition mapGet (pool : list Product) (i : N) : option Product :=
  find (fun p => N.eqb (id p) i) (rev pool).

(** Lines 241-254: the popularity fallback, without the seed product. *)
Definition fallbackQuery (productId : option N) (limit : nat) : Db -> list Product :=
  findMany (fun p => match truthyId productId with
                     | Some pid => negb (N.eqb (id p) pid)
                     | None => true
                     end) true limit.

(** Lines 286-288. *)
Definition orderCategoryIds (order : Order) : list N :=
  uniqueFirst N.eqb
    (flat_map (fun item => match product item with
                           | Some p => map cat_id (categories p)
                           | None => []
                           end) (items order)).

Definition inCategories (categoryIds : list N) (p : Product) : bool :=
  existsb (fun c => includes categoryIds (cat_id c)) (categories p).

(** Lines 299-314. *)
Definition orderSimilarQuery (order : Order) (categoryIds : list N) (limit : nat)
    : Db -> list Product :=
  findMany (fun p => negb (includes (map productId (items order)) (id p))
                     && inCategories categoryIds p) false (limit * 2).

(** Lines 397-408. *)
Definition similarCategoryQuery (pid : N) (currentProduct : Product) : Db -> list Product :=
  findMany (fun p => negb (N.eqb (id p) pid)
                     && inCategories (map cat_id (categories currentProduct)) p) false 10.

(** Lines 417-431. *)
Definition additionalQuery (pid : N) (similar : list Product) (limit : nat)
    : Db -> list Product :=
  findMany (fun p => negb (N.eqb (id p) pid)
                     && negb (includes (map id similar) (id p))) true (limit * 2).

(** Lines 413-435: the pool handed to the ranker on the product path. *)
Definition poolOf (similar additional : list Product) : list Product :=
  similar ++ additional.

(** *** Pure blocks of the orchestrator *)

(** Lines 443-464: the product path once the ranker has answered;
    [None] when control falls through to the category block. *)
Definition rankedForProduct (recommendedIds : option (list N))
    (productsToRank : list Product) (limit : nat) : option (list Product) :=
  match recommendedIds with
  | Some ((_ :: _) as ids) =>
      let recommendedProducts :=
        slice0 limit (filterMapDefined (mapGet productsToRank) ids) in
      if limit <=? length recommendedProducts then Some recommendedProducts
      else
        let remainingProducts :=
          filter (fun p => negb (includes ids (id p))) productsToRank in
        Some (slice0 limit (recommendedProducts ++ remainingProducts))
  | _ => None
  end.

(** Lines 328-353: the same on the order path. *)
Definition rankedForOrder (recommendedIds : option (list N))
    (similar : list Product) (limit : nat) : option (list Product) :=
  match recommendedIds with
  | Some ((_ :: _) as ids) =>
      let recommendedProducts :=
        slice0 limit (filterMapDefined (mapGet similar) ids) in
      if Nat.min 2 limit <=? length recommendedProducts then
        if length recommendedProducts <? limit then
          let remainingProducts :=
            slice0 (limit - length recommendedProducts)
                   (filter (fun p => negb (includes ids (id p))) similar) in
          Some (recommendedProducts ++ remainingProducts)
        else Some recommendedProducts
      else None
  | _ => None
  end.

Definition additionalFallbacks (similar fallbackProducts : list Product) (needed : nat)
    : list Product :=
  slice0 needed
    (filter (fun p => negb (existsb (fun sp => N.eqb (id sp) (id p)) similar))
            fallbackProducts).

(** Lines 471-487: category products first, then fallbacks. *)
Definition categoryThenFallback (similar fallbackProducts : list Product) (limit : nat)
    : list Product :=
  match similar with
  | [] => fallbackProducts
  | _ =>
      if limit <=? length similar then slice0 limit similar
      else similar ++ additionalFallbacks similar fallbackProducts (limit - length similar)
  end.

(** Lines 357-373: the same block of the order path. *)
Definition categoryThenFallbackOrder (similar fallbackProducts : list Product) (limit : nat)
    : list Product :=
  match similar with
  | [] => fallbackProducts
  | _ =>
      if limit <=? length similar then slice0 limit similar
      else slice0 limit
             (similar ++ additionalFallbacks similar fallbackProducts (limit - length similar))
  end.

(** Lines 101-114 and 202-215: the ids kept from the integers of the
    answer, and the acceptance threshold. *)
Definition validIds (numberMatches : list (list ascii)) (productsToRank : list Product)
    : list N :=
  filter (fun i => existsb (fun p => N.eqb (id p) i) productsToRank)
         (map parseInt numberMatches).

Definition accept (productIds : list N) (limit : nat) : option (list N) :=
  if length productIds <? Nat.min 2 limit then None else Some productIds.

(** Lines 92-93: the integers of the product ranker's answer. *)
Definition productNumberMatches (text : list ascii) : list (list ascii) :=
  match idSection text with
  | Some section => matchDigits section
  | None => matchDigits text
  end.

Section Effects.

Variable w : World.

(** A storage query: answered from the database, or rejected. *)
Definition query {A : Type} (q : Db -> A) : M State A :=
  fun s =>
    if storageUp w (queries s) then (Ok (q (db w)), asked s)
    else (Throw StorageError, asked s).

Definition record (c : Call Prompt) : M State unit := modify (withCall c).

(** [await fetch(...)]: the call goes out, then resolves or rejects. *)
Definition awaitFetch (c : Call Prompt) (answer : Fetch) : M State (bool * Body) :=
  record c ;;;
  match answer with
  | NetworkFailure => throw FetchError
  | TimedOut => throw AbortError
  | Http ok body => ret (ok, body)
  end.

(** [(await response.json()).response], then a method call on it. *)
Definition responseText (body : Body) : M State (list ascii) :=
  match body with
  | BadJson => throw SyntaxError
  | NoText => throw TypeError
  | Text s => ret (chars s)
  end.

(** Lines 10-27. *)
Definition isOllamaAvailable : M State bool :=
  tryCatch
    (response <- awaitFetch Probe (probe w) ;;
     ret (fst response))
    (fun _ => ret false).

(** Lines 30-119.  The length test and the prompt come before the [try];
    everything from [fetch] on is inside it. *)
Definition getOllamaRecommendations (currentProduct : Product)
    (productsToRank : list Product) (limit : nat) : M State (option (list N)) :=
  if length productsToRank <? limit then ret None
  else
    let prompt := ProductPrompt currentProduct productsToRank limit in
    tryCatch
      (response <- awaitFetch (Generate prompt) (generate w prompt) ;;
       if negb (fst response) then ret None
       else
         ollamaResponse <- responseText (snd response) ;;
         let numberMatches := productNumberMatches ollamaResponse in
         if isEmpty numberMatches then ret None
         else ret (accept (validIds numberMatches productsToRank) limit))
      (fun _ => ret None).

(** Lines 122-220.  The prompt reads [item.product.name] of every line,
    inside the [try]. *)
Definition getOllamaRecommendationsForOrder (order : Order)
    (productsToRank : list Product) (limit : nat) : M State (option (list N)) :=
  if length productsToRank <? limit then ret None
  else
    tryCatch
      (if forallb (fun item => match product item with Some _ => true | None => false end)
                  (items order)
       then
         let prompt := OrderPrompt order productsToRank limit in
         response <- awaitFetch (Generate prompt) (generate w prompt) ;;
         if negb (fst response) then ret None
         else
           ollamaResponse <- responseText (snd response) ;;
           let numberMatches := matchBoundedDigits ollamaResponse in
           if isEmpty numberMatches then ret None
           else ret (accept (validIds numberMatches productsToRank) limit)
       else throw TypeError)
      (fun _ => ret None).

(** Lines 503-515. *)
Definition getPopularProducts (limit : nat) : M State (list Product) :=
  query (findMany (fun _ => true) true limit).

(** Lines 259-378. *)
Definition orderPath (orderId : N) (limit : nat) (useOllama : bool)
    (fallbackProducts : list Product) : M State (list Product) :=
  tryCatch
    (found <- query (findUniqueOrder orderId) ;;
     match found with
     | None => ret fallbackProducts
     | Some order =>
         if isEmpty (items order) then ret fallbackProducts
         else
           let categoryIds := orderCategoryIds order in
           if isEmpty categoryIds then ret fallbackProducts
           else
             similarCategoryProducts <- query (orderSimilarQuery order categoryIds limit) ;;
             ranked <- (if useOllama && (2 <=? length similarCategoryProducts)
                        then
                          recommendedIds <- getOllamaRecommendationsForOrder
                                              order similarCategoryProducts limit ;;
                          ret (rankedForOrder recommendedIds similarCategoryProducts limit)
                        else ret None) ;;
             match ranked with
             | Some recommended => ret recommended
             | None => ret (categoryThenFallbackOrder
                              similarCategoryProducts fallbackProducts limit)
             end
     end)
    (fun _ => ret fallbackProducts).

(** Lines 381-492. *)
Definition productPath (productId : N) (limit : nat) (useOllama : bool)
    (fallbackProducts : list Product) : M State (list Product) :=
  tryCatch
    (found <- query (findUniqueProduct productId) ;;
     match found with
     | None => ret fallbackProducts
     | Some currentProduct =>
         if isEmpty (categories currentProduct) then ret fallbackProducts
         else
           similarCategoryProducts <- query (similarCategoryQuery productId currentProduct) ;;
           productsToRank <-
             (if length similarCategoryProducts <? limit
              then
                additionalProducts <-
                  query (additionalQuery productId similarCategoryProducts limit) ;;
                ret (poolOf similarCategoryProducts additionalProducts)
              else ret similarCategoryProducts) ;;
           ranked <- (if useOllama && (limit <=? length productsToRank)
                      then
                        recommendedIds <- getOllamaRecommendations
                                            currentProduct productsToRank limit ;;
                        ret (rankedForProduct recommendedIds productsToRank limit)
                      else ret None) ;;
           match ranked with
           | Some recommended => ret recommended
           | None => ret (categoryThenFallback
                            similarCategoryProducts fallbackProducts limit)
           end
     end)
    (fun _ => ret fallbackProducts).

(** Lines 222-500.  [limit] is the requested limit (4 when the caller
    gives none). *)
Definition getRecommendations (productId orderId : option N) (limit : nat)
    : M State (list Product) :=
  tryCatch
    (useOllama <- (if USE_OLLAMA w then isOllamaAvailable else ret false) ;;
     fallbackProducts <- query (fallbackQuery productId limit) ;;
     match truthyId orderId with
     | Some oid => orderPath oid limit useOllama fallbackProducts
     | None =>
         match truthyId productId with
         | Some pid => productPath pid limit useOllama fallbackProducts
         | None => ret fallbackProducts
         end
     end)
    (fun _ => getPopularProducts limit).

End Effects.

End Prisma.

(* ================================================================= *)
(** ** The cache-based implementation ([src/unnamed/part_012]) *)

Module Cache.

Local Open Scope js_scope.

(** *** Data model *)

(** A document id, kept as the text [toString()] gives. *)
Definition ObjectId : Type := string.

(** Documents of the two collections, as far as the code reads them.
    Scores and quantities are taken to be integers. *)
Record ProductDoc : Type := {
  _id : ObjectId;
  doc_name : string;
  category : string;
  doc_sustainabilityScore : Z
}.

Record OrderItemDoc : Type := { item_product : ObjectId; quantity : Z }.
Record OrderDoc : Type := { orderItems : list OrderItemDoc }.

Record Db : Type := { productDocs : list ProductDoc; orderDocs : list OrderDoc }.

(** An element of [productsWithCounts] (lines 43-49). *)
Record Product : Type := {
  id : ObjectId;
  name : string;
  categories : list string;
  orderCount : Z;
  sustainabilityScore : Z
}.

(** The module-level [productsCache]. *)
Record ProductsCache : Type := {
  data : option (list Product);      (* null, or the cached array *)
  lastUpdate : Z
}.

Inductive Prompt : Type :=
| ProductPrompt (currentProduct : Product) (productsToRank : list Product) (limit : nat).

Definition promptPool (p : Prompt) : list Product :=
  match p with ProductPrompt _ pool _ => pool end.

(** The world of one request.  [clock n] is what the [n]-th [Date.now()]
    returns.  [idIsNumber i n] is [p.id === n] for a stored id and a parsed
    integer: the product schema, which fixes the type of ids, is not among
    the sources, so the comparison is left to the world. *)
Record World : Type := {
  USE_OLLAMA : bool;
  db : Db;
  storageUp : nat -> bool;
  clock : nat -> Z;
  idIsNumber : ObjectId -> N -> bool;
  probe : Fetch;
  generate : Prompt -> Fetch
}.

Record State : Type := {
  productsCache : ProductsCache;
  queries : nat;
  clockReads : nat;
  calls : list (Call Prompt)
}.

Definition emptyCache : ProductsCache := {| data := None; lastUpdate := 0 |}.

Definition start : State :=
  {| productsCache := emptyCache; queries := 0; clockReads := 0; calls := [] |}.

(** The state after one more storage query, one more clock reading, one
    more outbound call, and with another cache. *)
Definition asked (s : State) : State :=
  {| productsCache := productsCache s; queries := S (queries s);
     clockReads := clockReads s; calls := calls s |}.

Definition ticked (s : State) : State :=
  {| productsCache := productsCache s; queries := queries s;
     clockReads := S (clockReads s); calls := calls s |}.

Definition withCall (c : Call Prompt) (s : State) : State :=
  {| productsCache := productsCache s; queries := queries s;
     clockReads := clockReads s; calls := calls s ++ [c] |}.

Definition withCache (c : ProductsCache) (s : State) : State :=
  {| productsCache := c; queries := queries s;
     clockReads := clockReads s; calls := calls s |}.

(** The one array that is shared: the object [productsCache.data] points
    to.  [getProductsWithOrderCounts] returns that object itself, so the
    caller's [products] is an alias of the cache, not a copy. *)
Inductive ArrayRef : Type := CachedArray.

(** *** Queries *)

(** Lines 32-40: unwind the order lines, group them by product, sum the
    quantities. *)
Definition aggregateOrderCounts (os : list OrderDoc) : list (ObjectId * Z) :=
  let lines := flat_map orderItems os in
  map (fun pid =>
         (pid, fold_right Z.add 0%Z
                 (map quantity (filter (fun l => String.eqb (item_product l) pid) lines))))
      (uniqueFirst String.eqb (map item_product lines)).

(** Lines 43-49. *)
Definition withOrderCount (orderCounts : list (ObjectId * Z)) (product : ProductDoc)
    : Product :=
  {| id := _id product;
     name := doc_name product;
     categories := [category product];
     orderCount := match find (fun o => String.eqb (fst o) (_id product)) orderCounts with
                   | Some o => snd o       (* [0 || 0] is [0] as well *)
                   | None => 0%Z
                   end;
     sustainabilityScore := doc_sustainabilityScore product |}.

(** A string used as a condition: [undefined] and the empty string are
    falsy. *)
Definition truthyId (x : option string) : option string :=
  match x with
  | Some s => if String.eqb s "" then None else Some s
  | None => None
  end.

(** Lines 124-128: who counts as similar to the current product. *)
Definition isSimilar (productId : string) (currentProduct p : Product) : bool :=
  negb (String.eqb (id p) productId)
  && existsb (fun c => existsb (String.eqb c) (categories currentProduct)) (categories p)
  && (Z.abs (sustainabilityScore p - sustainabilityScore currentProduct) <=? 20)%Z.

Definition similarOf (productId : string) (currentProduct : Product)
    (products : list Product) (limit : nat) : list Product :=
  slice0 (limit * 2) (filter (isSimilar productId currentProduct) products).

Section Effects.

Variable w : World.

Definition query {A : Type} (q : Db -> A) : M State A :=
  fun s =>
    if storageUp w (queries s) then (Ok (q (db w)), asked s)
    else (Throw StorageError, asked s).

(** [Date.now()]. *)
Definition dateNow : M State Z :=
  fun s => (Ok (clock w (clockReads s)), ticked s).

Definition setCache (c : ProductsCache) : M State unit := modify (withCache c).

Definition record (c : Call Prompt) : M State unit := modify (withCall c).

(** Reading through the reference; a method call on [null] throws. *)
Definition readArray (r : ArrayRef) : M State (list Product) :=
  c <- gets productsCache ;;
  match data c with
  | Some arr => ret arr
  | None => throw TypeError
  end.

(** [products.sort((a, b) => b.orderCount - a.orderCount)]: the array is
    sorted in place, and it is the array of the cache. *)
Definition sortInPlace (r : ArrayRef) : M State unit :=
  arr <- readArray r ;;
  c <- gets productsCache ;;
  setCache {| data := Some (sortDesc orderCount arr); lastUpdate := lastUpdate c |}.

Definition awaitFetch (c : Call Prompt) (answer : Fetch) : M State (bool * Body) :=
  record c ;;;
  match answer with
  | NetworkFailure => throw FetchError
  | TimedOut => throw AbortError
  | Http ok body => ret (ok, body)
  end.

Definition responseText (body : Body) : M State (list ascii) :=
  match body with
  | BadJson => throw SyntaxError
  | NoText => throw TypeError
  | Text s => ret (chars s)
  end.

(** Lines 23-56. *)
Definition getProductsWithOrderCounts : M State ArrayRef :=
  now <- dateNow ;;
  c <- gets productsCache ;;
  let fresh := match data c with
               | Some _ => (now - lastUpdate c <? 300000)%Z
               | None => false
               end in
  if fresh then ret CachedArray
  else
    products <- query productDocs ;;
    orderCounts <- query (fun d => aggregateOrderCounts (orderDocs d)) ;;
    let productsWithCounts := map (withOrderCount orderCounts) products in
    setCache {| data := Some productsWithCounts; lastUpdate := now |} ;;;
    ret CachedArray.

(** Lines 58-70. *)
Definition isOllamaAvailable : M State bool :=
  tryCatch
    (response <- awaitFetch Probe (probe w) ;;
     ret (fst response))
    (fun _ => ret false).

(** Lines 72-106. *)
Definition getOllamaRecommendations (currentProduct : Product)
    (productsToRank : list Product) (limit : nat) : M State (option (list N)) :=
  if length productsToRank <? limit then ret None
  else
    let prompt := ProductPrompt currentProduct productsToRank limit in
    tryCatch
      (response <- awaitFetch (Generate prompt) (generate w prompt) ;;
       if negb (fst response) then ret None
       else
         text <- responseText (snd response) ;;
         match matchDigits text with
         | [] => ret None
         | numbers =>
             ret (Some (slice0 limit
                          (filter (fun n => existsb (fun p => idIsNumber w (id p) n)
                                                    productsToRank)
                                  (map parseInt numbers))))
         end)
      (fun _ => ret None).

(** Lines 159-164. *)
Definition getPopularProducts (limit : nat) : M State (list Product) :=
  products <- getProductsWithOrderCounts ;;
  sortInPlace products ;;;
  sorted <- readArray products ;;
  ret (slice0 limit sorted).

(** Lines 138-146: what the orchestrator makes of the ranker's answer;
    [None] when control falls through to line 149. *)
Definition rankedOf (recommendedIds : option (list N)) (similarProducts : list Product)
    (limit : nat) : option (list Product) :=
  match recommendedIds with
  | Some ids =>
      if 2 <=? length ids then
        let recommendations :=
          slice0 limit
            (filterMapDefined
               (fun n => find (fun p => idIsNumber w (id p) n) similarProducts) ids) in
        if length recommendations =? limit then Some recommendations else None
      else None
  | None => None
  end.

(** Lines 149-151. *)
Definition similarOrFallback (similarProducts fallbackProducts : list Product)
    (limit : nat) : list Product :=
  if limit <=? length similarProducts then slice0 limit similarProducts
  else fallbackProducts.

(** Lines 108-157. *)
Definition getRecommendations (productId : option string) (limit : nat)
    : M State (list Product) :=
  tryCatch
    (products <- getProductsWithOrderCounts ;;
     sortInPlace products ;;;
     sorted <- readArray products ;;
     let fallbackProducts := slice0 limit sorted in
     match truthyId productId with
     | None => ret fallbackProducts
     | Some pid =>
         all <- readArray products ;;
         match find (fun p => String.eqb (id p) pid) all with
         | None => ret fallbackProducts
         | Some currentProduct =>
             let similarProducts := similarOf pid currentProduct all limit in
             available <- (if USE_OLLAMA w then isOllamaAvailable else ret false) ;;
             ranked <- (if available && (limit <=? length similarProducts)
                        then
                          recommendedIds <- getOllamaRecommendations
                                              currentProduct similarProducts limit ;;
                          ret (rankedOf recommendedIds similarProducts limit)
                        else ret None) ;;
             match ranked with
             | Some recommendations => ret recommendations
             | None => ret (similarOrFallback similarProducts fallbackProducts limit)
             end
         end
     end)
    (fun _ => getPopularProducts limit).

End Effects.

End Cache.

(* ================================================================= *)
(** ** The warm-up request ([prewarmOllamaModel] of both files) *)

Module Warmup.

(** The world of a warm-up: the flag that disables the model, and what
    the endpoint answers to the warm-up POST.  Outbound calls are recorded
    by the text of their prompt. *)
Record World : Type := { USE_OLLAMA : bool; answer : Fetch }.

Definition State : Type := list (Call string).

Definition awaitFetch (prompt : string) (w : World) : M State (bool * Body) :=
  bind (modify (fun s : State => s ++ [Generate prompt]))
       (fun _ => match answer w with
                 | NetworkFailure => throw FetchError
                 | TimedOut => throw AbortError
                 | Http ok body => ret (ok, body)
                 end).

End Warmup.

Module PrismaWarmup.

Local Open Scope js_scope.

(** [src/unnamed/part_000], lines 517-549: the rejection of [fetch] is
    turned into [null] by [.catch], and the flag is not consulted. *)
Definition prewarmOllamaModel (w : Warmup.World) : M Warmup.State bool :=
  tryCatch
    (response <- tryCatch
                   (r <- Warmup.awaitFetch
                           "Hello, this is a warmup request to load the model into memory." w ;;
                    ret (Some r))
                   (fun _ => ret None) ;;
     match response with
     | Some (true, _) => ret true
     | _ => ret false
     end)
    (fun _ => ret false).

End PrismaWarmup.

Module CacheWarmup.

Local Open Scope js_scope.

(** [src/unnamed/part_012], lines 166-184. *)
Definition prewarmOllamaModel (w : Warmup.World) : M Warmup.State bool :=
  if negb (Warmup.USE_OLLAMA w) then ret false
  else
    tryCatch
      (response <- Warmup.awaitFetch "Warmup request" w ;;
       ret (fst response))
      (fun _ => ret false).

End CacheWarmup.

(* ================================================================= *)
(** ** Numbers as text *)

Definition digitChar (d : N) : ascii := ascii_of_N (48 + d).

(** The decimal digits of [n], most significant first; [fuel] bounds the
    number of digits. *)
Fixpoint decimalFuel (fuel : nat) (n : N) : list ascii :=
  match fuel with
  | O => [digitChar (n mod 10)]
  | S fuel' =>
      if (n <? 10)%N then [digitChar n]
      else decimalFuel fuel' (n / 10) ++ [digitChar (n mod 10)]
  end.

(** [String(n)] for a natural number [n]: what a template literal writes
    for an id, and what the prompts ask the model to answer with. *)
Definition decimal (n : N) : list ascii := decimalFuel (N.to_nat n) n.

(** [parts.join(sep)]. *)
Fixpoint joinWith (sep : list ascii) (parts : list (list ascii)) : list ascii :=
  match parts with
  | [] => []
  | [p] => p
  | p :: rest => p ++ sep ++ joinWith sep rest
  end.

(* ================================================================= *)
(** ** Vocabulary of the statements *)

(** Whether the probe is answered with a success status. *)
Definition probeOk (f : Fetch) : bool :=
  match f with Http ok _ => ok | _ => false end.

(** The text of a successful answer, if there is one. *)
Definition answerText (f : Fetch) : option (list ascii) :=
  match f with Http true (Text t) => Some (chars t) | _ => None end.

(** An answer of one of the failure kinds: network error, timeout,
    non-success status, malformed JSON, missing or empty text. *)
Definition failedAnswer (f : Fetch) : Prop :=
  f = NetworkFailure \/ f = TimedOut \/ (exists b, f = Http false b)
  \/ f = Http true BadJson \/ f = Http true NoText \/ f = Http true (Text "").

(** A list in descending order of a key. *)
Fixpoint descending {A : Type} (key : A -> Z) (l : list A) : Prop :=
  match l with
  | [] => True
  | x :: l' =>
      match l' with
      | [] => True
      | y :: _ => (key y <= key x)%Z
      end /\ descending key l'
  end.

Module PrismaSpec.
Import Prisma.

(** What the product ranker answers in a world, as a function of its
    arguments. *)
Definition productVerdict (w : World) (cur : Product) (pool : list Product) (limit : nat)
    : option (list N) :=
  if length pool <? limit then None
  else match answerText (generate w (ProductPrompt cur pool limit)) with
       | Some t => if isEmpty (productNumberMatches t) then None
                   else accept (validIds (productNumberMatches t) pool) limit
       | None => None
       end.

Definition hasProduct (item : OrderItem) : bool :=
  match product item with Some _ => true | None => false end.

Definition orderVerdict (w : World) (order : Order) (pool : list Product) (limit : nat)
    : option (list N) :=
  if length pool <? limit then None
  else if forallb hasProduct (items order) then
    match answerText (generate w (OrderPrompt order pool limit)) with
    | Some t => if isEmpty (matchBoundedDigits t) then None
                else accept (validIds (matchBoundedDigits t) pool) limit
    | None => None
    end
  else None.

(** The same world with the language model switched off. *)
Definition disabled (w : World) : World :=
  {| USE_OLLAMA := false; db := db w; storageUp := storageUp w;
     probe := probe w; generate := generate w |}.

(** How many integers of the answer [t] to a prompt map to candidate ids. *)
Definition validCount (p : Prompt) (t : list ascii) : nat :=
  match p with
  | ProductPrompt _ pool _ => length (validIds (productNumberMatches t) pool)
  | OrderPrompt _ pool _ => length (validIds (matchBoundedDigits t) pool)
  end.

(** Every answer of the model maps fewer than [min(2, limit)] integers to
    candidate ids. *)
Definition tooFewIds (w : World) (limit : nat) : Prop :=
  forall (p : Prompt) (t : list ascii),
    answerText (generate w p) = Some t -> validCount p t < Nat.min 2 limit.

(** Two states that differ in the recorded calls at most. *)
Definition sameStorage (s1 s2 : State) : Prop := queries s1 = queries s2.

(** The same world behind another endpoint. *)
Definition withEndpoint (w : World) (p : Fetch) (g : Prompt -> Fetch) : World :=
  {| USE_OLLAMA := USE_OLLAMA w; db := db w; storageUp := storageUp w;
     probe := p; generate := g |}.

(** The pool of the product path (lines 413-435). *)
Definition productPool (d : Db) (pid : N) (cur : Product) (limit : nat) : list Product :=
  let similar := similarCategoryQuery pid cur d in
  if length similar <? limit
  then poolOf similar (additionalQuery pid similar limit d)
  else similar.

(** Eligibility on the product path, as a proposition. *)
Definition sharesCategory (cur p : Product) : Prop :=
  exists c c', In c (categories p) /\ In c' (categories cur) /\ cat_id c = cat_id c'.

(** The bound on the pool a generation request may carry. *)
Definition poolWithin (limit : nat) (c : Call Prompt) : Prop :=
  match c with
  | Probe => True
  | Generate (ProductPrompt _ pool _) => length pool <= 10 + limit * 2
  | Generate (OrderPrompt _ pool _) => length pool <= limit * 2
  end.

(** Every outbound call recorded so far carries a pool within the bound. *)
Definition poolsWithin (limit : nat) (s : State) : Prop :=
  Forall (poolWithin limit) (calls s).

(** No two products of the list share an id. *)
Definition distinctIds (l : list Product) : Prop := NoDup (map id l).

(** The model never names an id twice. *)
Definition noRepeatedId (w : World) (limit : nat) : Prop :=
  (forall cur pool ids, productVerdict w cur pool limit = Some ids -> NoDup ids)
  /\ (forall order pool ids, orderVerdict w order pool limit = Some ids -> NoDup ids).


(** The storage answers every query. *)
Definition storageAlwaysUp (w : World) : Prop := forall n, storageUp w n = true.

(** Whether the orchestrator goes on to rank: flag and probe. *)
Definition rankingOn (w : World) : bool := USE_OLLAMA w && probeOk (probe w).

(** The outcome of the ranking attempt of the product path, [None] when
    ranking is skipped or fails. *)
Definition productRanking (w : World) (cur : Product) (pool : list Product) (limit : nat)
    : option (list Product) :=
  if rankingOn w && (limit <=? length pool)
  then rankedForProduct (productVerdict w cur pool limit) pool limit
  else None.

Definition orderRanking (w : World) (order : Order) (similar : list Product)
    (limit : nat) : option (list Product) :=
  if rankingOn w && (2 <=? length similar)
  then rankedForOrder (orderVerdict w order similar limit) similar limit
  else None.

(** The ranked products, in the order of the model's ids; the candidates
    the model did not name, in candidate order; the fallback products that
    are not candidates, in popularity order. *)
Definition rankedProducts (pool : list Product) (ids : list N) : list Product :=
  filterMapDefined (mapGet pool) ids.

Definition remainingProducts (pool : list Product) (ids : list N) : list Product :=
  filter (fun p => negb (includes ids (id p))) pool.

Definition padding (similar fb : list Product) : list Product :=
  filter (fun p => negb (existsb (fun sp => N.eqb (id sp) (id p)) similar)) fb.

(** A request seeded by an existing product that has categories, and one
    seeded by an existing order whose lines have categories. *)
Definition productSeeded (w : World) (productId orderId : option N) (pid : N)
    (cur : Product) : Prop :=
  truthyId orderId = None /\ truthyId productId = Some pid
  /\ findUniqueProduct pid (db w) = Some cur /\ categories cur <> [].

Definition orderSeeded (w : World) (orderId : option N) (oid : N) (order : Order)
    : Prop :=
  truthyId orderId = Some oid /\ findUniqueOrder oid (db w) = Some order
  /\ items order <> [] /\ orderCategoryIds order <> [].

(** What [getRecommendations] returns when the storage answers every
    query, as a function of the world and of the request. *)
Definition productAnswer (w : World) (pid : N) (limit : nat) (fb : list Product)
    : list Product :=
  match findUniqueProduct pid (db w) with
  | None => fb
  | Some cur =>
      if isEmpty (categories cur) then fb
      else
        match productRanking w cur (productPool (db w) pid cur limit) limit with
        | Some r => r
        | None => categoryThenFallback (similarCategoryQuery pid cur (db w)) fb limit
        end
  end.

Definition orderAnswer (w : World) (oid : N) (limit : nat) (fb : list Product)
    : list Product :=
  match findUniqueOrder oid (db w) with
  | None => fb
  | Some order =>
      if isEmpty (items order) then fb
      else if isEmpty (orderCategoryIds order) then fb
      else
        let similar := orderSimilarQuery order (orderCategoryIds order) limit (db w) in
        match orderRanking w order similar limit with
        | Some r => r
        | None => categoryThenFallbackOrder similar fb limit
        end
  end.

Definition answer (w : World) (productId orderId : option N) (limit : nat)
    : list Product :=
  let fb := fallbackQuery productId limit (db w) in
  match truthyId orderId with
  | Some oid => orderAnswer w oid limit fb
  | None =>
      match truthyId productId with
      | Some pid => productAnswer w pid limit fb
      | None => fb
      end
  end.

End PrismaSpec.

Module CacheSpec.
Import Cache.

(** The integers of an answer that the ranker keeps. *)
Definition keptIds (w : World) (pool : list Product) (limit : nat) (t : list ascii)
    : list N :=
  slice0 limit
    (filter (fun n => existsb (fun p => idIsNumber w (id p) n) pool)
            (map parseInt (matchDigits t))).

(** What the ranker answers in a world, as a function of its arguments. *)
Definition rankerVerdict (w : World) (cur : Product) (pool : list Product) (limit : nat)
    : option (list N) :=
  if length pool <? limit then None
  else match answerText (generate w (ProductPrompt cur pool limit)) with
       | Some t => match matchDigits t with
                   | [] => None
                   | _ => Some (keptIds w pool limit t)
                   end
       | None => None
       end.

Definition disabled (w : World) : World :=
  {| USE_OLLAMA := false; db := db w; storageUp := storageUp w; clock := clock w;
     idIsNumber := idIsNumber w; probe := probe w; generate := generate w |}.

(** Every answer of the model maps fewer than two integers to candidate
    ids. *)
Definition tooFewIds (w : World) (limit : nat) : Prop :=
  forall (p : Prompt) (t : list ascii),
    answerText (generate w p) = Some t ->
    length (keptIds w (promptPool p) limit t) < 2.

(** Two states that differ in the recorded calls at most. *)
Definition sameStorage (s1 s2 : State) : Prop :=
  productsCache s1 = productsCache s2 /\ queries s1 = queries s2
  /\ clockReads s1 = clockReads s2.

Definition withEndpoint (w : World) (p : Fetch) (g : Prompt -> Fetch) : World :=
  {| USE_OLLAMA := USE_OLLAMA w; db := db w; storageUp := storageUp w;
     clock := clock w; idIsNumber := idIsNumber w; probe := p; generate := g |}.

(** The cache holds the array [arr] and the next clock reading finds it
    fresh. *)
Definition freshWith (w : World) (s : State) (arr : list Product) : Prop :=
  data (productsCache s) = Some arr
  /\ (clock w (clockReads s) - lastUpdate (productsCache s) < 300000)%Z.

(** Eligibility, as a proposition. *)
Definition sharesCategory (cur p : Product) : Prop :=
  exists c, In c (categories p) /\ In c (categories cur).

Definition poolWithin (limit : nat) (c : Call Prompt) : Prop :=
  match c with
  | Probe => True
  | Generate (ProductPrompt _ pool _) => length pool <= limit * 2
  end.

Definition poolsWithin (limit : nat) (s : State) : Prop :=
  Forall (poolWithin limit) (calls s).

(** The array a refill stores (lines 29-49). *)
Definition refill (d : Db) : list Product :=
  map (withOrderCount (aggregateOrderCounts (orderDocs d))) (productDocs d).

(** Whether the next clock reading finds the cache usable (line 25). *)
Definition isFresh (w : World) (s : State) : bool :=
  match data (productsCache s) with
  | Some _ => (clock w (clockReads s) - lastUpdate (productsCache s) <? 300000)%Z
  | None => false
  end.

(** The array the accessor hands out from state [s], when it succeeds:
    the cached one if fresh, else a refill if both queries are answered. *)
Definition loaded (w : World) (s : State) : option (list Product) :=
  if isFresh w s then data (productsCache s)
  else if storageUp w (queries s) && storageUp w (S (queries s))
       then Some (refill (db w))
       else None.

Definition loadedAt (w : World) (s : State) : Z :=
  if isFresh w s then lastUpdate (productsCache s) else clock w (clockReads s).

Definition rankingOn (w : World) : bool := USE_OLLAMA w && probeOk (probe w).

(** The outcome of the ranking attempt, [None] when ranking is skipped,
    fails or is discarded. *)
Definition ranking (w : World) (cur : Product) (similar : list Product) (limit : nat)
    : option (list Product) :=
  if rankingOn w && (limit <=? length similar)
  then rankedOf w (rankerVerdict w cur similar limit) similar limit
  else None.

(** The ranked products, in the order of the model's ids. *)
Definition rankedProducts (w : World) (similar : list Product) (ids : list N)
    : list Product :=
  filterMapDefined (fun n => find (fun p => idIsNumber w (id p) n) similar) ids.

(** What [getRecommendations] returns once the accessor has handed out an
    array and the array has been sorted. *)
Definition answer (w : World) (sorted : list Product) (productId : option string)
    (limit : nat) : list Product :=
  let fb := slice0 limit sorted in
  match truthyId productId with
  | None => fb
  | Some pid =>
      match find (fun p => String.eqb (id p) pid) sorted with
      | None => fb
      | Some cur =>
          let similar := similarOf pid cur sorted limit in
          match ranking w cur similar limit with
          | Some r => r
          | None => similarOrFallback similar fb limit
          end
      end
  end.

End CacheSpec.

(** ** Invariants of computations

    [keeps I m post]: started in a state satisfying [I], the run of [m]
    ends in a state satisfying [I], by a return or by a throw, and a
    returned value satisfies [post]. *)
Definition keeps {S A : Type} (I : S -> Prop) (m : M S A) (post : A -> Prop) : Prop :=
  forall s, I s ->
    match m s with
    | (Ok a, s') => I s' /\ post a
    | (Throw _, s') => I s'
    end.

(** [related sim R m1 m2]: from states related by [sim], the runs of [m1]
    and [m2] end the same way, in states related by [sim]; returned values
    are related by [R], thrown exceptions are equal. *)
Definition related {S A B : Type} (sim : S -> S -> Prop) (R : A -> B -> Prop)
    (m1 : M S A) (m2 : M S B) : Prop :=
  forall s1 s2, sim s1 s2 ->
    match m1 s1, m2 s2 with
    | (Ok a, t1), (Ok b, t2) => R a b /\ sim t1 t2
    | (Throw e1, t1), (Throw e2, t2) => e1 = e2 /\ sim t1 t2
    | _, _ => False
    end.


(* ================================================================= *)
(** ** A small shop, for the examples *)

Module PrismaShop.
Import Prisma.

Definition catA : Category := {| cat_id := 1; cat_name := "A" |}.
Definition catB : Category := {| cat_id := 2; cat_name := "B" |}.

Definition item (i : N) (n : string) (c : Category) : Product :=
  {| id := i; name := n; description := None; categories := [c] |}.

Definition soap : Product := item 1 "soap" catA.
Definition brush : Product := item 2 "brush" catA.
Definition cup : Product := item 3 "cup" catB.
Definition bag : Product := item 4 "bag" catA.
Definition straw : Product := item 5 "straw" catA.

(** Five products; order 7 bought the soap. *)
Definition shop : Db :=
  {| products := [soap; brush; cup; bag; straw];
     orders := [ {| row_id := 7; row_items := [ {| row_productId := 1 |} ] |} ] |}.

(** The shop with the storage up or down, the model on or off, and a
    model that answers [text] to every prompt. *)
Definition world (use up : bool) (text : string) : World :=
  {| USE_OLLAMA := use; db := shop; storageUp := fun _ => up;
     probe := Http true NoText; generate := fun _ => Http true (Text text) |}.

End PrismaShop.

Module CacheShop.
Import Cache.
Local Open Scope string_scope.

Definition doc (i n c : string) (score : Z) : ProductDoc :=
  {| _id := i; doc_name := n; category := c; doc_sustainabilityScore := score |}.

(** Four products; one order bought five cups and one soap. *)
Definition shop : Db :=
  {| productDocs := [doc "a1" "soap" "A" 50; doc "a2" "brush" "A" 60;
                     doc "a3" "cup" "B" 50; doc "a4" "bag" "A" 90];
     orderDocs := [ {| orderItems := [ {| item_product := "a3"; quantity := 5 |};
                                       {| item_product := "a1"; quantity := 1 |} ] |} ] |}.

Definition soap : Product :=
  {| id := "a1"; name := "soap"; categories := ["A"]; orderCount := 1;
     sustainabilityScore := 50 |}.
Definition brush : Product :=
  {| id := "a2"; name := "brush"; categories := ["A"]; orderCount := 0;
     sustainabilityScore := 60 |}.
Definition cup : Product :=
  {| id := "a3"; name := "cup"; categories := ["B"]; orderCount := 5;
     sustainabilityScore := 50 |}.
Definition bag : Product :=
  {| id := "a4"; name := "bag"; categories := ["A"]; orderCount := 0;
     sustainabilityScore := 90 |}.

(** Ids are document ids, integers are numbers: [===] never holds between
    them. *)
Definition world (use up : bool) (text : string) : World :=
  {| USE_OLLAMA := use; db := shop; storageUp := fun _ => up;
     clock := fun n => (1000000 + Z.of_nat n)%Z;
     idIsNumber := fun _ _ => false;
     probe := Http true NoText; generate := fun _ => Http true (Text text) |}.

(** A state whose cache was filled at time 999000 with the products in
    collection order. *)
Definition warm : State :=
  {| productsCache := {| data := Some [soap; brush; cup; bag]; lastUpdate := 999000 |};
     queries := 0; clockReads := 0; calls := [] |}.

End CacheShop.

(* ================================================================= *)
(** ** Vocabulary of the further statements *)

(** [emits log m allowed]: whatever the run of [m] does, what it appends
    to the log of outbound calls satisfies [allowed]. *)
Definition emits {S A P : Type} (log : S -> list (Call P)) (m : M S A)
    (allowed : list (Call P) -> Prop) : Prop :=
  forall s, exists cs, log (snd (m s)) = log s ++ cs /\ allowed cs.

(** The outbound calls one run of the Prisma [getRecommendations] may
    issue: none with the model disabled; else the probe, followed by one
    generation request at most, and only if the probe succeeded. *)
Definition prismaCallsOf (w : Prisma.World) (cs : list (Call Prisma.Prompt)) : Prop :=
  if Prisma.USE_OLLAMA w
  then cs = [Probe]
       \/ (probeOk (Prisma.probe w) = true /\ exists p, cs = [Probe; Generate p])
  else cs = [].

(** The same for the cache-based one, which probes only once the current
    product is found. *)
Definition cacheCallsOf (w : Cache.World) (cs : list (Call Cache.Prompt)) : Prop :=
  cs = []
  \/ (Cache.USE_OLLAMA w = true
      /\ (cs = [Probe]
          \/ (probeOk (Cache.probe w) = true /\ exists p, cs = [Probe; Generate p]))).

(** What a path of the Prisma orchestrator may issue, given the outcome
    [b] of flag and probe. *)
Definition pathCallsOf (b : bool) (cs : list (Call Prisma.Prompt)) : Prop :=
  cs = [] \/ (b = true /\ exists p, cs = [Generate p]).

(** The shop behind a storage that rejects the first query of a run and
    answers the following ones. *)
Definition flakyShop : Prisma.World :=
  {| Prisma.USE_OLLAMA := false; Prisma.db := PrismaShop.shop;
     Prisma.storageUp := fun n => negb (n =? 0);
     Prisma.probe := NetworkFailure; Prisma.generate := fun _ => NetworkFailure |}.

(** An endpoint that is up, and one that cannot be reached, with the model
    enabled or not. *)
Definition warmEndpoint (use : bool) : Warmup.World :=
  {| Warmup.USE_OLLAMA := use; Warmup.answer := Http true NoText |}.

Definition deadEndpoint (use : bool) : Warmup.World :=
  {| Warmup.USE_OLLAMA := use; Warmup.answer := NetworkFailure |}.

(** A shop whose document ids are numbers, so that [p.id === n] holds
    exactly when the id is [n]: brush, bag and straw are similar to the
    soap. *)
Module NumericShop.
Import Cache.
Local Open Scope string_scope.

Definition item (i n : string) (count score : Z) : Product :=
  {| id := i; name := n; categories := ["A"]; orderCount := count;
     sustainabilityScore := score |}.

Definition soap : Product := item "1" "soap" 1 50.
Definition brush : Product := item "2" "brush" 0 60.
Definition bag : Product := item "4" "bag" 0 55.
Definition straw : Product := item "5" "straw" 0 45.

Definition shop : Db :=
  {| productDocs := [CacheShop.doc "1" "soap" "A" 50; CacheShop.doc "2" "brush" "A" 60;
                     CacheShop.doc "4" "bag" "A" 55; CacheShop.doc "5" "straw" "A" 45];
     orderDocs := [ {| orderItems := [ {| item_product := "1"; quantity := 1 |} ] |} ] |}.

Definition world (text : string) : World :=
  {| USE_OLLAMA := true; db := shop; storageUp := fun _ => true;
     clock := fun n => (1000000 + Z.of_nat n)%Z;
     idIsNumber := fun i n => String.eqb i (string_of_list_ascii (decimal n));
     probe := Http true NoText; generate := fun _ => Http true (Text text) |}.

End NumericShop.

(** ** Answers in the format the prompts ask for *)

(** A character that may separate two ids of an answer: no word character
    and no line break. *)
Definition isSeparator (c : ascii) : bool := negb (isWordChar c) && negb (isNewline c).

Definition isColon (c : ascii) : bool := Ascii.eqb c ":"%char.

(** The ids written in decimal, separated by [sep]. *)
Definition idList (sep : list ascii) (ids : list N) : list ascii :=
  joinWith sep (map decimal ids).

(** What follows the id line, if anything: a line break first. *)
Definition startsNewLine (tail : list ascii) : Prop :=
  match tail with [] => True | c :: _ => isNewline c = true end.

(** ** Eligibility on the order path *)

(** The condition of the category selection of the order path. *)
Definition orderEligible (order : Prisma.Order) (p : Prisma.Product) : bool :=
  negb (Prisma.includes (map Prisma.productId (Prisma.items order)) (Prisma.id p))
  && Prisma.inCategories (Prisma.orderCategoryIds order) p.

(** [p] shares a category with a product bought by the order. *)
Definition sharesCategoryWithOrder (order : Prisma.Order) (p : Prisma.Product) : Prop :=
  exists item q c c',
    In item (Prisma.items order) /\ Prisma.product item = Some q
    /\ In c (Prisma.categories p) /\ In c' (Prisma.categories q)
    /\ Prisma.cat_id c = Prisma.cat_id c'.

(** Order 7 of the shop, as the storage loads it. *)
Definition order7 : Prisma.Order :=
  {| Prisma.order_id := 7;
     Prisma.items := [ {| Prisma.productId := 1;
                          Prisma.product := Some PrismaShop.soap |} ] |}.

(** ** Popularity *)


(** ** The order count of a product *)

(** The total quantity of the product [pid] over all order lines. *)
Definition totalQuantity (d : Cache.Db) (pid : Cache.ObjectId) : Z :=
  fold_right Z.add 0%Z
    (map Cache.quantity
         (filter (fun l => String.eqb (Cache.item_product l) pid)
                 (flat_map Cache.orderItems (Cache.orderDocs d)))).

(** The product a refill makes of a document. *)
Definition counted (d : Cache.Db) (doc : Cache.ProductDoc) : Cache.Product :=
  {| Cache.id := Cache._id doc;
     Cache.name := Cache.doc_name doc;
     Cache.categories := [Cache.category doc];
     Cache.orderCount := totalQuantity d (Cache._id doc);
     Cache.sustainabilityScore := Cache.doc_sustainabilityScore doc |}.

(** ** Requests without a usable seed *)

(** The request names no order and no product, or names one the storage
    does not hold, or one without categories (an order without lines). *)
Definition noUsableSeed (d : Prisma.Db) (productId orderId : option N) : Prop :=
  match Prisma.truthyId orderId with
  | Some oid =>
      match Prisma.findUniqueOrder oid d with
      | None => True
      | Some order => Prisma.items order = [] \/ Prisma.orderCategoryIds order = []
      end
  | None =>
      match Prisma.truthyId productId with
      | None => True
      | Some pid =>
          match Prisma.findUniqueProduct pid d with
          | None => True
          | Some cur => Prisma.categories cur = []
          end
      end
  end.

(** The request names no product, or one that is not in the array. *)
Definition noCurrentProduct (arr : list Cache.Product) (productId : option string) : Prop :=
  match Cache.truthyId productId with
  | None => True
  | Some pid => forall p, In p arr -> Cache.id p <> pid
  end.

(** The shop behind a storage that answers the first query of a run and
    rejects the following ones. *)
Definition onceShop : Prisma.World :=
  {| Prisma.USE_OLLAMA := true; Prisma.db := PrismaShop.shop;
     Prisma.storageUp := fun n => n =? 0;
     Prisma.probe := Http true NoText;
     Prisma.generate := fun _ => Http true (Text "2, 4") |}.

(** The shop with a second order, 8, one of whose lines names a product
    that is no longer in the product table. *)
Definition danglingShop (text : string) : Prisma.World :=
  {| Prisma.USE_OLLAMA := true;
     Prisma.db :=
       {| Prisma.products := Prisma.products PrismaShop.shop;
          Prisma.orders :=
            Prisma.orders PrismaShop.shop
            ++ [ {| Prisma.row_id := 8;
                    Prisma.row_items := [ {| Prisma.row_productId := 99 |};
                                          {| Prisma.row_productId := 1 |} ] |} ] |};
     Prisma.storageUp := fun _ => true;
     Prisma.probe := Http true NoText;
     Prisma.generate := fun _ => Http true (Text text) |}.

(* ================================================================= *)
(** ** One run, under any storage *)

(** The generation requests that one call of [getRecommendations] sends
    from state [s]: the requests it appends to the log of outbound
    calls. *)
Definition prismaSent (w : Prisma.World) (productId orderId : option N) (limit : nat)
    (s : Prisma.State) (p : Prisma.Prompt) : Prop :=
  exists cs,
    Prisma.calls (final (Prisma.getRecommendations w productId orderId limit) s)
    = Prisma.calls s ++ cs
    /\ In (Generate p) cs.

Definition cacheSent (w : Cache.World) (productId : option string) (limit : nat)
    (s : Cache.State) (p : Cache.Prompt) : Prop :=
  exists cs,
    Cache.calls (final (Cache.getRecommendations w productId limit) s)
    = Cache.calls s ++ cs
    /\ In (Generate p) cs.

(** The answer of the model to the prompt [p], if it has a text, maps
    fewer than [min(2, limit)] integers to candidates of [p]. *)
Definition fewValidIds (w : Prisma.World) (limit : nat) (p : Prisma.Prompt) : Prop :=
  forall t, answerText (Prisma.generate w p) = Some t ->
            PrismaSpec.validCount p t < Nat.min 2 limit.

(** The same for the cache-based implementation, whose orchestrator wants
    two ids: the ids the ranker keeps from the answer to [p] are fewer
    than two. *)
Definition fewKeptIds (w : Cache.World) (limit : nat) (p : Cache.Prompt) : Prop :=
  forall t, answerText (Cache.generate w p) = Some t ->
            length (CacheSpec.keptIds w (Cache.promptPool p) limit t) < 2.

(** What the ranking blocks and the paths of the Prisma orchestrator
    return, and the generation requests they send, as functions of the
    index [q] of the next storage query. *)
Definition productRank (w : Prisma.World) (cur : Prisma.Product)
    (pool similar fb : list Prisma.Product) (limit : nat) (b : bool)
    : list Prisma.Product * list (Call Prisma.Prompt) :=
  if b && (limit <=? length pool)
  then (match Prisma.rankedForProduct (PrismaSpec.productVerdict w cur pool limit)
                pool limit with
        | Some r => r
        | None => Prisma.categoryThenFallback similar fb limit
        end,
        [Generate (Prisma.ProductPrompt cur pool limit)])
  else (Prisma.categoryThenFallback similar fb limit, []).

Definition productRun (w : Prisma.World) (pid : N) (limit : nat) (b : bool)
    (fb : list Prisma.Product) (q : nat)
    : list Prisma.Product * list (Call Prisma.Prompt) :=
  if Prisma.storageUp w q then
    match Prisma.findUniqueProduct pid (Prisma.db w) with
    | None => (fb, [])
    | Some cur =>
        if Prisma.isEmpty (Prisma.categories cur) then (fb, [])
        else if Prisma.storageUp w (S q) then
          let similar := Prisma.similarCategoryQuery pid cur (Prisma.db w) in
          if length similar <? limit then
            if Prisma.storageUp w (S (S q))
            then productRank w cur
                   (Prisma.poolOf similar
                      (Prisma.additionalQuery pid similar limit (Prisma.db w)))
                   similar fb limit b
            else (fb, [])
          else productRank w cur similar similar fb limit b
        else (fb, [])
    end
  else (fb, []).

Definition orderRank (w : Prisma.World) (order : Prisma.Order)
    (similar fb : list Prisma.Product) (limit : nat) (b : bool)
    : list Prisma.Product * list (Call Prisma.Prompt) :=
  if b && (2 <=? length similar)
  then (match Prisma.rankedForOrder (PrismaSpec.orderVerdict w order similar limit)
                similar limit with
        | Some r => r
        | None => Prisma.categoryThenFallbackOrder similar fb limit
        end,
        if length similar <? limit then []
        else if forallb PrismaSpec.hasProduct (Prisma.items order)
             then [Generate (Prisma.OrderPrompt order similar limit)]
             else [])
  else (Prisma.categoryThenFallbackOrder similar fb limit, []).

Definition orderRun (w : Prisma.World) (oid : N) (limit : nat) (b : bool)
    (fb : list Prisma.Product) (q : nat)
    : list Prisma.Product * list (Call Prisma.Prompt) :=
  if Prisma.storageUp w q then
    match Prisma.findUniqueOrder oid (Prisma.db w) with
    | None => (fb, [])
    | Some order =>
        if Prisma.isEmpty (Prisma.items order) then (fb, [])
        else if Prisma.isEmpty (Prisma.orderCategoryIds order) then (fb, [])
        else if Prisma.storageUp w (S q)
             then orderRank w order
                    (Prisma.orderSimilarQuery order (Prisma.orderCategoryIds order)
                       limit (Prisma.db w))
                    fb limit b
             else (fb, [])
    end
  else (fb, []).

Definition pathRun (w : Prisma.World) (productId orderId : option N) (limit : nat)
    (b : bool) (q : nat) : list Prisma.Product * list (Call Prisma.Prompt) :=
  let fb := Prisma.fallbackQuery productId limit (Prisma.db w) in
  match Prisma.truthyId orderId with
  | Some oid => orderRun w oid limit b fb q
  | None =>
      match Prisma.truthyId productId with
      | Some pid => productRun w pid limit b fb q
      | None => (fb, [])
      end
  end.

(** The calls the probing step appends. *)
Definition probeCalls (w : Prisma.World) : list (Call Prisma.Prompt) :=
  if Prisma.USE_OLLAMA w then [Probe] else [].

(** The same for the ranking block of the cache-based orchestrator. *)
Definition cacheRankCalls (w : Cache.World) (cur : Cache.Product)
    (similar : list Cache.Product) (limit : nat) : list (Call Cache.Prompt) :=
  if Cache.USE_OLLAMA w
  then Probe :: (if probeOk (Cache.probe w) && (limit <=? length similar)
                 then [Generate (Cache.ProductPrompt cur similar limit)]
                 else [])
  else [].

Definition cacheCalls (w : Cache.World) (sorted : list Cache.Product)
    (productId : option string) (limit : nat) : list (Call Cache.Prompt) :=
  match Cache.truthyId productId with
  | None => []
  | Some pid =>
      match find (fun p => String.eqb (Cache.id p) pid) sorted with
      | None => []
      | Some cur => cacheRankCalls w cur (Cache.similarOf pid cur sorted limit) limit
      end
  end.

(* ================================================================= *)
(** ** The states of the cache *)


(* ================================================================= *)
(** ** Lists *)

Lemma slice0_length (A : Type) (n : nat) (l : list A) : length (slice0 n l) <= n.
Proof. unfold slice0. rewrite length_firstn. lia. Qed.

Lemma insertDesc_perm (A : Type) (key : A -> Z) (x : A) (l : list A) :
  Permutation (insertDesc key x l) (x :: l).
Proof.
  induction l as [|y l IH]; simpl.
  - apply Permutation_refl.
  - destruct (key x <? key y)%Z.
    + eapply perm_trans; [apply perm_skip, IH | apply perm_swap].
    + apply Permutation_refl.
Qed.

Lemma sortDesc_perm (A : Type) (key : A -> Z) (l : list A) :
  Permutation (sortDesc key l) l.
Proof.
  induction l as [|x l IH]; simpl.
  - apply perm_nil.
  - eapply perm_trans; [apply insertDesc_perm | apply perm_skip, IH].
Qed.

Lemma sortDesc_In (A : Type) (key : A -> Z) (l : list A) (x : A) :
  In x (sortDesc key l) <-> In x l.
Proof.
  split; apply Permutation_in; [|apply Permutation_sym]; apply sortDesc_perm.
Qed.

(* ================================================================= *)
(** ** The rankers, run *)

Lemma prisma_isOllamaAvailable_run (w : Prisma.World) (s : Prisma.State) :
  Prisma.isOllamaAvailable w s = (Ok (probeOk (Prisma.probe w)), Prisma.withCall Probe s).
Proof.
  unfold Prisma.isOllamaAvailable, tryCatch, bind, Prisma.awaitFetch, Prisma.record,
    modify, bind, probeOk.
  destruct (Prisma.probe w); reflexivity.
Qed.

Lemma prisma_product_ranker_run (w : Prisma.World) (cur : Prisma.Product)
    (pool : list Prisma.Product) (limit : nat) (s : Prisma.State) :
  Prisma.getOllamaRecommendations w cur pool limit s =
  (Ok (PrismaSpec.productVerdict w cur pool limit),
   if length pool <? limit then s
   else Prisma.withCall (Generate (Prisma.ProductPrompt cur pool limit)) s).
Proof.
  unfold Prisma.getOllamaRecommendations, PrismaSpec.productVerdict.
  destruct (length pool <? limit); [reflexivity|].
  unfold tryCatch, bind, Prisma.awaitFetch, Prisma.record, modify, bind, answerText.
  destruct (Prisma.generate w _) as [| |ok body]; try reflexivity.
  destruct ok; simpl; [|reflexivity].
  destruct body; simpl; try reflexivity.
  destruct (Prisma.isEmpty _); reflexivity.
Qed.

Lemma prisma_order_ranker_run (w : Prisma.World) (order : Prisma.Order)
    (pool : list Prisma.Product) (limit : nat) (s : Prisma.State) :
  Prisma.getOllamaRecommendationsForOrder w order pool limit s =
  (Ok (PrismaSpec.orderVerdict w order pool limit),
   if length pool <? limit then s
   else if forallb PrismaSpec.hasProduct (Prisma.items order)
        then Prisma.withCall (Generate (Prisma.OrderPrompt order pool limit)) s
        else s).
Proof.
  unfold Prisma.getOllamaRecommendationsForOrder, PrismaSpec.orderVerdict.
  destruct (length pool <? limit); [reflexivity|].
  unfold tryCatch, bind, Prisma.awaitFetch, Prisma.record, modify, bind, answerText.
  fold PrismaSpec.hasProduct.
  destruct (forallb _ _); [|reflexivity].
  destruct (Prisma.generate w _) as [| |ok body]; try reflexivity.
  destruct ok; simpl; [|reflexivity].
  destruct body; simpl; try reflexivity.
  destruct (Prisma.isEmpty _); reflexivity.
Qed.

(* ================================================================= *)
(** ** Rules for invariants *)

Section Keeps.

Context {S : Type} (I : S -> Prop).

Lemma keeps_ret (A : Type) (a : A) (post : A -> Prop) :
  post a -> keeps I (ret a) post.
Proof. intros Ha s Hs. simpl. auto. Qed.

Lemma keeps_throw (A : Type) (e : Exn) (post : A -> Prop) :
  keeps I (throw e) post.
Proof. intros s Hs. simpl. auto. Qed.

Lemma keeps_bind (A B : Type) (m : M S A) (k : A -> M S B)
    (mid : A -> Prop) (post : B -> Prop) :
  keeps I m mid -> (forall a, mid a -> keeps I (k a) post) ->
  keeps I (bind m k) post.
Proof.
  intros Hm Hk s Hs. unfold bind. specialize (Hm s Hs).
  destruct (m s) as [[a|e] s']; [|exact Hm].
  destruct Hm as [Hs' Ha]. apply (Hk a Ha s' Hs').
Qed.

Lemma keeps_tryCatch (A : Type) (m : M S A) (h : Exn -> M S A) (post : A -> Prop) :
  keeps I m post -> (forall e, keeps I (h e) post) ->
  keeps I (tryCatch m h) post.
Proof.
  intros Hm Hh s Hs. unfold tryCatch. specialize (Hm s Hs).
  destruct (m s) as [[a|e] s']; [exact Hm|].
  apply (Hh e s' Hm).
Qed.

Lemma keeps_weaken (A : Type) (m : M S A) (post post' : A -> Prop) :
  keeps I m post -> (forall a, post a -> post' a) -> keeps I m post'.
Proof.
  intros Hm Hw s Hs. specialize (Hm s Hs).
  destruct (m s) as [[a|e] s']; [|exact Hm].
  destruct Hm; auto.
Qed.

Lemma keeps_run (A : Type) (m : M S A) (post : A -> Prop) (f : S -> A) (g : S -> S) :
  (forall s, m s = (Ok (f s), g s)) ->
  (forall s, I s -> I (g s) /\ post (f s)) ->
  keeps I m post.
Proof. intros Hrun Hg s Hs. rewrite Hrun. auto. Qed.

End Keeps.

Lemma prisma_keeps_query (I : Prisma.State -> Prop) (w : Prisma.World) (A : Type)
    (q : Prisma.Db -> A) :
  (forall s, I s -> I (Prisma.asked s)) ->
  keeps I (Prisma.query w q) (fun a => a = q (Prisma.db w)).
Proof.
  intros Hstep s Hs. unfold Prisma.query.
  destruct (Prisma.storageUp w (Prisma.queries s)); auto.
Qed.

Lemma keeps_bind_any (S A B : Type) (I : S -> Prop) (m : M S A) (k : A -> M S B)
    (post : B -> Prop) :
  keeps I m (fun _ => True) -> (forall a, keeps I (k a) post) ->
  keeps I (bind m k) post.
Proof. intros Hm Hk. eapply keeps_bind; [exact Hm | intros a _; apply Hk]. Qed.

Lemma prisma_keeps_query_any (I : Prisma.State -> Prop) (w : Prisma.World) (A : Type)
    (q : Prisma.Db -> A) :
  (forall s, I s -> I (Prisma.asked s)) ->
  keeps I (Prisma.query w q) (fun _ => True).
Proof.
  intros H. eapply keeps_weaken; [apply prisma_keeps_query, H | trivial].
Qed.

(** One structural step of a proof that a computation keeps an invariant
    whatever it returns. *)
Ltac keeps_any_step :=
  match goal with
  | |- keeps _ (ret _) _ => apply keeps_ret; exact Logic.I
  | |- keeps _ (throw _) _ => apply keeps_throw
  | |- keeps _ (Prisma.query _ _) _ => apply prisma_keeps_query_any; intros ? ?; assumption
  | |- keeps _ (Prisma.getPopularProducts _ _) _ =>
      apply prisma_keeps_query_any; intros ? ?; assumption
  | |- keeps _ (bind _ _) _ => apply keeps_bind_any; [| intros ?]
  | |- keeps _ (tryCatch _ _) _ => apply keeps_tryCatch; [| intros ?]
  | |- keeps _ (match ?x with _ => _ end) _ => destruct x
  end.

(** With the language model switched off, the two paths issue no call. *)
Lemma prisma_paths_silent (w : Prisma.World) (cs : list (Call Prisma.Prompt))
    (limit : nat) (fb : list Prisma.Product) (i : N) :
  keeps (fun s => Prisma.calls s = cs) (Prisma.orderPath w i limit false fb)
        (fun _ => True)
  /\ keeps (fun s => Prisma.calls s = cs) (Prisma.productPath w i limit false fb)
           (fun _ => True).
Proof.
  split.
  - unfold Prisma.orderPath. simpl andb. cbv iota. repeat keeps_any_step.
  - unfold Prisma.productPath. simpl andb. cbv iota. repeat keeps_any_step.
Qed.

Lemma prisma_disabled_silent (w : Prisma.World) (productId orderId : option N)
    (limit : nat) (cs : list (Call Prisma.Prompt)) :
  Prisma.USE_OLLAMA w = false ->
  keeps (fun s => Prisma.calls s = cs)
        (Prisma.getRecommendations w productId orderId limit) (fun _ => True).
Proof.
  intros Hoff. unfold Prisma.getRecommendations. rewrite Hoff.
  apply keeps_tryCatch; [| intros e; keeps_any_step].
  eapply keeps_bind; [apply keeps_ret with (post := fun b => b = false); reflexivity|].
  intros b ->. apply keeps_bind_any; [keeps_any_step|]. intros fb.
  destruct (Prisma.truthyId orderId); [apply prisma_paths_silent|].
  destruct (Prisma.truthyId productId); [apply prisma_paths_silent|].
  keeps_any_step.
Qed.

Lemma prisma_disabled_blind (w : Prisma.World) (productId orderId : option N)
    (limit : nat) (s : Prisma.State) (p : Fetch) (g : Prisma.Prompt -> Fetch) :
  Prisma.USE_OLLAMA w = false ->
  Prisma.getRecommendations (PrismaSpec.withEndpoint w p g) productId orderId limit s
  = Prisma.getRecommendations w productId orderId limit s.
Proof.
  intros Hoff. destruct w as [use d up p0 g0]. simpl in Hoff. subst use.
  reflexivity.
Qed.

(* ================================================================= *)
(** ** The cache-based implementation: runs and rules *)

Lemma cache_isOllamaAvailable_run (w : Cache.World) (s : Cache.State) :
  Cache.isOllamaAvailable w s = (Ok (probeOk (Cache.probe w)), Cache.withCall Probe s).
Proof.
  unfold Cache.isOllamaAvailable, tryCatch, bind, Cache.awaitFetch, Cache.record,
    modify, bind, probeOk.
  destruct (Cache.probe w); reflexivity.
Qed.

Lemma cache_ranker_run (w : Cache.World) (cur : Cache.Product)
    (pool : list Cache.Product) (limit : nat) (s : Cache.State) :
  Cache.getOllamaRecommendations w cur pool limit s =
  (Ok (CacheSpec.rankerVerdict w cur pool limit),
   if length pool <? limit then s
   else Cache.withCall (Generate (Cache.ProductPrompt cur pool limit)) s).
Proof.
  unfold Cache.getOllamaRecommendations, CacheSpec.rankerVerdict, CacheSpec.keptIds.
  destruct (length pool <? limit); [reflexivity|].
  unfold tryCatch, bind, Cache.awaitFetch, Cache.record, modify, bind, answerText.
  destruct (Cache.generate w _) as [| |ok body]; try reflexivity.
  destruct ok; simpl; [|reflexivity].
  destruct body; simpl; try reflexivity.
  destruct (matchDigits _); reflexivity.
Qed.

Lemma cache_keeps_query (I : Cache.State -> Prop) (w : Cache.World) (A : Type)
    (q : Cache.Db -> A) :
  (forall s, I s -> I (Cache.asked s)) ->
  keeps I (Cache.query w q) (fun a => a = q (Cache.db w)).
Proof.
  intros Hstep s Hs. unfold Cache.query.
  destruct (Cache.storageUp w (Cache.queries s)); auto.
Qed.

Lemma cache_keeps_dateNow (I : Cache.State -> Prop) (w : Cache.World) :
  (forall s, I s -> I (Cache.ticked s)) ->
  keeps I (Cache.dateNow w) (fun _ => True).
Proof. intros Hstep s Hs. simpl. auto. Qed.

Lemma cache_keeps_gets (I : Cache.State -> Prop) (A : Type) (f : Cache.State -> A) :
  keeps I (gets f) (fun _ => True).
Proof. intros s Hs. simpl. auto. Qed.

Lemma cache_keeps_setCache (I : Cache.State -> Prop) (c : Cache.ProductsCache) :
  (forall s, I s -> I (Cache.withCache c s)) ->
  keeps I (Cache.setCache c) (fun _ => True).
Proof. intros Hstep s Hs. simpl. auto. Qed.

(** The cache accessor and the in-place sort touch the cache, the clock
    and the storage only: an invariant of the outbound calls is kept. *)
Section CacheCalls.

Variable w : Cache.World.
Variable I : Cache.State -> Prop.
Hypothesis I_asked : forall s, I s -> I (Cache.asked s).
Hypothesis I_ticked : forall s, I s -> I (Cache.ticked s).
Hypothesis I_withCache : forall c s, I s -> I (Cache.withCache c s).

Lemma cache_keeps_readArray (r : Cache.ArrayRef) :
  keeps I (Cache.readArray r) (fun _ => True).
Proof.
  unfold Cache.readArray. apply keeps_bind_any; [apply cache_keeps_gets|].
  intros c. destruct (Cache.data c); [apply keeps_ret; exact Logic.I | apply keeps_throw].
Qed.

Lemma cache_keeps_sortInPlace (r : Cache.ArrayRef) :
  keeps I (Cache.sortInPlace r) (fun _ => True).
Proof.
  unfold Cache.sortInPlace.
  apply keeps_bind_any; [apply cache_keeps_readArray|]. intros arr.
  apply keeps_bind_any; [apply cache_keeps_gets|]. intros c.
  apply cache_keeps_setCache. auto.
Qed.

Lemma cache_keeps_accessor :
  keeps I (Cache.getProductsWithOrderCounts w) (fun _ => True).
Proof.
  unfold Cache.getProductsWithOrderCounts.
  apply keeps_bind_any; [apply cache_keeps_dateNow, I_ticked|]. intros now.
  apply keeps_bind_any; [apply cache_keeps_gets|]. intros c.
  match goal with |- keeps _ (if ?b then _ else _) _ => destruct b end.
  - apply keeps_ret; exact Logic.I.
  - apply keeps_bind_any;
      [eapply keeps_weaken; [apply cache_keeps_query, I_asked | trivial]|].
    intros products.
    apply keeps_bind_any;
      [eapply keeps_weaken; [apply cache_keeps_query, I_asked | trivial]|].
    intros counts.
    apply keeps_bind_any; [apply cache_keeps_setCache; auto|]. intros _.
    apply keeps_ret; exact Logic.I.
Qed.

Lemma cache_keeps_popular (limit : nat) :
  keeps I (Cache.getPopularProducts w limit) (fun _ => True).
Proof.
  unfold Cache.getPopularProducts.
  apply keeps_bind_any; [apply cache_keeps_accessor|]. intros r.
  apply keeps_bind_any; [apply cache_keeps_sortInPlace|]. intros _.
  apply keeps_bind_any; [apply cache_keeps_readArray|]. intros sorted.
  apply keeps_ret; exact Logic.I.
Qed.

End CacheCalls.

Lemma cache_disabled_silent (w : Cache.World) (productId : option string)
    (limit : nat) (cs : list (Call Cache.Prompt)) :
  Cache.USE_OLLAMA w = false ->
  keeps (fun s => Cache.calls s = cs)
        (Cache.getRecommendations w productId limit) (fun _ => True).
Proof.
  intros Hoff. unfold Cache.getRecommendations. rewrite Hoff.
  apply keeps_tryCatch; [| intros e; apply cache_keeps_popular; auto].
  apply keeps_bind_any; [apply cache_keeps_accessor; auto|]. intros r.
  apply keeps_bind_any; [apply cache_keeps_sortInPlace; auto|]. intros _.
  apply keeps_bind_any; [apply cache_keeps_readArray|]. intros sorted.
  destruct (Cache.truthyId productId); [| apply keeps_ret; exact Logic.I].
  apply keeps_bind_any; [apply cache_keeps_readArray|]. intros all.
  destruct (find _ all); [| apply keeps_ret; exact Logic.I].
  eapply keeps_bind; [apply keeps_ret with (post := fun b => b = false); reflexivity|].
  intros b ->. simpl andb. cbv iota.
  apply keeps_bind_any; [apply keeps_ret; exact Logic.I|]. intros ranked.
  destruct ranked; apply keeps_ret; exact Logic.I.
Qed.

Lemma cache_disabled_blind (w : Cache.World) (productId : option string)
    (limit : nat) (s : Cache.State) (p : Fetch) (g : Cache.Prompt -> Fetch) :
  Cache.USE_OLLAMA w = false ->
  Cache.getRecommendations (CacheSpec.withEndpoint w p g) productId limit s
  = Cache.getRecommendations w productId limit s.
Proof.
  intros Hoff. destruct w as [use d up clk eqn p0 g0]. simpl in Hoff. subst use.
  reflexivity.
Qed.

Lemma keeps_final (S A : Type) (I : S -> Prop) (m : M S A) (post : A -> Prop) (s : S) :
  keeps I m post -> I s -> I (final m s).
Proof.
  intros Hm Hs. unfold final. specialize (Hm s Hs).
  destruct (m s) as [[a|e] s']; simpl; [apply Hm | exact Hm].
Qed.

(* ================================================================= *)
(** ** The candidate pool *)

Lemma prisma_findMany_length (wh : Prisma.Product -> bool) (b : bool) (take : nat)
    (d : Prisma.Db) :
  length (Prisma.findMany wh b take d) <= take.
Proof. unfold Prisma.findMany. rewrite length_firstn. lia. Qed.

Lemma prisma_productPool_length (d : Prisma.Db) (pid : N) (cur : Prisma.Product)
    (limit : nat) :
  length (PrismaSpec.productPool d pid cur limit) <= 10 + limit * 2.
Proof.
  unfold PrismaSpec.productPool, Prisma.poolOf.
  pose proof (prisma_findMany_length
                (fun p => negb (N.eqb (Prisma.id p) pid)
                          && Prisma.inCategories
                               (map Prisma.cat_id (Prisma.categories cur)) p)
                false 10 d) as Hs.
  fold (Prisma.similarCategoryQuery pid cur) in Hs.
  destruct (length _ <? limit).
  - rewrite length_app.
    pose proof (prisma_findMany_length
                  (fun p => negb (N.eqb (Prisma.id p) pid)
                            && negb (Prisma.includes
                                       (map Prisma.id (Prisma.similarCategoryQuery pid cur d))
                                       (Prisma.id p)))
                  true (limit * 2) d) as Ha.
    fold (Prisma.additionalQuery pid (Prisma.similarCategoryQuery pid cur d) limit) in Ha.
    lia.
  - lia.
Qed.

Section PrismaPool.

Variable w : Prisma.World.
Variable limit : nat.

Lemma prisma_pool_asked (s : Prisma.State) : PrismaSpec.poolsWithin limit s -> PrismaSpec.poolsWithin limit (Prisma.asked s).
Proof. exact (fun H => H). Qed.

Lemma prisma_pool_call (c : Call Prisma.Prompt) (s : Prisma.State) :
  PrismaSpec.poolsWithin limit s -> PrismaSpec.poolWithin limit c -> PrismaSpec.poolsWithin limit (Prisma.withCall c s).
Proof.
  unfold PrismaSpec.poolsWithin. simpl. intros Hs Hc. apply Forall_app. split; [exact Hs|].
  constructor; [exact Hc | constructor].
Qed.

Lemma prisma_pool_probe : keeps (PrismaSpec.poolsWithin limit) (Prisma.isOllamaAvailable w) (fun _ => True).
Proof.
  eapply keeps_run; [apply prisma_isOllamaAvailable_run|].
  intros s Hs. split; [|exact Logic.I]. apply prisma_pool_call; [exact Hs | exact Logic.I].
Qed.

Lemma prisma_pool_productPath (pid : N) (b : bool) (fb : list Prisma.Product) :
  keeps (PrismaSpec.poolsWithin limit) (Prisma.productPath w pid limit b fb) (fun _ => True).
Proof.
  unfold Prisma.productPath.
  apply keeps_tryCatch; [| intros e; apply keeps_ret; exact Logic.I].
  apply keeps_bind_any; [apply prisma_keeps_query_any, prisma_pool_asked|].
  intros [cur|]; [| apply keeps_ret; exact Logic.I].
  destruct (Prisma.isEmpty _); [apply keeps_ret; exact Logic.I|].
  eapply keeps_bind; [apply prisma_keeps_query, prisma_pool_asked|].
  intros similar ->.
  apply keeps_bind with (mid := fun pool => length pool <= 10 + limit * 2).
  - pose proof (prisma_productPool_length (Prisma.db w) pid cur limit) as Hlen.
    unfold PrismaSpec.productPool in Hlen.
    destruct (length _ <? limit).
    + eapply keeps_bind; [apply prisma_keeps_query, prisma_pool_asked|].
      intros additional ->. apply keeps_ret. exact Hlen.
    + apply keeps_ret. exact Hlen.
  - intros pool Hpool.
    apply keeps_bind_any.
    + destruct (b && _); [| apply keeps_ret; exact Logic.I].
      apply keeps_bind_any; [| intros ids; apply keeps_ret; exact Logic.I].
      eapply keeps_run; [apply prisma_product_ranker_run|].
      intros s Hs. split; [|exact Logic.I].
      destruct (length pool <? limit); [exact Hs|].
      apply prisma_pool_call; [exact Hs | exact Hpool].
    + intros [r|]; apply keeps_ret; exact Logic.I.
Qed.

Lemma prisma_pool_orderPath (oid : N) (b : bool) (fb : list Prisma.Product) :
  keeps (PrismaSpec.poolsWithin limit) (Prisma.orderPath w oid limit b fb) (fun _ => True).
Proof.
  unfold Prisma.orderPath.
  apply keeps_tryCatch; [| intros e; apply keeps_ret; exact Logic.I].
  apply keeps_bind_any; [apply prisma_keeps_query_any, prisma_pool_asked|].
  intros [order|]; [| apply keeps_ret; exact Logic.I].
  destruct (Prisma.isEmpty (Prisma.items order)); [apply keeps_ret; exact Logic.I|].
  destruct (Prisma.isEmpty (Prisma.orderCategoryIds order));
    [apply keeps_ret; exact Logic.I|].
  eapply keeps_bind; [apply prisma_keeps_query, prisma_pool_asked|].
  intros similar ->.
  apply keeps_bind_any.
  - destruct (b && _); [| apply keeps_ret; exact Logic.I].
    apply keeps_bind_any; [| intros ids; apply keeps_ret; exact Logic.I].
    eapply keeps_run; [apply prisma_order_ranker_run|].
    intros s Hs. split; [|exact Logic.I].
    destruct (length _ <? limit); [exact Hs|].
    destruct (forallb _ _); [| exact Hs].
    apply prisma_pool_call; [exact Hs|]. simpl.
    apply prisma_findMany_length.
  - intros [r|]; apply keeps_ret; exact Logic.I.
Qed.

Lemma prisma_pool_getRecommendations (productId orderId : option N) :
  keeps (PrismaSpec.poolsWithin limit) (Prisma.getRecommendations w productId orderId limit) (fun _ => True).
Proof.
  unfold Prisma.getRecommendations.
  apply keeps_tryCatch;
    [| intros e; apply prisma_keeps_query_any, prisma_pool_asked].
  apply keeps_bind_any.
  - destruct (Prisma.USE_OLLAMA w); [apply prisma_pool_probe | apply keeps_ret; exact Logic.I].
  - intros b.
    apply keeps_bind_any; [apply prisma_keeps_query_any, prisma_pool_asked|].
    intros fb.
    destruct (Prisma.truthyId orderId); [apply prisma_pool_orderPath|].
    destruct (Prisma.truthyId productId); [apply prisma_pool_productPath|].
    apply keeps_ret; exact Logic.I.
Qed.

End PrismaPool.

Section CachePool.

Variable w : Cache.World.
Variable limit : nat.

Lemma cache_pool_call (c : Call Cache.Prompt) (s : Cache.State) :
  CacheSpec.poolsWithin limit s -> CacheSpec.poolWithin limit c -> CacheSpec.poolsWithin limit (Cache.withCall c s).
Proof.
  unfold CacheSpec.poolsWithin. simpl. intros Hs Hc. apply Forall_app.
  split; [exact Hs|]. constructor; [exact Hc | constructor].
Qed.

Lemma cache_similarOf_length (pid : string) (cur : Cache.Product)
    (all : list Cache.Product) :
  length (Cache.similarOf pid cur all limit) <= limit * 2.
Proof. unfold Cache.similarOf. apply slice0_length. Qed.

Lemma cache_pool_getRecommendations (productId : option string) :
  keeps (CacheSpec.poolsWithin limit) (Cache.getRecommendations w productId limit) (fun _ => True).
Proof.
  assert (Ha : forall s, CacheSpec.poolsWithin limit s -> CacheSpec.poolsWithin limit (Cache.asked s)) by (intros s H; exact H).
  assert (Ht : forall s, CacheSpec.poolsWithin limit s -> CacheSpec.poolsWithin limit (Cache.ticked s)) by (intros s H; exact H).
  assert (Hc : forall c s, CacheSpec.poolsWithin limit s -> CacheSpec.poolsWithin limit (Cache.withCache c s)) by (intros c s H; exact H).
  unfold Cache.getRecommendations.
  apply keeps_tryCatch; [| intros e; apply cache_keeps_popular; assumption].
  apply keeps_bind_any; [apply cache_keeps_accessor; assumption|]. intros r.
  apply keeps_bind_any; [apply cache_keeps_sortInPlace; assumption|]. intros _.
  apply keeps_bind_any; [apply cache_keeps_readArray|]. intros sorted.
  destruct (Cache.truthyId productId) as [pid|]; [| apply keeps_ret; exact Logic.I].
  apply keeps_bind_any; [apply cache_keeps_readArray|]. intros all.
  destruct (find _ all) as [cur|]; [| apply keeps_ret; exact Logic.I].
  apply keeps_bind_any.
  - destruct (Cache.USE_OLLAMA w); [| apply keeps_ret; exact Logic.I].
    eapply keeps_run; [apply cache_isOllamaAvailable_run|].
    intros s Hs. split; [|exact Logic.I]. apply cache_pool_call; [exact Hs | exact Logic.I].
  - intros b. apply keeps_bind_any.
    + destruct (b && _); [| apply keeps_ret; exact Logic.I].
      apply keeps_bind_any; [| intros ids; apply keeps_ret; exact Logic.I].
      eapply keeps_run; [apply cache_ranker_run|].
      intros s Hs. split; [|exact Logic.I].
      destruct (length _ <? limit); [exact Hs|].
      apply cache_pool_call; [exact Hs|]. simpl. apply cache_similarOf_length.
    + intros [rk|]; apply keeps_ret; exact Logic.I.
Qed.

End CachePool.

(* ================================================================= *)
(** ** The Prisma orchestrator when the storage answers *)

Section PrismaUp.

Variable w : Prisma.World.
Hypothesis up : PrismaSpec.storageAlwaysUp w.

Lemma prisma_query_up (A : Type) (q : Prisma.Db -> A) (s : Prisma.State) :
  Prisma.query w q s = (Ok (q (Prisma.db w)), Prisma.asked s).
Proof. unfold Prisma.query. rewrite up. reflexivity. Qed.

Lemma prisma_productPath_up (pid : N) (limit : nat) (fb : list Prisma.Product)
    (s : Prisma.State) :
  result (Prisma.productPath w pid limit (PrismaSpec.rankingOn w) fb) s
  = Ok (PrismaSpec.productAnswer w pid limit fb).
Proof.
  unfold result, Prisma.productPath, PrismaSpec.productAnswer, tryCatch.
  unfold bind at 1. rewrite prisma_query_up.
  destruct (Prisma.findUniqueProduct pid (Prisma.db w)) as [cur|]; [|reflexivity].
  destruct (Prisma.isEmpty (Prisma.categories cur)); [reflexivity|].
  unfold bind at 1. rewrite prisma_query_up.
  unfold PrismaSpec.productRanking, PrismaSpec.productPool.
  set (similar := Prisma.similarCategoryQuery pid cur (Prisma.db w)).
  assert (Hpool : forall s0,
             exists s1,
               (if length similar <? limit
                then bind (Prisma.query w (Prisma.additionalQuery pid similar limit))
                          (fun additional => ret (Prisma.poolOf similar additional))
                else ret similar) s0
               = (Ok (if length similar <? limit
                      then Prisma.poolOf similar
                             (Prisma.additionalQuery pid similar limit (Prisma.db w))
                      else similar), s1)).
  { intros s0. destruct (length similar <? limit).
    - unfold bind. rewrite prisma_query_up. eexists; reflexivity.
    - eexists; reflexivity. }
  unfold bind at 1. destruct (Hpool (Prisma.asked (Prisma.asked s))) as [s1 ->].
  set (pool := if length similar <? limit then _ else similar).
  unfold bind at 1.
  destruct (PrismaSpec.rankingOn w && (limit <=? length pool)).
  - unfold bind at 1. rewrite prisma_product_ranker_run. unfold ret at 1.
    destruct (Prisma.rankedForProduct _ pool limit); reflexivity.
  - unfold ret at 1. reflexivity.
Qed.

Lemma prisma_orderPath_up (oid : N) (limit : nat) (fb : list Prisma.Product)
    (s : Prisma.State) :
  result (Prisma.orderPath w oid limit (PrismaSpec.rankingOn w) fb) s
  = Ok (PrismaSpec.orderAnswer w oid limit fb).
Proof.
  unfold result, Prisma.orderPath, PrismaSpec.orderAnswer, tryCatch.
  unfold bind at 1. rewrite prisma_query_up.
  destruct (Prisma.findUniqueOrder oid (Prisma.db w)) as [order|]; [|reflexivity].
  destruct (Prisma.isEmpty (Prisma.items order)); [reflexivity|].
  destruct (Prisma.isEmpty (Prisma.orderCategoryIds order)); [reflexivity|].
  unfold bind at 1. rewrite prisma_query_up.
  unfold PrismaSpec.orderRanking. cbv zeta.
  set (similar := Prisma.orderSimilarQuery order _ limit (Prisma.db w)).
  unfold bind at 1.
  destruct (PrismaSpec.rankingOn w && (2 <=? length similar)).
  - unfold bind at 1. rewrite prisma_order_ranker_run. unfold ret at 1.
    destruct (Prisma.rankedForOrder _ similar limit); reflexivity.
  - unfold ret at 1. reflexivity.
Qed.

Lemma prisma_getRecommendations_up (productId orderId : option N) (limit : nat)
    (s : Prisma.State) :
  result (Prisma.getRecommendations w productId orderId limit) s
  = Ok (PrismaSpec.answer w productId orderId limit).
Proof.
  unfold result, Prisma.getRecommendations, PrismaSpec.answer, tryCatch.
  unfold bind at 1.
  assert (Hprobe : forall s0, exists s1,
             (if Prisma.USE_OLLAMA w then Prisma.isOllamaAvailable w else ret false) s0
             = (Ok (PrismaSpec.rankingOn w), s1)).
  { intros s0. unfold PrismaSpec.rankingOn. destruct (Prisma.USE_OLLAMA w).
    - rewrite prisma_isOllamaAvailable_run. eexists; reflexivity.
    - eexists; reflexivity. }
  destruct (Hprobe s) as [s1 ->].
  unfold bind at 1. rewrite prisma_query_up. cbv zeta.
  set (fb := Prisma.fallbackQuery productId limit (Prisma.db w)).
  destruct (Prisma.truthyId orderId) as [oid|].
  - pose proof (prisma_orderPath_up oid limit fb (Prisma.asked s1)) as H.
    unfold result in H.
    destruct (Prisma.orderPath w oid limit (PrismaSpec.rankingOn w) fb (Prisma.asked s1))
      as [r s2]. simpl in H. subst r. reflexivity.
  - destruct (Prisma.truthyId productId) as [pid|]; [|reflexivity].
    pose proof (prisma_productPath_up pid limit fb (Prisma.asked s1)) as H.
    unfold result in H.
    destruct (Prisma.productPath w pid limit (PrismaSpec.rankingOn w) fb (Prisma.asked s1))
      as [r s2]. simpl in H. subst r. reflexivity.
Qed.

End PrismaUp.

(* ================================================================= *)
(** ** The cache-based orchestrator when the accessor succeeds *)

Section CacheLoaded.

Variable w : Cache.World.

Lemma cache_accessor_loaded (s : Cache.State) (arr : list Cache.Product) :
  CacheSpec.loaded w s = Some arr ->
  exists s1,
    Cache.getProductsWithOrderCounts w s = (Ok Cache.CachedArray, s1)
    /\ Cache.productsCache s1
       = {| Cache.data := Some arr; Cache.lastUpdate := CacheSpec.loadedAt w s |}
    /\ Cache.calls s1 = Cache.calls s.
Proof.
  unfold CacheSpec.loaded, CacheSpec.loadedAt, CacheSpec.isFresh,
    Cache.getProductsWithOrderCounts.
  intros H. unfold bind at 1. unfold Cache.dateNow. unfold bind at 1. unfold gets.
  simpl Cache.productsCache. simpl Cache.clockReads.
  destruct (Cache.productsCache s) as [d t] eqn:Hc. simpl in *.
  rewrite ?Hc. simpl.
  assert (Hrefill :
    Cache.storageUp w (Cache.queries s) && Cache.storageUp w (S (Cache.queries s)) = true ->
    Some (CacheSpec.refill (Cache.db w)) = Some arr ->
    exists s1,
      bind (Cache.query w Cache.productDocs)
        (fun products =>
           bind (Cache.query w (fun d0 => Cache.aggregateOrderCounts (Cache.orderDocs d0)))
             (fun orderCounts =>
                bind (Cache.setCache
                        {| Cache.data := Some (map (Cache.withOrderCount orderCounts) products);
                           Cache.lastUpdate := Cache.clock w (Cache.clockReads s) |})
                     (fun _ => ret Cache.CachedArray))) (Cache.ticked s)
      = (Ok Cache.CachedArray, s1)
      /\ Cache.productsCache s1
         = {| Cache.data := Some arr; Cache.lastUpdate := Cache.clock w (Cache.clockReads s) |}
      /\ Cache.calls s1 = Cache.calls s).
  { intros Hup Harr. apply andb_true_iff in Hup. destruct Hup as [U1 U2].
    injection Harr as <-.
    unfold bind, Cache.query, Cache.setCache, modify. simpl.
    rewrite U1. simpl. rewrite U2. simpl.
    eexists. split; [reflexivity|]. split; reflexivity. }
  destruct d as [cached|].
  - destruct (Cache.clock w (Cache.clockReads s) - t <? 300000)%Z.
    + injection H as <-. eexists. split; [reflexivity|]. simpl. rewrite Hc. auto.
    + destruct (Cache.storageUp w (Cache.queries s) &&
                Cache.storageUp w (S (Cache.queries s))) eqn:Hup; [|discriminate].
      apply Hrefill; auto.
  - destruct (Cache.storageUp w (Cache.queries s) &&
              Cache.storageUp w (S (Cache.queries s))) eqn:Hup; [|discriminate].
    apply Hrefill; auto.
Qed.

Lemma cache_read_run (r : Cache.ArrayRef) (s : Cache.State) (arr : list Cache.Product) :
  Cache.data (Cache.productsCache s) = Some arr ->
  Cache.readArray r s = (Ok arr, s).
Proof. intros H. unfold Cache.readArray, bind, gets. rewrite H. reflexivity. Qed.

Lemma cache_sort_run (r : Cache.ArrayRef) (s : Cache.State) (arr : list Cache.Product) :
  Cache.data (Cache.productsCache s) = Some arr ->
  Cache.sortInPlace r s
  = (Ok tt, Cache.withCache
              {| Cache.data := Some (sortDesc Cache.orderCount arr);
                 Cache.lastUpdate := Cache.lastUpdate (Cache.productsCache s) |} s).
Proof.
  intros H. unfold Cache.sortInPlace. unfold bind at 1.
  rewrite (cache_read_run r s H). reflexivity.
Qed.

(** The part of [getRecommendations] that follows the lookup of the
    current product: it returns, and leaves the cache alone. *)
Lemma cache_ranking_run (cur : Cache.Product) (similar fb : list Cache.Product)
    (limit : nat) (s : Cache.State) :
  exists s',
    bind (if Cache.USE_OLLAMA w then Cache.isOllamaAvailable w else ret false)
      (fun available =>
         bind (if available && (limit <=? length similar)
               then bind (Cache.getOllamaRecommendations w cur similar limit)
                         (fun recommendedIds =>
                            ret (Cache.rankedOf w recommendedIds similar limit))
               else ret None)
           (fun ranked =>
              match ranked with
              | Some recommendations => ret recommendations
              | None => ret (Cache.similarOrFallback similar fb limit)
              end)) s
    = (Ok (match CacheSpec.ranking w cur similar limit with
           | Some r => r
           | None => Cache.similarOrFallback similar fb limit
           end), s')
    /\ CacheSpec.sameStorage s' s.
Proof.
  unfold CacheSpec.ranking, CacheSpec.rankingOn, CacheSpec.sameStorage.
  unfold bind at 1.
  destruct (Cache.USE_OLLAMA w).
  - rewrite cache_isOllamaAvailable_run. simpl andb at 2.
    unfold bind at 1.
    destruct (probeOk (Cache.probe w) && (limit <=? length similar)).
    + unfold bind at 1. rewrite cache_ranker_run. unfold ret at 1.
      destruct (Cache.rankedOf w _ similar limit);
        (eexists; split; [reflexivity|]);
        destruct (length similar <? limit); simpl; auto.
    + unfold ret at 1. eexists; split; [reflexivity | simpl; auto].
  - unfold ret at 1. simpl andb. cbv iota. unfold bind at 1. unfold ret at 1.
    eexists; split; [reflexivity | simpl; auto].
Qed.

Lemma cache_getRecommendations_loaded (productId : option string) (limit : nat)
    (s : Cache.State) (arr : list Cache.Product) :
  CacheSpec.loaded w s = Some arr ->
  exists s',
    Cache.getRecommendations w productId limit s
    = (Ok (CacheSpec.answer w (sortDesc Cache.orderCount arr) productId limit), s')
    /\ Cache.productsCache s'
       = {| Cache.data := Some (sortDesc Cache.orderCount arr);
            Cache.lastUpdate := CacheSpec.loadedAt w s |}.
Proof.
  intros Hload.
  destruct (cache_accessor_loaded s Hload) as (s1 & Hacc & Hcache & _).
  unfold Cache.getRecommendations, CacheSpec.answer, tryCatch.
  unfold bind at 1. rewrite Hacc.
  assert (Hdata : Cache.data (Cache.productsCache s1) = Some arr)
    by (rewrite Hcache; reflexivity).
  unfold bind at 1. rewrite (cache_sort_run Cache.CachedArray s1 Hdata).
  set (sorted := sortDesc Cache.orderCount arr).
  set (s2 := Cache.withCache _ s1).
  assert (Hdata2 : Cache.data (Cache.productsCache s2) = Some sorted) by reflexivity.
  assert (Hcache2 : Cache.productsCache s2
                    = {| Cache.data := Some sorted;
                         Cache.lastUpdate := CacheSpec.loadedAt w s |}).
  { unfold s2. simpl. rewrite Hcache. reflexivity. }
  unfold bind at 1. rewrite (cache_read_run Cache.CachedArray s2 Hdata2). cbv zeta.
  destruct (Cache.truthyId productId) as [pid|].
  - unfold bind at 1. rewrite (cache_read_run Cache.CachedArray s2 Hdata2).
    destruct (find _ sorted) as [cur|].
    + destruct (cache_ranking_run cur (Cache.similarOf pid cur sorted limit)
                  (slice0 limit sorted) limit s2) as (s' & Hrun & Hkeep).
      rewrite Hrun. eexists. split; [reflexivity|].
      destruct Hkeep as [Hkeep _]. rewrite Hkeep. exact Hcache2.
    + eexists. split; [reflexivity|]. exact Hcache2.
  - eexists. split; [reflexivity|]. exact Hcache2.
Qed.

Lemma cache_getPopularProducts_loaded (limit : nat) (s : Cache.State)
    (arr : list Cache.Product) :
  CacheSpec.loaded w s = Some arr ->
  exists s',
    Cache.getPopularProducts w limit s
    = (Ok (slice0 limit (sortDesc Cache.orderCount arr)), s')
    /\ Cache.productsCache s'
       = {| Cache.data := Some (sortDesc Cache.orderCount arr);
            Cache.lastUpdate := CacheSpec.loadedAt w s |}.
Proof.
  intros Hload.
  destruct (cache_accessor_loaded s Hload) as (s1 & Hacc & Hcache & _).
  unfold Cache.getPopularProducts.
  unfold bind at 1. rewrite Hacc.
  assert (Hdata : Cache.data (Cache.productsCache s1) = Some arr)
    by (rewrite Hcache; reflexivity).
  unfold bind at 1. rewrite (cache_sort_run Cache.CachedArray s1 Hdata).
  unfold bind at 1. rewrite cache_read_run with (arr := sortDesc Cache.orderCount arr);
    [|reflexivity].
  eexists. split; [reflexivity|]. simpl. rewrite Hcache. reflexivity.
Qed.

End CacheLoaded.

(* ================================================================= *)
(** ** Sorting and slicing *)

Lemma insertDesc_descending (A : Type) (key : A -> Z) (x : A) (l : list A) :
  descending key l -> descending key (insertDesc key x l).
Proof.
  induction l as [|y l IH]; intros Hl.
  - simpl. auto.
  - simpl insertDesc. destruct (key x <? key y)%Z eqn:Hxy.
    + destruct Hl as [Hy Hl]. specialize (IH Hl).
      split; [|exact IH].
      destruct l as [|z l]; simpl.
      * apply Z.ltb_lt in Hxy. lia.
      * destruct (key x <? key z)%Z; [exact Hy|]. apply Z.ltb_lt in Hxy. lia.
    + split; [|exact Hl]. apply Z.ltb_ge in Hxy. exact Hxy.
Qed.

Lemma sortDesc_descending (A : Type) (key : A -> Z) (l : list A) :
  descending key (sortDesc key l).
Proof.
  induction l as [|x l IH]; simpl; [exact Logic.I|].
  apply insertDesc_descending, IH.
Qed.

Lemma sortDesc_fixed (A : Type) (key : A -> Z) (l : list A) :
  descending key l -> sortDesc key l = l.
Proof.
  induction l as [|x l IH]; intros Hl; [reflexivity|].
  destruct Hl as [Hx Hl]. simpl. rewrite (IH Hl).
  destruct l as [|y l]; [reflexivity|]. simpl.
  destruct (key x <? key y)%Z eqn:Hxy; [|reflexivity].
  apply Z.ltb_lt in Hxy. lia.
Qed.

Lemma sortDesc_fixed_iff (A : Type) (key : A -> Z) (l : list A) :
  sortDesc key l = l <-> descending key l.
Proof.
  split; [|apply sortDesc_fixed].
  intros H. rewrite <- H. apply sortDesc_descending.
Qed.

Lemma In_slice0 (A : Type) (n : nat) (l : list A) (x : A) :
  In x (slice0 n l) -> In x l.
Proof.
  unfold slice0. revert l. induction n as [|n IH]; intros [|y l]; simpl; try tauto.
  intros [H|H]; [left; exact H | right; apply IH, H].
Qed.

Lemma slice0_all (A : Type) (n : nat) (l : list A) :
  length l <= n -> slice0 n l = l.
Proof. apply firstn_all2. Qed.

(* ================================================================= *)
(** ** Eligibility *)

Lemma prisma_includes_In (l : list N) (x : N) :
  Prisma.includes l x = true <-> In x l.
Proof.
  unfold Prisma.includes. rewrite existsb_exists. split.
  - intros (y & Hy & Heq). apply N.eqb_eq in Heq. subst. exact Hy.
  - intros H. exists x. split; [exact H | apply N.eqb_refl].
Qed.



(* ================================================================= *)
(** ** Rules for related runs *)

Section Related.

Context {S : Type} (sim : S -> S -> Prop).

Lemma related_ret (A B : Type) (R : A -> B -> Prop) (a : A) (b : B) :
  R a b -> related sim R (ret a) (ret b).
Proof. intros H s1 s2 Hs. simpl. auto. Qed.

Lemma related_bind (A A' B B' : Type) (R : A -> A' -> Prop) (Q : B -> B' -> Prop)
    (m1 : M S A) (m2 : M S A') (k1 : A -> M S B) (k2 : A' -> M S B') :
  related sim R m1 m2 ->
  (forall a a', R a a' -> related sim Q (k1 a) (k2 a')) ->
  related sim Q (bind m1 k1) (bind m2 k2).
Proof.
  intros Hm Hk s1 s2 Hs. unfold bind. specialize (Hm s1 s2 Hs).
  destruct (m1 s1) as [[a|e1] t1], (m2 s2) as [[a'|e2] t2]; try contradiction.
  - destruct Hm as [HR Ht]. apply (Hk a a' HR t1 t2 Ht).
  - exact Hm.
Qed.

Lemma related_tryCatch (A B : Type) (R : A -> B -> Prop)
    (m1 : M S A) (m2 : M S B) (h1 : Exn -> M S A) (h2 : Exn -> M S B) :
  related sim R m1 m2 ->
  (forall e, related sim R (h1 e) (h2 e)) ->
  related sim R (tryCatch m1 h1) (tryCatch m2 h2).
Proof.
  intros Hm Hh s1 s2 Hs. unfold tryCatch. specialize (Hm s1 s2 Hs).
  destruct (m1 s1) as [[a|e1] t1], (m2 s2) as [[a'|e2] t2]; try contradiction.
  - exact Hm.
  - destruct Hm as [<- Ht]. apply (Hh e1 t1 t2 Ht).
Qed.

Lemma related_result (A : Type) (m1 m2 : M S A) (s1 s2 : S) :
  related sim eq m1 m2 -> sim s1 s2 -> result m1 s1 = result m2 s2.
Proof.
  intros Hm Hs. unfold result. specialize (Hm s1 s2 Hs).
  destruct (m1 s1) as [[a|e1] t1], (m2 s2) as [[a'|e2] t2]; try contradiction;
    destruct Hm as [-> _]; reflexivity.
Qed.

End Related.

Lemma prisma_related_query (w : Prisma.World) (A : Type) (q : Prisma.Db -> A) :
  related PrismaSpec.sameStorage eq (Prisma.query w q) (Prisma.query w q).
Proof.
  intros s1 s2 Hs. unfold PrismaSpec.sameStorage in *. unfold Prisma.query.
  rewrite Hs. destruct (Prisma.storageUp w (Prisma.queries s2)); simpl; auto.
Qed.

Lemma prisma_verdicts_none (w : Prisma.World) (limit : nat) :
  PrismaSpec.tooFewIds w limit ->
  (forall cur pool, PrismaSpec.productVerdict w cur pool limit = None)
  /\ (forall order pool, PrismaSpec.orderVerdict w order pool limit = None).
Proof.
  intros Hfew. split.
  - intros cur pool. unfold PrismaSpec.productVerdict.
    destruct (length pool <? limit); [reflexivity|].
    destruct (answerText _) as [t|] eqn:Ht; [|reflexivity].
    destruct (Prisma.isEmpty _); [reflexivity|].
    apply Hfew in Ht. unfold PrismaSpec.validCount in Ht. unfold Prisma.accept.
    apply Nat.ltb_lt in Ht. rewrite Ht. reflexivity.
  - intros order pool. unfold PrismaSpec.orderVerdict.
    destruct (length pool <? limit); [reflexivity|].
    destruct (forallb _ _); [|reflexivity].
    destruct (answerText _) as [t|] eqn:Ht; [|reflexivity].
    destruct (Prisma.isEmpty _); [reflexivity|].
    apply Hfew in Ht. unfold PrismaSpec.validCount in Ht. unfold Prisma.accept.
    apply Nat.ltb_lt in Ht. rewrite Ht. reflexivity.
Qed.

Section PrismaUnranked.

Variable w : Prisma.World.
Variable limit : nat.
Hypothesis few : PrismaSpec.tooFewIds w limit.

Lemma prisma_productPath_unranked (pid : N) (b : bool) (fb : list Prisma.Product) :
  related PrismaSpec.sameStorage eq
    (Prisma.productPath w pid limit b fb) (Prisma.productPath w pid limit false fb).
Proof.
  destruct (prisma_verdicts_none few) as [Hnone _].
  unfold Prisma.productPath.
  apply related_tryCatch; [| intros e; apply related_ret; reflexivity].
  eapply related_bind; [apply prisma_related_query|].
  intros found ? <-. destruct found as [cur|]; [| apply related_ret; reflexivity].
  destruct (Prisma.isEmpty _); [apply related_ret; reflexivity|].
  eapply related_bind; [apply prisma_related_query|].
  intros similar ? <-.
  apply related_bind with (R := eq).
  { destruct (length similar <? limit); [| apply related_ret; reflexivity].
    eapply related_bind; [apply prisma_related_query|].
    intros additional ? <-. apply related_ret; reflexivity. }
  intros pool ? <-.
  apply related_bind with (R := eq).
  { simpl andb. cbv iota. destruct (b && _); [| apply related_ret; reflexivity].
    intros s1 s2 Hs. unfold bind. rewrite prisma_product_ranker_run, Hnone.
    simpl. split; [reflexivity|].
    unfold PrismaSpec.sameStorage in *.
    destruct (length pool <? limit); exact Hs. }
  intros ranked ? <-. destruct ranked; apply related_ret; reflexivity.
Qed.

Lemma prisma_orderPath_unranked (oid : N) (b : bool) (fb : list Prisma.Product) :
  related PrismaSpec.sameStorage eq
    (Prisma.orderPath w oid limit b fb) (Prisma.orderPath w oid limit false fb).
Proof.
  destruct (prisma_verdicts_none few) as [_ Hnone].
  unfold Prisma.orderPath.
  apply related_tryCatch; [| intros e; apply related_ret; reflexivity].
  eapply related_bind; [apply prisma_related_query|].
  intros found ? <-. destruct found as [order|]; [| apply related_ret; reflexivity].
  destruct (Prisma.isEmpty (Prisma.items order)); [apply related_ret; reflexivity|].
  destruct (Prisma.isEmpty (Prisma.orderCategoryIds order));
    [apply related_ret; reflexivity|].
  eapply related_bind; [apply prisma_related_query|].
  intros similar ? <-.
  apply related_bind with (R := eq).
  { simpl andb. cbv iota. destruct (b && _); [| apply related_ret; reflexivity].
    intros s1 s2 Hs. unfold bind. rewrite prisma_order_ranker_run, Hnone.
    simpl. split; [reflexivity|].
    unfold PrismaSpec.sameStorage in *.
    destruct (length similar <? limit); [exact Hs|].
    destruct (forallb _ _); exact Hs. }
  intros ranked ? <-. destruct ranked; apply related_ret; reflexivity.
Qed.

Lemma prisma_getRecommendations_unranked (productId orderId : option N) :
  related PrismaSpec.sameStorage eq
    (Prisma.getRecommendations w productId orderId limit)
    (Prisma.getRecommendations (PrismaSpec.disabled w) productId orderId limit).
Proof.
  change (Prisma.getRecommendations (PrismaSpec.disabled w) productId orderId limit)
    with (tryCatch
            (bind (ret false)
               (fun useOllama =>
                  bind (Prisma.query w (Prisma.fallbackQuery productId limit))
                    (fun fallbackProducts =>
                       match Prisma.truthyId orderId with
                       | Some oid => Prisma.orderPath w oid limit useOllama fallbackProducts
                       | None =>
                           match Prisma.truthyId productId with
                           | Some pid =>
                               Prisma.productPath w pid limit useOllama fallbackProducts
                           | None => ret fallbackProducts
                           end
                       end)))
            (fun _ => Prisma.getPopularProducts w limit)).
  unfold Prisma.getRecommendations.
  apply related_tryCatch; [| intros e; apply prisma_related_query].
  apply related_bind with (R := fun _ b' => b' = false).
  { intros s1 s2 Hs. destruct (Prisma.USE_OLLAMA w).
    - rewrite prisma_isOllamaAvailable_run. simpl. auto.
    - simpl. auto. }
  intros b ? ->.
  eapply related_bind; [apply prisma_related_query|].
  intros fb ? <-.
  destruct (Prisma.truthyId orderId); [apply prisma_orderPath_unranked|].
  destruct (Prisma.truthyId productId); [apply prisma_productPath_unranked|].
  apply related_ret; reflexivity.
Qed.

End PrismaUnranked.

Section CacheRelated.

Variable w : Cache.World.

Local Ltac same_storage :=
  unfold CacheSpec.sameStorage in *; simpl in *; intuition congruence.

Lemma cache_related_query (A : Type) (q : Cache.Db -> A) :
  related CacheSpec.sameStorage eq (Cache.query w q) (Cache.query w q).
Proof.
  intros s1 s2 Hs. unfold Cache.query.
  replace (Cache.queries s1) with (Cache.queries s2) by same_storage.
  destruct (Cache.storageUp w (Cache.queries s2)); split; try reflexivity; same_storage.
Qed.

Lemma cache_related_dateNow :
  related CacheSpec.sameStorage eq (Cache.dateNow w) (Cache.dateNow w).
Proof.
  intros s1 s2 Hs. unfold Cache.dateNow.
  replace (Cache.clockReads s1) with (Cache.clockReads s2) by same_storage.
  split; [reflexivity | same_storage].
Qed.

Lemma cache_related_getCache :
  related CacheSpec.sameStorage eq (gets Cache.productsCache) (gets Cache.productsCache).
Proof. intros s1 s2 Hs. unfold gets. split; same_storage. Qed.

Lemma cache_related_setCache (c : Cache.ProductsCache) :
  related CacheSpec.sameStorage eq (Cache.setCache c) (Cache.setCache c).
Proof. intros s1 s2 Hs. unfold Cache.setCache, modify. split; same_storage. Qed.

Lemma cache_related_readArray (r : Cache.ArrayRef) :
  related CacheSpec.sameStorage eq (Cache.readArray r) (Cache.readArray r).
Proof.
  unfold Cache.readArray.
  eapply related_bind; [apply cache_related_getCache|].
  intros c ? <-. destruct (Cache.data c).
  - apply related_ret; reflexivity.
  - intros s1 s2 Hs. unfold throw. auto.
Qed.

Lemma cache_related_sortInPlace (r : Cache.ArrayRef) :
  related CacheSpec.sameStorage eq (Cache.sortInPlace r) (Cache.sortInPlace r).
Proof.
  unfold Cache.sortInPlace.
  eapply related_bind; [apply cache_related_readArray|]. intros arr ? <-.
  eapply related_bind; [apply cache_related_getCache|]. intros c ? <-.
  apply cache_related_setCache.
Qed.

Lemma cache_related_accessor :
  related CacheSpec.sameStorage eq
    (Cache.getProductsWithOrderCounts w) (Cache.getProductsWithOrderCounts w).
Proof.
  unfold Cache.getProductsWithOrderCounts.
  eapply related_bind; [apply cache_related_dateNow|]. intros now ? <-.
  eapply related_bind; [apply cache_related_getCache|]. intros c ? <-.
  match goal with |- related _ _ (if ?b then _ else _) _ => destruct b end.
  - apply related_ret; reflexivity.
  - eapply related_bind; [apply cache_related_query|]. intros products ? <-.
    eapply related_bind; [apply cache_related_query|]. intros counts ? <-.
    eapply related_bind; [apply cache_related_setCache|]. intros ? ? _.
    apply related_ret; reflexivity.
Qed.

Lemma cache_related_popular (limit : nat) :
  related CacheSpec.sameStorage eq
    (Cache.getPopularProducts w limit) (Cache.getPopularProducts w limit).
Proof.
  unfold Cache.getPopularProducts.
  eapply related_bind; [apply cache_related_accessor|]. intros r ? <-.
  eapply related_bind; [apply cache_related_sortInPlace|]. intros ? ? _.
  eapply related_bind; [apply cache_related_readArray|]. intros sorted ? <-.
  apply related_ret; reflexivity.
Qed.

Lemma cache_ranking_discarded (limit : nat) (cur : Cache.Product)
    (similar : list Cache.Product) :
  CacheSpec.tooFewIds w limit ->
  Cache.rankedOf w (CacheSpec.rankerVerdict w cur similar limit) similar limit = None.
Proof.
  intros Hfew. unfold CacheSpec.rankerVerdict.
  destruct (length similar <? limit); [reflexivity|].
  destruct (answerText _) as [t|] eqn:Ht; [|reflexivity].
  destruct (matchDigits t); [reflexivity|].
  apply Hfew in Ht. simpl Cache.promptPool in Ht. unfold Cache.rankedOf.
  destruct (2 <=? length _) eqn:H2; [|reflexivity].
  apply Nat.leb_le in H2. lia.
Qed.

Lemma cache_getRecommendations_unranked (productId : option string) (limit : nat) :
  CacheSpec.tooFewIds w limit ->
  related CacheSpec.sameStorage eq
    (Cache.getRecommendations w productId limit)
    (Cache.getRecommendations (CacheSpec.disabled w) productId limit).
Proof.
  intros Hfew.
  change (Cache.getRecommendations (CacheSpec.disabled w) productId limit)
    with (tryCatch
            (bind (Cache.getProductsWithOrderCounts w)
               (fun products =>
                  bind (Cache.sortInPlace products)
                    (fun _ =>
                       bind (Cache.readArray products)
                         (fun sorted =>
                            let fallbackProducts := slice0 limit sorted in
                            match Cache.truthyId productId with
                            | None => ret fallbackProducts
                            | Some pid =>
                                bind (Cache.readArray products)
                                  (fun all =>
                                     match find (fun p => String.eqb (Cache.id p) pid) all with
                                     | None => ret fallbackProducts
                                     | Some currentProduct =>
                                         ret (Cache.similarOrFallback
                                                (Cache.similarOf pid currentProduct all limit)
                                                fallbackProducts limit)
                                     end)
                            end))))
            (fun _ => Cache.getPopularProducts w limit)).
  unfold Cache.getRecommendations.
  apply related_tryCatch; [| intros e; apply cache_related_popular].
  eapply related_bind; [apply cache_related_accessor|]. intros r ? <-.
  eapply related_bind; [apply cache_related_sortInPlace|]. intros ? ? _.
  eapply related_bind; [apply cache_related_readArray|]. intros sorted ? <-.
  cbv zeta.
  destruct (Cache.truthyId productId) as [pid|]; [| apply related_ret; reflexivity].
  eapply related_bind; [apply cache_related_readArray|]. intros all ? <-.
  destruct (find _ all) as [cur|]; [| apply related_ret; reflexivity].
  intros s1 s2 Hs.
  destruct (cache_ranking_run w cur (Cache.similarOf pid cur all limit)
              (slice0 limit sorted) limit s1) as (s' & Hrun & Hkeep).
  rewrite Hrun. unfold ret.
  unfold CacheSpec.ranking.
  destruct (CacheSpec.rankingOn w && _).
  - rewrite (cache_ranking_discarded cur _ Hfew). split; [reflexivity|].
    unfold CacheSpec.sameStorage in *. intuition congruence.
  - split; [reflexivity|].
    unfold CacheSpec.sameStorage in *. intuition congruence.
Qed.

End CacheRelated.

(* ================================================================= *)
(** ** The shape of ranked and unranked results *)

Lemma slice0_app_short (A : Type) (n : nat) (l r : list A) :
  length l <= n -> l ++ slice0 (n - length l) r = slice0 n (l ++ r).
Proof.
  intros H. unfold slice0. rewrite firstn_app, (firstn_all2 l) by exact H. reflexivity.
Qed.

Lemma slice0_app_full (A : Type) (n : nat) (l r : list A) :
  n <= length l -> slice0 n l = slice0 n (l ++ r).
Proof.
  intros H. unfold slice0. rewrite firstn_app.
  replace (n - length l) with 0 by lia. simpl. rewrite app_nil_r. reflexivity.
Qed.

Lemma slice0_slice0_length (A : Type) (n : nat) (l : list A) :
  length (slice0 n l) = Nat.min n (length l).
Proof. apply length_firstn. Qed.

Lemma prisma_mapGet_valid (pool : list Prisma.Product) (i : N) :
  existsb (fun p => N.eqb (Prisma.id p) i) pool = true ->
  exists p, Prisma.mapGet pool i = Some p /\ Prisma.id p = i.
Proof.
  intros H. apply existsb_exists in H. destruct H as (q & Hq & Hid).
  unfold Prisma.mapGet.
  destruct (find (fun p => N.eqb (Prisma.id p) i) (rev pool)) as [p|] eqn:Hf.
  - exists p. split; [reflexivity|]. apply find_some in Hf.
    apply N.eqb_eq, Hf.
  - exfalso. pose proof (find_none _ _ Hf q) as Hn. simpl in Hn.
    rewrite Hn in Hid; [discriminate|]. apply in_rev. rewrite rev_involutive. exact Hq.
Qed.

Lemma prisma_ranked_ids (pool : list Prisma.Product) (ids : list N) :
  (forall i, In i ids -> existsb (fun p => N.eqb (Prisma.id p) i) pool = true) ->
  map Prisma.id (PrismaSpec.rankedProducts pool ids) = ids.
Proof.
  unfold PrismaSpec.rankedProducts, filterMapDefined.
  induction ids as [|i ids IH]; intros Hv; [reflexivity|].
  simpl. destruct (prisma_mapGet_valid pool i) as (p & -> & Hp);
    [apply Hv; left; reflexivity|].
  simpl. rewrite Hp, IH; [reflexivity|]. intros j Hj. apply Hv. right. exact Hj.
Qed.

Lemma prisma_accept_some (productIds ids : list N) (limit : nat) :
  Prisma.accept productIds limit = Some ids ->
  ids = productIds /\ Nat.min 2 limit <= length ids.
Proof.
  unfold Prisma.accept. destruct (length productIds <? Nat.min 2 limit) eqn:H;
    [discriminate|].
  intros [= <-]. apply Nat.ltb_ge in H. auto.
Qed.

Lemma prisma_validIds_valid (ms : list (list ascii)) (pool : list Prisma.Product) (i : N) :
  In i (Prisma.validIds ms pool) ->
  existsb (fun p => N.eqb (Prisma.id p) i) pool = true.
Proof. unfold Prisma.validIds. intros H. apply filter_In in H. apply H. Qed.

(** A verdict of the product ranker: enough candidates, ids all valid and
    at least [min(2, limit)] of them. *)
Lemma prisma_productVerdict_some (w : Prisma.World) (cur : Prisma.Product)
    (pool : list Prisma.Product) (limit : nat) (ids : list N) :
  PrismaSpec.productVerdict w cur pool limit = Some ids ->
  limit <= length pool /\ Nat.min 2 limit <= length ids
  /\ (forall i, In i ids -> existsb (fun p => N.eqb (Prisma.id p) i) pool = true).
Proof.
  unfold PrismaSpec.productVerdict.
  destruct (length pool <? limit) eqn:Hlen; [discriminate|].
  apply Nat.ltb_ge in Hlen.
  destruct (answerText _) as [t|]; [|discriminate].
  destruct (Prisma.isEmpty _); [discriminate|].
  intros H. apply prisma_accept_some in H. destruct H as [-> Hmin].
  split; [exact Hlen|]. split; [exact Hmin|].
  intros i. apply prisma_validIds_valid.
Qed.

Lemma prisma_orderVerdict_some (w : Prisma.World) (order : Prisma.Order)
    (pool : list Prisma.Product) (limit : nat) (ids : list N) :
  PrismaSpec.orderVerdict w order pool limit = Some ids ->
  limit <= length pool /\ Nat.min 2 limit <= length ids
  /\ (forall i, In i ids -> existsb (fun p => N.eqb (Prisma.id p) i) pool = true).
Proof.
  unfold PrismaSpec.orderVerdict.
  destruct (length pool <? limit) eqn:Hlen; [discriminate|].
  apply Nat.ltb_ge in Hlen.
  destruct (forallb _ _); [|discriminate].
  destruct (answerText _) as [t|]; [|discriminate].
  destruct (Prisma.isEmpty _); [discriminate|].
  intros H. apply prisma_accept_some in H. destruct H as [-> Hmin].
  split; [exact Hlen|]. split; [exact Hmin|].
  intros i. apply prisma_validIds_valid.
Qed.

Lemma prisma_categoryThenFallback_shape (similar fb : list Prisma.Product) (limit : nat) :
  Prisma.categoryThenFallback similar fb limit
  = match similar with
    | [] => fb
    | _ => slice0 limit (similar ++ PrismaSpec.padding similar fb)
    end.
Proof.
  unfold Prisma.categoryThenFallback, Prisma.additionalFallbacks.
  fold (PrismaSpec.padding similar fb).
  destruct similar as [|p similar]; [reflexivity|].
  destruct (limit <=? length (p :: similar)) eqn:H.
  - apply Nat.leb_le in H. apply slice0_app_full, H.
  - apply Nat.leb_gt in H. apply slice0_app_short. lia.
Qed.

Lemma prisma_categoryThenFallbackOrder_shape (similar fb : list Prisma.Product)
    (limit : nat) :
  Prisma.categoryThenFallbackOrder similar fb limit
  = match similar with
    | [] => fb
    | _ => slice0 limit (similar ++ PrismaSpec.padding similar fb)
    end.
Proof.
  unfold Prisma.categoryThenFallbackOrder, Prisma.additionalFallbacks.
  fold (PrismaSpec.padding similar fb).
  destruct similar as [|p similar]; [reflexivity|].
  destruct (limit <=? length (p :: similar)) eqn:H.
  - apply Nat.leb_le in H. apply slice0_app_full, H.
  - apply Nat.leb_gt in H.
    rewrite (slice0_app_short (p :: similar) (PrismaSpec.padding (p :: similar) fb))
      by lia.
    unfold slice0. rewrite firstn_firstn, Nat.min_id. reflexivity.
Qed.

Lemma prisma_rankedForProduct_shape (ids : list N) (pool : list Prisma.Product)
    (limit : nat) :
  ids <> [] ->
  Prisma.rankedForProduct (Some ids) pool limit
  = Some (slice0 limit (PrismaSpec.rankedProducts pool ids
                        ++ PrismaSpec.remainingProducts pool ids)).
Proof.
  intros Hne. destruct ids as [|i ids]; [contradiction|].
  unfold Prisma.rankedForProduct.
  fold (PrismaSpec.rankedProducts pool (i :: ids)).
  fold (PrismaSpec.remainingProducts pool (i :: ids)).
  set (ranked := PrismaSpec.rankedProducts pool (i :: ids)).
  set (rest := PrismaSpec.remainingProducts pool (i :: ids)).
  destruct (limit <=? length (slice0 limit ranked)) eqn:H.
  - apply Nat.leb_le in H. rewrite slice0_slice0_length in H.
    f_equal. apply slice0_app_full. lia.
  - apply Nat.leb_gt in H. rewrite slice0_slice0_length in H.
    rewrite (slice0_all (n := limit) ranked) by lia. reflexivity.
Qed.

Lemma prisma_rankedForOrder_shape (ids : list N) (pool : list Prisma.Product)
    (limit : nat) :
  ids <> [] ->
  Nat.min 2 limit <= length (PrismaSpec.rankedProducts pool ids) ->
  Prisma.rankedForOrder (Some ids) pool limit
  = Some (slice0 limit (PrismaSpec.rankedProducts pool ids
                        ++ PrismaSpec.remainingProducts pool ids)).
Proof.
  intros Hne Hmin. destruct ids as [|i ids]; [contradiction|].
  unfold Prisma.rankedForOrder.
  fold (PrismaSpec.rankedProducts pool (i :: ids)).
  fold (PrismaSpec.remainingProducts pool (i :: ids)).
  set (ranked := PrismaSpec.rankedProducts pool (i :: ids)) in *.
  set (rest := PrismaSpec.remainingProducts pool (i :: ids)).
  assert (Hge : (Nat.min 2 limit <=? length (slice0 limit ranked)) = true).
  { apply Nat.leb_le. rewrite slice0_slice0_length. lia. }
  rewrite Hge.
  destruct (length (slice0 limit ranked) <? limit) eqn:H.
  - apply Nat.ltb_lt in H. rewrite slice0_slice0_length in H.
    rewrite (slice0_all (n := limit) ranked) by lia.
    f_equal. apply slice0_app_short. lia.
  - apply Nat.ltb_ge in H. rewrite slice0_slice0_length in H.
    f_equal. apply slice0_app_full. lia.
Qed.

Lemma prisma_fallback_zero (productId : option N) (d : Prisma.Db) :
  Prisma.fallbackQuery productId 0 d = [].
Proof. reflexivity. Qed.

Lemma prisma_isEmpty_false (A : Type) (l : list A) :
  l <> [] -> Prisma.isEmpty l = false.
Proof. destruct l; [contradiction | reflexivity]. Qed.

Section PrismaShapes.

Variable w : Prisma.World.
Hypothesis up : PrismaSpec.storageAlwaysUp w.

Lemma prisma_product_ranked (productId orderId : option N) (pid : N)
    (cur : Prisma.Product) (limit : nat) (ids : list N) (s s0 : Prisma.State) :
  PrismaSpec.productSeeded w productId orderId pid cur ->
  PrismaSpec.rankingOn w = true ->
  result (Prisma.getOllamaRecommendations w cur
            (PrismaSpec.productPool (Prisma.db w) pid cur limit) limit) s0
  = Ok (Some ids) ->
  map Prisma.id
      (PrismaSpec.rankedProducts (PrismaSpec.productPool (Prisma.db w) pid cur limit) ids)
  = ids
  /\ result (Prisma.getRecommendations w productId orderId limit) s
     = Ok (slice0 limit
             (PrismaSpec.rankedProducts
                (PrismaSpec.productPool (Prisma.db w) pid cur limit) ids
              ++ PrismaSpec.remainingProducts
                   (PrismaSpec.productPool (Prisma.db w) pid cur limit) ids)).
Proof.
  intros (Hoid & Hpid & Hcur & Hcat) Hon Hrank.
  unfold result in Hrank. rewrite prisma_product_ranker_run in Hrank.
  simpl in Hrank. injection Hrank as Hv.
  destruct (prisma_productVerdict_some _ _ _ _ Hv) as (Hlen & Hmin & Hvalid).
  split; [apply prisma_ranked_ids, Hvalid|].
  rewrite (prisma_getRecommendations_up up).
  unfold PrismaSpec.answer. rewrite Hoid, Hpid.
  unfold PrismaSpec.productAnswer. rewrite Hcur, (prisma_isEmpty_false Hcat).
  unfold PrismaSpec.productRanking. rewrite Hon, Hv.
  apply Nat.leb_le in Hlen. rewrite Hlen. simpl andb. cbv iota.
  destruct ids as [|i ids].
  - cbn [length] in Hmin. assert (limit = 0) by lia. subst limit.
    simpl Prisma.rankedForProduct. cbv iota.
    rewrite prisma_categoryThenFallback_shape, prisma_fallback_zero.
    destruct (Prisma.similarCategoryQuery pid cur (Prisma.db w)); reflexivity.
  - rewrite prisma_rankedForProduct_shape by discriminate. reflexivity.
Qed.

Lemma prisma_product_unranked (productId orderId : option N) (pid : N)
    (cur : Prisma.Product) (limit : nat) (s s0 : Prisma.State) :
  PrismaSpec.productSeeded w productId orderId pid cur ->
  PrismaSpec.rankingOn w = false
  \/ result (Prisma.getOllamaRecommendations w cur
               (PrismaSpec.productPool (Prisma.db w) pid cur limit) limit) s0
     = Ok None ->
  result (Prisma.getRecommendations w productId orderId limit) s
  = Ok (match Prisma.similarCategoryQuery pid cur (Prisma.db w) with
        | [] => Prisma.fallbackQuery productId limit (Prisma.db w)
        | similar =>
            slice0 limit
              (similar ++ PrismaSpec.padding similar
                            (Prisma.fallbackQuery productId limit (Prisma.db w)))
        end).
Proof.
  intros (Hoid & Hpid & Hcur & Hcat) Hun.
  rewrite (prisma_getRecommendations_up up).
  unfold PrismaSpec.answer. rewrite Hoid, Hpid.
  unfold PrismaSpec.productAnswer. rewrite Hcur, (prisma_isEmpty_false Hcat).
  assert (Hnone : PrismaSpec.productRanking w cur
                    (PrismaSpec.productPool (Prisma.db w) pid cur limit) limit = None).
  { unfold PrismaSpec.productRanking. destruct Hun as [Hoff|Hnull].
    - rewrite Hoff. reflexivity.
    - unfold result in Hnull. rewrite prisma_product_ranker_run in Hnull.
      simpl in Hnull. injection Hnull as ->.
      destruct (_ && _); reflexivity. }
  rewrite Hnone, prisma_categoryThenFallback_shape.
  destruct (Prisma.similarCategoryQuery pid cur (Prisma.db w)); reflexivity.
Qed.

Lemma prisma_order_ranked (productId orderId : option N) (oid : N)
    (order : Prisma.Order) (limit : nat) (ids : list N) (s s0 : Prisma.State) :
  PrismaSpec.orderSeeded w orderId oid order ->
  PrismaSpec.rankingOn w = true ->
  2 <= length (Prisma.orderSimilarQuery order (Prisma.orderCategoryIds order) limit
                 (Prisma.db w)) ->
  result (Prisma.getOllamaRecommendationsForOrder w order
            (Prisma.orderSimilarQuery order (Prisma.orderCategoryIds order) limit
               (Prisma.db w)) limit) s0
  = Ok (Some ids) ->
  map Prisma.id
      (PrismaSpec.rankedProducts
         (Prisma.orderSimilarQuery order (Prisma.orderCategoryIds order) limit
            (Prisma.db w)) ids)
  = ids
  /\ result (Prisma.getRecommendations w productId orderId limit) s
     = Ok (slice0 limit
             (PrismaSpec.rankedProducts
                (Prisma.orderSimilarQuery order (Prisma.orderCategoryIds order) limit
                   (Prisma.db w)) ids
              ++ PrismaSpec.remainingProducts
                   (Prisma.orderSimilarQuery order (Prisma.orderCategoryIds order) limit
                      (Prisma.db w)) ids)).
Proof.
  intros (Hoid & Horder & Hitems & Hcats) Hon Htwo Hrank.
  set (similar := Prisma.orderSimilarQuery order (Prisma.orderCategoryIds order) limit
                    (Prisma.db w)) in *.
  unfold result in Hrank. rewrite prisma_order_ranker_run in Hrank.
  simpl in Hrank. injection Hrank as Hv.
  destruct (prisma_orderVerdict_some _ _ _ _ Hv) as (Hlen & Hmin & Hvalid).
  assert (Hids : map Prisma.id (PrismaSpec.rankedProducts similar ids) = ids)
    by (apply prisma_ranked_ids, Hvalid).
  split; [exact Hids|].
  rewrite (prisma_getRecommendations_up up).
  unfold PrismaSpec.answer. rewrite Hoid.
  unfold PrismaSpec.orderAnswer.
  rewrite Horder, (prisma_isEmpty_false Hitems), (prisma_isEmpty_false Hcats).
  cbv zeta. fold similar.
  unfold PrismaSpec.orderRanking. rewrite Hon, Hv.
  apply Nat.leb_le in Htwo. rewrite Htwo. simpl andb. cbv iota.
  destruct ids as [|i ids].
  - cbn [length] in Hmin. assert (limit = 0) by lia. subst limit.
    simpl Prisma.rankedForOrder. cbv iota.
    rewrite prisma_categoryThenFallbackOrder_shape, prisma_fallback_zero.
    destruct similar; reflexivity.
  - rewrite prisma_rankedForOrder_shape; [reflexivity | discriminate |].
    rewrite <- (length_map Prisma.id), Hids. exact Hmin.
Qed.

Lemma prisma_order_unranked (productId orderId : option N) (oid : N)
    (order : Prisma.Order) (limit : nat) (s s0 : Prisma.State) :
  PrismaSpec.orderSeeded w orderId oid order ->
  PrismaSpec.rankingOn w = false
  \/ length (Prisma.orderSimilarQuery order (Prisma.orderCategoryIds order) limit
               (Prisma.db w)) < 2
  \/ result (Prisma.getOllamaRecommendationsForOrder w order
               (Prisma.orderSimilarQuery order (Prisma.orderCategoryIds order) limit
                  (Prisma.db w)) limit) s0
     = Ok None ->
  result (Prisma.getRecommendations w productId orderId limit) s
  = Ok (match Prisma.orderSimilarQuery order (Prisma.orderCategoryIds order) limit
                (Prisma.db w) with
        | [] => Prisma.fallbackQuery productId limit (Prisma.db w)
        | similar =>
            slice0 limit
              (similar ++ PrismaSpec.padding similar
                            (Prisma.fallbackQuery productId limit (Prisma.db w)))
        end).
Proof.
  intros (Hoid & Horder & Hitems & Hcats) Hun.
  set (similar := Prisma.orderSimilarQuery order (Prisma.orderCategoryIds order) limit
                    (Prisma.db w)) in *.
  rewrite (prisma_getRecommendations_up up).
  unfold PrismaSpec.answer. rewrite Hoid.
  unfold PrismaSpec.orderAnswer.
  rewrite Horder, (prisma_isEmpty_false Hitems), (prisma_isEmpty_false Hcats).
  cbv zeta. fold similar.
  assert (Hnone : PrismaSpec.orderRanking w order similar limit = None).
  { unfold PrismaSpec.orderRanking. destruct Hun as [Hoff|[Hshort|Hnull]].
    - rewrite Hoff. reflexivity.
    - apply Nat.leb_gt in Hshort. rewrite Hshort, andb_false_r. reflexivity.
    - unfold result in Hnull. rewrite prisma_order_ranker_run in Hnull.
      simpl in Hnull. injection Hnull as ->.
      destruct (_ && _); reflexivity. }
  rewrite Hnone, prisma_categoryThenFallbackOrder_shape.
  destruct similar; reflexivity.
Qed.

End PrismaShapes.

Section CacheShapes.

Variable w : Cache.World.

Lemma cache_verdict_some (cur : Cache.Product) (similar : list Cache.Product)
    (limit : nat) (ids : list N) :
  CacheSpec.rankerVerdict w cur similar limit = Some ids -> limit <= length similar.
Proof.
  unfold CacheSpec.rankerVerdict.
  destruct (length similar <? limit) eqn:H; [discriminate|].
  intros _. apply Nat.ltb_ge, H.
Qed.

Lemma cache_ranked (productId : option string) (pid : string) (cur : Cache.Product)
    (limit : nat) (arr : list Cache.Product) (ids : list N) (s s0 : Cache.State) :
  CacheSpec.loaded w s = Some arr ->
  Cache.truthyId productId = Some pid ->
  find (fun p => String.eqb (Cache.id p) pid) (sortDesc Cache.orderCount arr) = Some cur ->
  CacheSpec.rankingOn w = true ->
  result (Cache.getOllamaRecommendations w cur
            (Cache.similarOf pid cur (sortDesc Cache.orderCount arr) limit) limit) s0
  = Ok (Some ids) ->
  result (Cache.getRecommendations w productId limit) s
  = Ok (if (2 <=? length ids)
           && (length (slice0 limit
                         (CacheSpec.rankedProducts w
                            (Cache.similarOf pid cur (sortDesc Cache.orderCount arr) limit)
                            ids)) =? limit)
        then slice0 limit
               (CacheSpec.rankedProducts w
                  (Cache.similarOf pid cur (sortDesc Cache.orderCount arr) limit) ids)
        else slice0 limit (Cache.similarOf pid cur (sortDesc Cache.orderCount arr) limit)).
Proof.
  intros Hload Hpid Hcur Hon Hrank.
  set (sorted := sortDesc Cache.orderCount arr) in *.
  set (similar := Cache.similarOf pid cur sorted limit) in *.
  unfold result in Hrank. rewrite cache_ranker_run in Hrank.
  simpl in Hrank. injection Hrank as Hv.
  pose proof (cache_verdict_some _ _ _ Hv) as Hlen.
  destruct (cache_getRecommendations_loaded w productId limit s Hload) as (s' & Hrun & _).
  unfold result. rewrite Hrun. simpl fst. f_equal.
  unfold CacheSpec.answer. fold sorted. rewrite Hpid, Hcur. cbv zeta. fold similar.
  unfold CacheSpec.ranking. rewrite Hon, Hv.
  apply Nat.leb_le in Hlen. rewrite Hlen. simpl andb at 1. cbv iota.
  unfold Cache.rankedOf. fold (CacheSpec.rankedProducts w similar ids).
  unfold Cache.similarOrFallback. rewrite Hlen.
  destruct (2 <=? length ids); [|reflexivity].
  simpl andb. destruct (_ =? limit); reflexivity.
Qed.

Lemma cache_unranked (productId : option string) (pid : string) (cur : Cache.Product)
    (limit : nat) (arr : list Cache.Product) (s s0 : Cache.State) :
  CacheSpec.loaded w s = Some arr ->
  Cache.truthyId productId = Some pid ->
  find (fun p => String.eqb (Cache.id p) pid) (sortDesc Cache.orderCount arr) = Some cur ->
  CacheSpec.rankingOn w = false
  \/ result (Cache.getOllamaRecommendations w cur
               (Cache.similarOf pid cur (sortDesc Cache.orderCount arr) limit) limit) s0
     = Ok None ->
  result (Cache.getRecommendations w productId limit) s
  = Ok (if limit <=? length (Cache.similarOf pid cur (sortDesc Cache.orderCount arr) limit)
        then slice0 limit (Cache.similarOf pid cur (sortDesc Cache.orderCount arr) limit)
        else slice0 limit (sortDesc Cache.orderCount arr)).
Proof.
  intros Hload Hpid Hcur Hun.
  set (sorted := sortDesc Cache.orderCount arr) in *.
  set (similar := Cache.similarOf pid cur sorted limit) in *.
  destruct (cache_getRecommendations_loaded w productId limit s Hload) as (s' & Hrun & _).
  unfold result. rewrite Hrun. simpl fst. f_equal.
  unfold CacheSpec.answer. fold sorted. rewrite Hpid, Hcur. cbv zeta. fold similar.
  assert (Hnone : CacheSpec.ranking w cur similar limit = None).
  { unfold CacheSpec.ranking. destruct Hun as [Hoff|Hnull].
    - rewrite Hoff. reflexivity.
    - unfold result in Hnull. rewrite cache_ranker_run in Hnull.
      simpl in Hnull. injection Hnull as ->.
      destruct (_ && _); reflexivity. }
  rewrite Hnone. reflexivity.
Qed.

End CacheShapes.

(* ================================================================= *)
(** ** The length of the result *)

Lemma prisma_rankedForProduct_length (ids : option (list N)) (pool r : list Prisma.Product)
    (limit : nat) :
  Prisma.rankedForProduct ids pool limit = Some r -> length r <= limit.
Proof.
  unfold Prisma.rankedForProduct. destruct ids as [[|i ids]|]; try discriminate.
  destruct (limit <=? _); intros [= <-]; apply slice0_length.
Qed.

Lemma prisma_rankedForOrder_length (ids : option (list N)) (pool r : list Prisma.Product)
    (limit : nat) :
  Prisma.rankedForOrder ids pool limit = Some r -> length r <= limit.
Proof.
  unfold Prisma.rankedForOrder. destruct ids as [[|i ids]|]; try discriminate.
  destruct (Nat.min 2 limit <=? _); [|discriminate].
  destruct (_ <? limit) eqn:H; intros [= <-].
  - apply Nat.ltb_lt in H. rewrite length_app.
    unfold slice0 in *. rewrite !length_firstn in *. lia.
  - apply slice0_length.
Qed.

Lemma prisma_categoryThenFallback_length (similar fb : list Prisma.Product) (limit : nat) :
  length fb <= limit ->
  length (Prisma.categoryThenFallback similar fb limit) <= limit
  /\ length (Prisma.categoryThenFallbackOrder similar fb limit) <= limit.
Proof.
  intros Hfb.
  rewrite prisma_categoryThenFallback_shape, prisma_categoryThenFallbackOrder_shape.
  destruct similar; [auto | split; apply slice0_length].
Qed.

Section PrismaLength.

Variable w : Prisma.World.
Variable limit : nat.

Local Ltac within := apply keeps_ret; try assumption; try apply slice0_length.

Lemma prisma_productPath_length (pid : N) (b : bool) (fb : list Prisma.Product) :
  length fb <= limit ->
  keeps (fun _ => True) (Prisma.productPath w pid limit b fb)
        (fun r => length r <= limit).
Proof.
  intros Hfb. unfold Prisma.productPath.
  apply keeps_tryCatch; [| intros e; within].
  apply keeps_bind_any; [apply prisma_keeps_query_any; auto|].
  intros [cur|]; [| within].
  destruct (Prisma.isEmpty _); [within|].
  apply keeps_bind_any; [apply prisma_keeps_query_any; auto|]. intros similar.
  apply keeps_bind_any.
  { destruct (_ <? limit); [| apply keeps_ret; exact Logic.I].
    apply keeps_bind_any; [apply prisma_keeps_query_any; auto|].
    intros additional. apply keeps_ret; exact Logic.I. }
  intros pool.
  apply keeps_bind with (mid := fun ranked => forall r, ranked = Some r -> length r <= limit).
  { destruct (b && _); [| apply keeps_ret; discriminate].
    apply keeps_bind_any.
    - eapply keeps_run; [apply prisma_product_ranker_run | auto].
    - intros ids. apply keeps_ret. intros r. apply prisma_rankedForProduct_length. }
  intros [r|] Hr; apply keeps_ret; [apply Hr; reflexivity|].
  apply prisma_categoryThenFallback_length, Hfb.
Qed.

Lemma prisma_orderPath_length (oid : N) (b : bool) (fb : list Prisma.Product) :
  length fb <= limit ->
  keeps (fun _ => True) (Prisma.orderPath w oid limit b fb)
        (fun r => length r <= limit).
Proof.
  intros Hfb. unfold Prisma.orderPath.
  apply keeps_tryCatch; [| intros e; within].
  apply keeps_bind_any; [apply prisma_keeps_query_any; auto|].
  intros [order|]; [| within].
  destruct (Prisma.isEmpty (Prisma.items order)); [within|].
  destruct (Prisma.isEmpty (Prisma.orderCategoryIds order)); [within|].
  apply keeps_bind_any; [apply prisma_keeps_query_any; auto|]. intros similar.
  apply keeps_bind with (mid := fun ranked => forall r, ranked = Some r -> length r <= limit).
  { destruct (b && _); [| apply keeps_ret; discriminate].
    apply keeps_bind_any.
    - eapply keeps_run; [apply prisma_order_ranker_run | auto].
    - intros ids. apply keeps_ret. intros r. apply prisma_rankedForOrder_length. }
  intros [r|] Hr; apply keeps_ret; [apply Hr; reflexivity|].
  apply prisma_categoryThenFallback_length, Hfb.
Qed.

(** Whatever the storage and the model do, a returned list holds at most
    [limit] products. *)
Lemma prisma_result_within_limit (productId orderId : option N) (s : Prisma.State)
    (r : list Prisma.Product) :
  result (Prisma.getRecommendations w productId orderId limit) s = Ok r ->
  length r <= limit.
Proof.
  assert (H : keeps (fun _ => True) (Prisma.getRecommendations w productId orderId limit)
                    (fun r => length r <= limit)).
  { unfold Prisma.getRecommendations.
    apply keeps_tryCatch.
    - apply keeps_bind_any.
      + destruct (Prisma.USE_OLLAMA w); [| apply keeps_ret; exact Logic.I].
        eapply keeps_run; [apply prisma_isOllamaAvailable_run | auto].
      + intros b.
        eapply keeps_bind; [apply prisma_keeps_query; auto|].
        intros fb ->.
        assert (Hfb : length (Prisma.fallbackQuery productId limit (Prisma.db w)) <= limit)
          by apply prisma_findMany_length.
        destruct (Prisma.truthyId orderId); [apply prisma_orderPath_length, Hfb|].
        destruct (Prisma.truthyId productId); [apply prisma_productPath_length, Hfb|].
        apply keeps_ret, Hfb.
    - intros e. unfold Prisma.getPopularProducts.
      eapply keeps_weaken; [apply prisma_keeps_query; auto|].
      intros a ->. apply prisma_findMany_length. }
  unfold result. specialize (H s Logic.I).
  destruct (Prisma.getRecommendations w productId orderId limit s) as [[a|e] s'];
    simpl; intros [= <-]. apply H.
Qed.

End PrismaLength.

Section CacheLength.

Variable w : Cache.World.
Variable limit : nat.

Lemma cache_popular_length :
  keeps (fun _ => True) (Cache.getPopularProducts w limit) (fun r => length r <= limit).
Proof.
  unfold Cache.getPopularProducts.
  apply keeps_bind_any; [apply cache_keeps_accessor; auto|]. intros r.
  apply keeps_bind_any; [apply cache_keeps_sortInPlace; auto|]. intros _.
  apply keeps_bind_any; [apply cache_keeps_readArray|]. intros sorted.
  apply keeps_ret, slice0_length.
Qed.

Lemma cache_rankedOf_length (ids : option (list N)) (similar r : list Cache.Product) :
  Cache.rankedOf w ids similar limit = Some r -> length r <= limit.
Proof.
  unfold Cache.rankedOf. destruct ids as [ids|]; [|discriminate].
  destruct (2 <=? length ids); [|discriminate].
  destruct (_ =? limit); [|discriminate].
  intros [= <-]. apply slice0_length.
Qed.

Lemma cache_result_within_limit (productId : option string) (s : Cache.State)
    (r : list Cache.Product) :
  result (Cache.getRecommendations w productId limit) s = Ok r ->
  length r <= limit.
Proof.
  assert (H : keeps (fun _ => True) (Cache.getRecommendations w productId limit)
                    (fun r => length r <= limit)).
  { unfold Cache.getRecommendations.
    apply keeps_tryCatch; [| intros e; apply cache_popular_length].
    apply keeps_bind_any; [apply cache_keeps_accessor; auto|]. intros a.
    apply keeps_bind_any; [apply cache_keeps_sortInPlace; auto|]. intros _.
    apply keeps_bind_any; [apply cache_keeps_readArray|]. intros sorted.
    cbv zeta.
    destruct (Cache.truthyId productId) as [pid|]; [| apply keeps_ret, slice0_length].
    apply keeps_bind_any; [apply cache_keeps_readArray|]. intros all.
    destruct (find _ all) as [cur|]; [| apply keeps_ret, slice0_length].
    apply keeps_bind_any.
    { destruct (Cache.USE_OLLAMA w); [| apply keeps_ret; exact Logic.I].
      eapply keeps_run; [apply cache_isOllamaAvailable_run | auto]. }
    intros b.
    apply keeps_bind
      with (mid := fun ranked => forall r, ranked = Some r -> length r <= limit).
    { destruct (b && _); [| apply keeps_ret; discriminate].
      apply keeps_bind_any.
      - eapply keeps_run; [apply cache_ranker_run | auto].
      - intros ids. apply keeps_ret. intros r0. apply cache_rankedOf_length. }
    intros [r0|] Hr; apply keeps_ret; [apply Hr; reflexivity|].
    unfold Cache.similarOrFallback. destruct (limit <=? _); apply slice0_length. }
  unfold result. specialize (H s Logic.I).
  destruct (Cache.getRecommendations w productId limit s) as [[a|e] s'];
    simpl; intros [= <-]. apply H.
Qed.

End CacheLength.

(* ================================================================= *)
(** ** Where the recommended products come from *)

Lemma prisma_findMany_In (wh : Prisma.Product -> bool) (b : bool) (take : nat)
    (d : Prisma.Db) (p : Prisma.Product) :
  In p (Prisma.findMany wh b take d) -> In p (Prisma.products d) /\ wh p = true.
Proof.
  unfold Prisma.findMany. intros H. apply (In_slice0 take) in H.
  apply filter_In. destruct b; [apply sortDesc_In in H|]; exact H.
Qed.

Lemma prisma_mapGet_In (pool : list Prisma.Product) (i : N) (p : Prisma.Product) :
  Prisma.mapGet pool i = Some p -> In p pool.
Proof.
  unfold Prisma.mapGet. intros H. apply find_some in H. apply in_rev, H.
Qed.

Lemma prisma_rankedProducts_In (pool : list Prisma.Product) (ids : list N)
    (p : Prisma.Product) :
  In p (PrismaSpec.rankedProducts pool ids) -> In p pool.
Proof.
  unfold PrismaSpec.rankedProducts, filterMapDefined. intros H.
  apply in_flat_map in H. destruct H as (i & _ & Hp).
  destruct (Prisma.mapGet pool i) as [q|] eqn:Hq; [|contradiction].
  destruct Hp as [<-|[]]. apply (prisma_mapGet_In _ _ Hq).
Qed.

Lemma prisma_ranked_In (pool r : list Prisma.Product) (ids : option (list N))
    (limit : nat) (p : Prisma.Product) :
  Prisma.rankedForProduct ids pool limit = Some r
  \/ Prisma.rankedForOrder ids pool limit = Some r ->
  In p r -> In p pool.
Proof.
  assert (Hsrc : forall l n, In p (slice0 n (filterMapDefined (Prisma.mapGet pool) l)) ->
                 In p pool).
  { intros l n H. apply In_slice0 in H. apply (prisma_rankedProducts_In pool l p H). }
  assert (Hrest : forall l n,
             In p (slice0 n (filter (fun q => negb (Prisma.includes l (Prisma.id q))) pool)) ->
             In p pool).
  { intros l n H. apply In_slice0 in H. apply filter_In in H. apply H. }
  unfold Prisma.rankedForProduct, Prisma.rankedForOrder.
  destruct ids as [[|i ids]|]; try (intros [H|H]; discriminate H).
  intros [H|H] Hp.
  - destruct (limit <=? _); injection H as <-; [exact (Hsrc (i :: ids) _ Hp)|].
    apply In_slice0, in_app_or in Hp. destruct Hp as [Hp|Hp]; [exact (Hsrc (i :: ids) _ Hp)|].
    apply filter_In in Hp. apply Hp.
  - destruct (Nat.min 2 limit <=? _); [|discriminate].
    destruct (_ <? limit); injection H as <-; [|exact (Hsrc (i :: ids) _ Hp)].
    apply in_app_or in Hp. destruct Hp as [Hp|Hp]; [exact (Hsrc (i :: ids) _ Hp)|].
    exact (Hrest (i :: ids) _ Hp).
Qed.

Lemma prisma_unranked_In (similar fb : list Prisma.Product) (limit : nat)
    (p : Prisma.Product) :
  In p (Prisma.categoryThenFallback similar fb limit)
  \/ In p (Prisma.categoryThenFallbackOrder similar fb limit) ->
  In p similar \/ In p fb.
Proof.
  rewrite prisma_categoryThenFallback_shape, prisma_categoryThenFallbackOrder_shape.
  destruct similar as [|q similar]; [tauto|].
  intros H. assert (Hp : In p (slice0 limit ((q :: similar)
                                   ++ PrismaSpec.padding (q :: similar) fb))) by tauto.
  apply In_slice0, in_app_or in Hp. destruct Hp as [Hp|Hp]; [left; exact Hp|].
  right. apply filter_In in Hp. apply Hp.
Qed.

(** A product recommended on a product-seeded request comes from the
    fallback list or from the pool; on an order-seeded request, from the
    fallback list or from the category matches of the order. *)
Lemma prisma_answer_sources (w : Prisma.World) (productId orderId : option N)
    (limit : nat) (p : Prisma.Product) :
  In p (PrismaSpec.answer w productId orderId limit) ->
  In p (Prisma.fallbackQuery productId limit (Prisma.db w))
  \/ (exists pid cur, Prisma.truthyId orderId = None
                      /\ Prisma.truthyId productId = Some pid
                      /\ In p (PrismaSpec.productPool (Prisma.db w) pid cur limit
                               ++ Prisma.similarCategoryQuery pid cur (Prisma.db w)))
  \/ (exists oid order, Prisma.truthyId orderId = Some oid
                        /\ Prisma.findUniqueOrder oid (Prisma.db w) = Some order
                        /\ In p (Prisma.orderSimilarQuery order
                                   (Prisma.orderCategoryIds order) limit (Prisma.db w))).
Proof.
  unfold PrismaSpec.answer. cbv zeta.
  destruct (Prisma.truthyId orderId) as [oid|].
  - unfold PrismaSpec.orderAnswer.
    destruct (Prisma.findUniqueOrder oid (Prisma.db w)) as [order|] eqn:Horder; [|tauto].
    destruct (Prisma.isEmpty (Prisma.items order)); [tauto|].
    destruct (Prisma.isEmpty (Prisma.orderCategoryIds order)); [tauto|].
    cbv zeta. unfold PrismaSpec.orderRanking.
    set (similar := Prisma.orderSimilarQuery order _ limit (Prisma.db w)).
    assert (Hsim : In p similar ->
              exists oid0 order0,
                Some oid = Some oid0
                /\ Prisma.findUniqueOrder oid0 (Prisma.db w) = Some order0
                /\ In p (Prisma.orderSimilarQuery order0 (Prisma.orderCategoryIds order0)
                           limit (Prisma.db w))).
    { intros H. exists oid, order. auto. }
    assert (Hun : In p (Prisma.categoryThenFallbackOrder similar
                          (Prisma.fallbackQuery productId limit (Prisma.db w)) limit) ->
              In p (Prisma.fallbackQuery productId limit (Prisma.db w)) \/ In p similar).
    { intros Hp. apply or_comm. eapply prisma_unranked_In. right. exact Hp. }
    destruct (PrismaSpec.rankingOn w && _).
    + destruct (Prisma.rankedForOrder _ similar limit) as [r|] eqn:Hr.
      * intros Hp. right. right. apply Hsim.
        eapply prisma_ranked_In; [right; exact Hr | exact Hp].
      * intros Hp. destruct (Hun Hp); [left; assumption | right; right; auto].
    + intros Hp. destruct (Hun Hp); [left; assumption | right; right; auto].
  - destruct (Prisma.truthyId productId) as [pid|]; [|tauto].
    unfold PrismaSpec.productAnswer.
    destruct (Prisma.findUniqueProduct pid (Prisma.db w)) as [cur|]; [|tauto].
    destruct (Prisma.isEmpty _); [tauto|].
    unfold PrismaSpec.productRanking.
    set (pool := PrismaSpec.productPool (Prisma.db w) pid cur limit).
    set (similar := Prisma.similarCategoryQuery pid cur (Prisma.db w)).
    assert (Hsrc : In p (pool ++ similar) ->
              exists pid0 cur0,
                @None N = None /\ Some pid = Some pid0
                /\ In p (PrismaSpec.productPool (Prisma.db w) pid0 cur0 limit
                         ++ Prisma.similarCategoryQuery pid0 cur0 (Prisma.db w))).
    { intros H. exists pid, cur. auto. }
    assert (Hun : In p (Prisma.categoryThenFallback similar
                          (Prisma.fallbackQuery productId limit (Prisma.db w)) limit) ->
              In p (Prisma.fallbackQuery productId limit (Prisma.db w)) \/ In p similar).
    { intros Hp. apply or_comm. eapply prisma_unranked_In. left. exact Hp. }
    destruct (PrismaSpec.rankingOn w && _).
    + destruct (Prisma.rankedForProduct _ pool limit) as [r|] eqn:Hr.
      * intros Hp. right. left. apply Hsrc, in_or_app. left.
        eapply prisma_ranked_In; [left; exact Hr | exact Hp].
      * intros Hp. destruct (Hun Hp);
          [left; assumption | right; left; apply Hsrc, in_or_app; right; assumption].
    + intros Hp. destruct (Hun Hp);
        [left; assumption | right; left; apply Hsrc, in_or_app; right; assumption].
Qed.

(** The product path does exclude the seed: with the storage answering, a
    request seeded by a product alone never returns that product. *)
Lemma prisma_product_path_excludes_seed (w : Prisma.World) (productId orderId : option N)
    (pid : N) (limit : nat) (s : Prisma.State) (r : list Prisma.Product)
    (p : Prisma.Product) :
  PrismaSpec.storageAlwaysUp w ->
  Prisma.truthyId orderId = None -> Prisma.truthyId productId = Some pid ->
  result (Prisma.getRecommendations w productId orderId limit) s = Ok r ->
  In p r -> Prisma.id p <> pid.
Proof.
  intros Hup Hoid Hpid Hres Hp.
  rewrite (prisma_getRecommendations_up Hup) in Hres. injection Hres as <-.
  apply prisma_answer_sources in Hp.
  destruct Hp as [Hfb|[(pid' & cur & _ & Hpid' & Hpool)|(oid & order & Hoid' & _)]].
  - unfold Prisma.fallbackQuery in Hfb. apply prisma_findMany_In in Hfb.
    destruct Hfb as [_ Hwh]. rewrite Hpid in Hwh.
    apply negb_true_iff, N.eqb_neq in Hwh. exact Hwh.
  - rewrite Hpid in Hpid'. injection Hpid' as <-.
    assert (Hsim : forall q, In q (Prisma.similarCategoryQuery pid cur (Prisma.db w)) ->
                   Prisma.id q <> pid).
    { intros q Hq. unfold Prisma.similarCategoryQuery in Hq.
      apply prisma_findMany_In in Hq. destruct Hq as [_ Hwh].
      apply andb_true_iff in Hwh. destruct Hwh as [Hwh _].
      apply negb_true_iff, N.eqb_neq in Hwh. exact Hwh. }
    apply in_app_or in Hpool. destruct Hpool as [Hpool|Hpool]; [|apply Hsim, Hpool].
    unfold PrismaSpec.productPool, Prisma.poolOf in Hpool.
    destruct (_ <? limit); [|apply Hsim, Hpool].
    apply in_app_or in Hpool. destruct Hpool as [Hpool|Hpool]; [apply Hsim, Hpool|].
    unfold Prisma.additionalQuery in Hpool.
    apply prisma_findMany_In in Hpool. destruct Hpool as [_ Hwh].
    apply andb_true_iff in Hwh. destruct Hwh as [Hwh _].
    apply negb_true_iff, N.eqb_neq in Hwh. exact Hwh.
  - congruence.
Qed.

(** On the order path a purchased product can only come from the fallback
    list: the category matches exclude the products of the order. *)
Lemma prisma_order_path_purchased_from_fallback (w : Prisma.World)
    (productId orderId : option N) (oid : N) (order : Prisma.Order) (limit : nat)
    (s : Prisma.State) (r : list Prisma.Product) (p : Prisma.Product) :
  PrismaSpec.storageAlwaysUp w ->
  Prisma.truthyId orderId = Some oid ->
  Prisma.findUniqueOrder oid (Prisma.db w) = Some order ->
  result (Prisma.getRecommendations w productId orderId limit) s = Ok r ->
  In p r -> In (Prisma.id p) (map Prisma.productId (Prisma.items order)) ->
  In p (Prisma.fallbackQuery productId limit (Prisma.db w)).
Proof.
  intros Hup Hoid Horder Hres Hp Hbought.
  rewrite (prisma_getRecommendations_up Hup) in Hres. injection Hres as <-.
  apply prisma_answer_sources in Hp.
  destruct Hp as [Hfb|[(pid' & cur & Hnone & _)|(oid' & order' & Hoid' & Horder' & Hsim)]].
  - exact Hfb.
  - congruence.
  - rewrite Hoid in Hoid'. injection Hoid' as <-.
    rewrite Horder in Horder'. injection Horder' as <-.
    unfold Prisma.orderSimilarQuery in Hsim. apply prisma_findMany_In in Hsim.
    destruct Hsim as [_ Hwh]. apply andb_true_iff in Hwh. destruct Hwh as [Hwh _].
    apply negb_true_iff in Hwh. apply prisma_includes_In in Hbought. congruence.
Qed.

(* ================================================================= *)
(** ** Repeated products *)

Lemma prisma_distinct_filter (g : Prisma.Product -> bool) (l : list Prisma.Product) :
  PrismaSpec.distinctIds l -> PrismaSpec.distinctIds (filter g l).
Proof.
  unfold PrismaSpec.distinctIds. induction l as [|p l IH]; intros H; [exact H|].
  simpl in *. apply NoDup_cons_iff in H. destruct H as [Hp Hl].
  destruct (g p); [|apply IH, Hl].
  simpl. constructor; [|apply IH, Hl].
  intros Hin. apply Hp. apply in_map_iff in Hin. destruct Hin as (q & Hq & Hin).
  apply filter_In in Hin. apply in_map_iff. exists q. tauto.
Qed.

Lemma prisma_distinct_slice0 (n : nat) (l : list Prisma.Product) :
  PrismaSpec.distinctIds l -> PrismaSpec.distinctIds (slice0 n l).
Proof.
  unfold PrismaSpec.distinctIds, slice0. intros H.
  rewrite <- (firstn_skipn n l), map_app in H. apply NoDup_app_remove_r in H. exact H.
Qed.

Lemma prisma_distinct_sortDesc (key : Prisma.Product -> Z) (l : list Prisma.Product) :
  PrismaSpec.distinctIds l -> PrismaSpec.distinctIds (sortDesc key l).
Proof.
  unfold PrismaSpec.distinctIds. intros H.
  eapply Permutation_NoDup; [|exact H].
  apply Permutation_map, Permutation_sym, sortDesc_perm.
Qed.

Lemma prisma_distinct_findMany (wh : Prisma.Product -> bool) (b : bool) (take : nat)
    (d : Prisma.Db) :
  PrismaSpec.distinctIds (Prisma.products d) ->
  PrismaSpec.distinctIds (Prisma.findMany wh b take d).
Proof.
  intros H. unfold Prisma.findMany. apply prisma_distinct_slice0.
  destruct b; [apply prisma_distinct_sortDesc|]; apply prisma_distinct_filter, H.
Qed.

Lemma prisma_distinct_app (l1 l2 : list Prisma.Product) :
  PrismaSpec.distinctIds l1 -> PrismaSpec.distinctIds l2 ->
  (forall p q, In p l1 -> In q l2 -> Prisma.id p <> Prisma.id q) ->
  PrismaSpec.distinctIds (l1 ++ l2).
Proof.
  unfold PrismaSpec.distinctIds. intros H1 H2 Hd. rewrite map_app.
  apply NoDup_app; [exact H1 | exact H2 |].
  intros i Hi1 Hi2. apply in_map_iff in Hi1. apply in_map_iff in Hi2.
  destruct Hi1 as (p & Hp & Hin1). destruct Hi2 as (q & Hq & Hin2).
  apply (Hd p q Hin1 Hin2). congruence.
Qed.

Lemma prisma_distinct_padded (similar fb : list Prisma.Product) :
  PrismaSpec.distinctIds similar -> PrismaSpec.distinctIds fb ->
  PrismaSpec.distinctIds (similar ++ PrismaSpec.padding similar fb).
Proof.
  intros Hs Hfb. apply prisma_distinct_app; [exact Hs | apply prisma_distinct_filter, Hfb|].
  intros p q Hp Hq Heq. unfold PrismaSpec.padding in Hq. apply filter_In in Hq.
  destruct Hq as [_ Hq]. apply negb_true_iff in Hq.
  assert (Hex : existsb (fun sp => N.eqb (Prisma.id sp) (Prisma.id q)) similar = true).
  { apply existsb_exists. exists p. split; [exact Hp|]. apply N.eqb_eq, Heq. }
  congruence.
Qed.

Lemma prisma_distinct_ranked (pool : list Prisma.Product) (ids : list N) :
  PrismaSpec.distinctIds pool -> NoDup ids ->
  (forall i, In i ids -> existsb (fun p => N.eqb (Prisma.id p) i) pool = true) ->
  PrismaSpec.distinctIds (PrismaSpec.rankedProducts pool ids
                          ++ PrismaSpec.remainingProducts pool ids).
Proof.
  intros Hpool Hids Hvalid.
  pose proof (prisma_ranked_ids pool ids Hvalid) as Hmap.
  apply prisma_distinct_app.
  - unfold PrismaSpec.distinctIds. rewrite Hmap. exact Hids.
  - apply prisma_distinct_filter, Hpool.
  - intros p q Hp Hq Heq.
    assert (Hin : In (Prisma.id p) ids).
    { rewrite <- Hmap. apply in_map, Hp. }
    unfold PrismaSpec.remainingProducts in Hq. apply filter_In in Hq.
    destruct Hq as [_ Hq]. apply negb_true_iff in Hq.
    rewrite Heq in Hin. apply prisma_includes_In in Hin. congruence.
Qed.

Section PrismaDistinct.

Variable w : Prisma.World.
Variable limit : nat.
Hypothesis rows : PrismaSpec.distinctIds (Prisma.products (Prisma.db w)).
Hypothesis tidy : PrismaSpec.noRepeatedId w limit.

Lemma prisma_distinct_pool (pid : N) (cur : Prisma.Product) :
  PrismaSpec.distinctIds (PrismaSpec.productPool (Prisma.db w) pid cur limit).
Proof.
  unfold PrismaSpec.productPool, Prisma.poolOf.
  assert (Hs : PrismaSpec.distinctIds (Prisma.similarCategoryQuery pid cur (Prisma.db w)))
    by apply prisma_distinct_findMany, rows.
  destruct (_ <? limit); [|exact Hs].
  apply prisma_distinct_app; [exact Hs | apply prisma_distinct_findMany, rows|].
  intros p q Hp Hq Heq. unfold Prisma.additionalQuery in Hq.
  apply prisma_findMany_In in Hq. destruct Hq as [_ Hq].
  apply andb_true_iff in Hq. destruct Hq as [_ Hq]. apply negb_true_iff in Hq.
  assert (Hin : Prisma.includes
                  (map Prisma.id (Prisma.similarCategoryQuery pid cur (Prisma.db w)))
                  (Prisma.id q) = true).
  { apply prisma_includes_In. rewrite <- Heq. apply in_map, Hp. }
  congruence.
Qed.

Lemma prisma_distinct_unranked (similar fb : list Prisma.Product) :
  PrismaSpec.distinctIds similar -> PrismaSpec.distinctIds fb ->
  PrismaSpec.distinctIds (Prisma.categoryThenFallback similar fb limit)
  /\ PrismaSpec.distinctIds (Prisma.categoryThenFallbackOrder similar fb limit).
Proof.
  intros Hs Hfb.
  rewrite prisma_categoryThenFallback_shape, prisma_categoryThenFallbackOrder_shape.
  destruct similar as [|q similar]; [auto|].
  split; apply prisma_distinct_slice0, prisma_distinct_padded; assumption.
Qed.

(** With distinct rows in the product table and a model that names no id
    twice, the answer holds no product twice. *)
Lemma prisma_answer_distinct (productId orderId : option N) :
  PrismaSpec.distinctIds (PrismaSpec.answer w productId orderId limit).
Proof.
  destruct tidy as [Hprod Hord].
  assert (Hfb : PrismaSpec.distinctIds
                  (Prisma.fallbackQuery productId limit (Prisma.db w)))
    by apply prisma_distinct_findMany, rows.
  unfold PrismaSpec.answer. cbv zeta.
  destruct (Prisma.truthyId orderId) as [oid|].
  - unfold PrismaSpec.orderAnswer.
    destruct (Prisma.findUniqueOrder oid (Prisma.db w)) as [order|]; [|exact Hfb].
    destruct (Prisma.isEmpty (Prisma.items order)); [exact Hfb|].
    destruct (Prisma.isEmpty (Prisma.orderCategoryIds order)); [exact Hfb|].
    cbv zeta. set (similar := Prisma.orderSimilarQuery order _ limit (Prisma.db w)).
    assert (Hs : PrismaSpec.distinctIds similar) by apply prisma_distinct_findMany, rows.
    unfold PrismaSpec.orderRanking.
    destruct (PrismaSpec.rankingOn w && _);
      [| apply prisma_distinct_unranked; assumption].
    destruct (PrismaSpec.orderVerdict w order similar limit) as [ids|] eqn:Hv;
      [| apply prisma_distinct_unranked; assumption].
    destruct (prisma_orderVerdict_some _ _ _ _ Hv) as (_ & Hmin & Hvalid).
    destruct ids as [|i ids]; [apply prisma_distinct_unranked; assumption|].
    rewrite prisma_rankedForOrder_shape; [| discriminate |].
    + apply prisma_distinct_slice0, prisma_distinct_ranked;
        [exact Hs | apply (Hord _ _ _ Hv) | exact Hvalid].
    + rewrite <- (length_map Prisma.id), (prisma_ranked_ids _ _ Hvalid). exact Hmin.
  - destruct (Prisma.truthyId productId) as [pid|]; [|exact Hfb].
    unfold PrismaSpec.productAnswer.
    destruct (Prisma.findUniqueProduct pid (Prisma.db w)) as [cur|]; [|exact Hfb].
    destruct (Prisma.isEmpty _); [exact Hfb|].
    set (pool := PrismaSpec.productPool (Prisma.db w) pid cur limit).
    assert (Hs : PrismaSpec.distinctIds (Prisma.similarCategoryQuery pid cur (Prisma.db w)))
      by apply prisma_distinct_findMany, rows.
    unfold PrismaSpec.productRanking.
    destruct (PrismaSpec.rankingOn w && _);
      [| apply prisma_distinct_unranked; assumption].
    destruct (PrismaSpec.productVerdict w cur pool limit) as [ids|] eqn:Hv;
      [| apply prisma_distinct_unranked; assumption].
    destruct (prisma_productVerdict_some _ _ _ _ Hv) as (_ & _ & Hvalid).
    destruct ids as [|i ids]; [apply prisma_distinct_unranked; assumption|].
    rewrite prisma_rankedForProduct_shape by discriminate.
    apply prisma_distinct_slice0, prisma_distinct_ranked;
      [apply prisma_distinct_pool | apply (Hprod _ _ _ Hv) | exact Hvalid].
Qed.

(** The same for [getRecommendations], when the storage answers. *)
Lemma prisma_result_distinct (productId orderId : option N) (s : Prisma.State)
    (r : list Prisma.Product) :
  PrismaSpec.storageAlwaysUp w ->
  result (Prisma.getRecommendations w productId orderId limit) s = Ok r ->
  PrismaSpec.distinctIds r.
Proof.
  intros Hup Hres. rewrite (prisma_getRecommendations_up Hup) in Hres.
  injection Hres as <-. apply prisma_answer_distinct.
Qed.

End PrismaDistinct.

(* ================================================================= *)
(** ** Outbound calls *)

Section Emits.

Context {S P : Type} (log : S -> list (Call P)).

Lemma emits_ret (A : Type) (a : A) (allowed : list (Call P) -> Prop) :
  allowed [] -> emits log (ret a) allowed.
Proof. intros H s. exists []. simpl. rewrite app_nil_r. auto. Qed.

Lemma emits_after_silent (A B : Type) (m : M S A) (k : A -> M S B)
    (allowed : list (Call P) -> Prop) :
  emits log m (eq []) -> (forall a, emits log (k a) allowed) -> allowed [] ->
  emits log (bind m k) allowed.
Proof.
  intros Hm Hk H0 s. unfold bind. destruct (Hm s) as (c1 & Hlog & <-).
  rewrite app_nil_r in Hlog.
  destruct (m s) as [[a|e] s1]; simpl in *.
  - destruct (Hk a s1) as (cs & Hcs & Hall). exists cs. rewrite Hcs, Hlog. auto.
  - exists []. rewrite app_nil_r. auto.
Qed.

Lemma emits_then_silent (A B : Type) (m : M S A) (k : A -> M S B)
    (allowed : list (Call P) -> Prop) :
  emits log m allowed -> (forall a, emits log (k a) (eq [])) ->
  emits log (bind m k) allowed.
Proof.
  intros Hm Hk s. unfold bind. destruct (Hm s) as (c1 & Hlog & Hall).
  destruct (m s) as [[a|e] s1]; simpl in *.
  - destruct (Hk a s1) as (cs & Hcs & <-). rewrite app_nil_r in Hcs.
    exists c1. rewrite Hcs. auto.
  - exists c1. auto.
Qed.

Lemma emits_tryCatch (A : Type) (m : M S A) (h : Exn -> M S A)
    (allowed : list (Call P) -> Prop) :
  emits log m allowed -> (forall e, emits log (h e) (eq [])) ->
  emits log (tryCatch m h) allowed.
Proof.
  intros Hm Hh s. unfold tryCatch. destruct (Hm s) as (c1 & Hlog & Hall).
  destruct (m s) as [[a|e] s1]; simpl in *.
  - exists c1. auto.
  - destruct (Hh e s1) as (cs & Hcs & <-). rewrite app_nil_r in Hcs.
    exists c1. rewrite Hcs. auto.
Qed.

(** A computation that keeps the log, whatever the log is, appends
    nothing. *)
Lemma emits_of_keeps (A : Type) (m : M S A) :
  (forall c0, keeps (fun s => log s = c0) m (fun _ => True)) ->
  emits log m (eq []).
Proof.
  intros H s. exists []. rewrite app_nil_r. split; [|reflexivity].
  specialize (H (log s) s eq_refl).
  destruct (m s) as [[a|e] s1]; simpl; [apply H | exact H].
Qed.

End Emits.

Lemma prisma_query_silent (w : Prisma.World) (A : Type) (q : Prisma.Db -> A) :
  emits Prisma.calls (Prisma.query w q) (eq []).
Proof.
  apply emits_of_keeps. intros c0. apply prisma_keeps_query_any. auto.
Qed.

Section PrismaCalls.

Variable w : Prisma.World.

Lemma prisma_productPath_calls (pid : N) (limit : nat) (b : bool)
    (fb : list Prisma.Product) :
  emits Prisma.calls (Prisma.productPath w pid limit b fb) (pathCallsOf b).
Proof.
  assert (H0 : pathCallsOf b []) by (left; reflexivity).
  unfold Prisma.productPath.
  apply emits_tryCatch; [| intros e; apply emits_ret; reflexivity].
  apply emits_after_silent; [apply prisma_query_silent | | exact H0].
  intros [cur|]; [| apply emits_ret, H0].
  destruct (Prisma.isEmpty _); [apply emits_ret, H0|].
  apply emits_after_silent; [apply prisma_query_silent | | exact H0].
  intros similar.
  apply emits_after_silent; [ | | exact H0].
  { destruct (_ <? limit); [| apply emits_ret; reflexivity].
    apply emits_then_silent; [apply prisma_query_silent|].
    intros additional. apply emits_ret; reflexivity. }
  intros pool.
  apply emits_then_silent;
    [| intros [r|]; apply emits_ret; reflexivity].
  destruct b; [rewrite andb_true_l | rewrite andb_false_l; apply emits_ret, H0].
  destruct (limit <=? length pool); [| apply emits_ret, H0].
  intros s. unfold bind. rewrite prisma_product_ranker_run. simpl.
  destruct (length pool <? limit).
  - exists []. rewrite app_nil_r. auto.
  - eexists. split; [reflexivity|]. right. eauto.
Qed.

Lemma prisma_orderPath_calls (oid : N) (limit : nat) (b : bool)
    (fb : list Prisma.Product) :
  emits Prisma.calls (Prisma.orderPath w oid limit b fb) (pathCallsOf b).
Proof.
  assert (H0 : pathCallsOf b []) by (left; reflexivity).
  unfold Prisma.orderPath.
  apply emits_tryCatch; [| intros e; apply emits_ret; reflexivity].
  apply emits_after_silent; [apply prisma_query_silent | | exact H0].
  intros [order|]; [| apply emits_ret, H0].
  destruct (Prisma.isEmpty (Prisma.items order)); [apply emits_ret, H0|].
  destruct (Prisma.isEmpty (Prisma.orderCategoryIds order)); [apply emits_ret, H0|].
  apply emits_after_silent; [apply prisma_query_silent | | exact H0].
  intros similar.
  apply emits_then_silent;
    [| intros [r|]; apply emits_ret; reflexivity].
  destruct b; [rewrite andb_true_l | rewrite andb_false_l; apply emits_ret, H0].
  destruct (2 <=? length similar); [| apply emits_ret, H0].
  intros s. unfold bind. rewrite prisma_order_ranker_run. simpl.
  destruct (length similar <? limit); [exists []; rewrite app_nil_r; auto|].
  destruct (forallb _ _); [| exists []; rewrite app_nil_r; auto].
  eexists. split; [reflexivity|]. right. eauto.
Qed.

Lemma prisma_getRecommendations_calls (productId orderId : option N) (limit : nat) :
  emits Prisma.calls (Prisma.getRecommendations w productId orderId limit)
        (prismaCallsOf w).
Proof.
  intros s. unfold Prisma.getRecommendations.
  set (rest := fun useOllama : bool =>
                 bind (Prisma.query w (Prisma.fallbackQuery productId limit))
                   (fun fallbackProducts =>
                      match Prisma.truthyId orderId with
                      | Some oid => Prisma.orderPath w oid limit useOllama fallbackProducts
                      | None =>
                          match Prisma.truthyId productId with
                          | Some pid =>
                              Prisma.productPath w pid limit useOllama fallbackProducts
                          | None => ret fallbackProducts
                          end
                      end)).
  assert (Hrest : forall b, emits Prisma.calls (rest b) (pathCallsOf b)).
  { intros b. unfold rest.
    apply emits_after_silent; [apply prisma_query_silent | | left; reflexivity].
    intros fb.
    destruct (Prisma.truthyId orderId); [apply prisma_orderPath_calls|].
    destruct (Prisma.truthyId productId); [apply prisma_productPath_calls|].
    apply emits_ret. left. reflexivity. }
  assert (Hpop : forall e : Exn,
             emits Prisma.calls (Prisma.getPopularProducts w limit) (eq []))
    by (intros e; apply prisma_query_silent).
  unfold prismaCallsOf, tryCatch. unfold bind at 1.
  destruct (Prisma.USE_OLLAMA w).
  - rewrite prisma_isOllamaAvailable_run.
    destruct (Hrest (probeOk (Prisma.probe w)) (Prisma.withCall Probe s))
      as (c2 & Hc2 & Hall).
    fold (rest (probeOk (Prisma.probe w))).
    destruct (rest (probeOk (Prisma.probe w)) (Prisma.withCall Probe s)) as [[r|e] s2];
      simpl in Hc2.
    + exists ([Probe] ++ c2). simpl snd. rewrite Hc2, <- app_assoc.
      split; [reflexivity|].
      destruct Hall as [->|(Hb & p & ->)];
        [left; reflexivity | right; split; [exact Hb | exists p; reflexivity]].
    + destruct (Hpop e s2) as (c3 & Hc3 & <-). rewrite app_nil_r in Hc3.
      exists ([Probe] ++ c2). rewrite Hc3, Hc2, <- app_assoc.
      split; [reflexivity|].
      destruct Hall as [->|(Hb & p & ->)];
        [left; reflexivity | right; split; [exact Hb | exists p; reflexivity]].
  - unfold ret at 1. fold (rest false).
    destruct (Hrest false s) as (c2 & Hc2 & Hall).
    assert (c2 = []) as -> by (destruct Hall as [H|(H & _)]; [exact H | discriminate H]).
    destruct (rest false s) as [[r|e] s2]; simpl in Hc2.
    + exists []. auto.
    + destruct (Hpop e s2) as (c3 & Hc3 & <-). exists [].
      rewrite Hc3, Hc2, !app_nil_r. auto.
Qed.

End PrismaCalls.

Section CacheCalls2.

Variable w : Cache.World.

Lemma cache_accessor_silent :
  emits Cache.calls (Cache.getProductsWithOrderCounts w) (eq []).
Proof. apply emits_of_keeps. intros c0. apply cache_keeps_accessor; auto. Qed.

Lemma cache_sort_silent (r : Cache.ArrayRef) :
  emits Cache.calls (Cache.sortInPlace r) (eq []).
Proof. apply emits_of_keeps. intros c0. apply cache_keeps_sortInPlace; auto. Qed.

Lemma cache_read_silent (r : Cache.ArrayRef) :
  emits Cache.calls (Cache.readArray r) (eq []).
Proof. apply emits_of_keeps. intros c0. apply cache_keeps_readArray. Qed.

Lemma cache_popular_silent (limit : nat) :
  emits Cache.calls (Cache.getPopularProducts w limit) (eq []).
Proof. apply emits_of_keeps. intros c0. apply cache_keeps_popular; auto. Qed.

Lemma cache_getRecommendations_calls (productId : option string) (limit : nat) :
  emits Cache.calls (Cache.getRecommendations w productId limit) (cacheCallsOf w).
Proof.
  assert (H0 : cacheCallsOf w []) by (left; reflexivity).
  unfold Cache.getRecommendations.
  apply emits_tryCatch; [| intros e; apply cache_popular_silent].
  apply emits_after_silent; [apply cache_accessor_silent | | exact H0]. intros r.
  apply emits_after_silent; [apply cache_sort_silent | | exact H0]. intros _.
  apply emits_after_silent; [apply cache_read_silent | | exact H0]. intros sorted.
  cbv zeta.
  destruct (Cache.truthyId productId) as [pid|]; [| apply emits_ret, H0].
  apply emits_after_silent; [apply cache_read_silent | | exact H0]. intros all.
  destruct (find _ all) as [cur|]; [| apply emits_ret, H0].
  intros s. unfold cacheCallsOf. unfold bind at 1.
  destruct (Cache.USE_OLLAMA w).
  - rewrite cache_isOllamaAvailable_run. unfold bind at 1.
    destruct (probeOk (Cache.probe w)) eqn:Hok;
      [rewrite andb_true_l | rewrite andb_false_l].
    + destruct (limit <=? length _).
      * unfold bind at 1. rewrite cache_ranker_run. unfold ret at 1.
        destruct (length _ <? limit);
          destruct (Cache.rankedOf w _ _ limit); simpl;
          eexists; (split; [try rewrite <- app_assoc; reflexivity|]);
          right; (split; [reflexivity|]); simpl; eauto.
      * unfold ret at 1. simpl. eexists. split; [reflexivity|]. right. auto.
    + unfold ret at 1. simpl. eexists. split; [reflexivity|]. right. auto.
  - unfold ret at 1. rewrite andb_false_l. unfold bind at 1. unfold ret at 1. simpl.
    exists []. rewrite app_nil_r. auto.
Qed.

End CacheCalls2.

(* ================================================================= *)
(** ** When [getRecommendations] throws *)

Lemma tryCatch_ret_returns (S A : Type) (m : M S A) (a : A) (s : S) :
  exists r, fst (tryCatch m (fun _ => ret a) s) = Ok r.
Proof. unfold tryCatch. destruct (m s) as [[r|e] s1]; simpl; eauto. Qed.

Lemma prisma_probe_step (w : Prisma.World) (s : Prisma.State) :
  exists b s1,
    (if Prisma.USE_OLLAMA w then Prisma.isOllamaAvailable w else ret false) s = (Ok b, s1)
    /\ Prisma.queries s1 = Prisma.queries s.
Proof.
  destruct (Prisma.USE_OLLAMA w).
  - rewrite prisma_isOllamaAvailable_run. eexists _, _. split; reflexivity.
  - eexists _, _. split; reflexivity.
Qed.

Lemma cache_accessor_unloaded (w : Cache.World) (s : Cache.State) :
  CacheSpec.loaded w s = None ->
  exists s1,
    Cache.getProductsWithOrderCounts w s = (Throw StorageError, s1)
    /\ Cache.productsCache s1 = Cache.productsCache s
    /\ Cache.queries s < Cache.queries s1.
Proof.
  unfold CacheSpec.loaded, CacheSpec.isFresh, Cache.getProductsWithOrderCounts.
  intros H. unfold bind at 1. unfold Cache.dateNow. unfold bind at 1. unfold gets.
  simpl Cache.productsCache. simpl Cache.clockReads.
  destruct (Cache.productsCache s) as [d t] eqn:Hc. simpl in *.
  rewrite ?Hc. simpl.
  assert (Hdown :
    Cache.storageUp w (Cache.queries s) && Cache.storageUp w (S (Cache.queries s)) = false ->
    exists s1,
      bind (Cache.query w Cache.productDocs)
        (fun products =>
           bind (Cache.query w (fun d0 => Cache.aggregateOrderCounts (Cache.orderDocs d0)))
             (fun orderCounts =>
                bind (Cache.setCache
                        {| Cache.data := Some (map (Cache.withOrderCount orderCounts) products);
                           Cache.lastUpdate := Cache.clock w (Cache.clockReads s) |})
                     (fun _ => ret Cache.CachedArray))) (Cache.ticked s)
      = (Throw StorageError, s1)
      /\ Cache.productsCache s1 = {| Cache.data := d; Cache.lastUpdate := t |}
      /\ Cache.queries s < Cache.queries s1).
  { intros Hup. unfold bind, Cache.query, Cache.setCache, modify. simpl.
    destruct (Cache.storageUp w (Cache.queries s)); simpl in *.
    - rewrite Hup. simpl. eexists. split; [reflexivity|]. simpl. rewrite Hc. split; [reflexivity|lia].
    - eexists. split; [reflexivity|]. simpl. rewrite Hc. split; [reflexivity|lia]. }
  destruct d as [cached|].
  - destruct (Cache.clock w (Cache.clockReads s) - t <? 300000)%Z; [discriminate|].
    destruct (Cache.storageUp w (Cache.queries s) &&
              Cache.storageUp w (S (Cache.queries s))) eqn:Hup; [discriminate|].
    apply Hdown; reflexivity.
  - destruct (Cache.storageUp w (Cache.queries s) &&
              Cache.storageUp w (S (Cache.queries s))) eqn:Hup; [discriminate|].
    apply Hdown; reflexivity.
Qed.


(* ================================================================= *)
(** ** The Prisma orchestrator, run under any storage *)

Lemma prisma_productRank_run (w : Prisma.World) (cur : Prisma.Product)
    (pool similar fb : list Prisma.Product) (limit : nat) (b : bool) (s : Prisma.State) :
  exists s',
    bind (if b && (limit <=? length pool)
          then bind (Prisma.getOllamaRecommendations w cur pool limit)
                    (fun recommendedIds =>
                       ret (Prisma.rankedForProduct recommendedIds pool limit))
          else ret None)
      (fun ranked =>
         match ranked with
         | Some recommended => ret recommended
         | None => ret (Prisma.categoryThenFallback similar fb limit)
         end) s
    = (Ok (fst (productRank w cur pool similar fb limit b)), s')
    /\ Prisma.calls s' = Prisma.calls s ++ snd (productRank w cur pool similar fb limit b).
Proof.
  unfold productRank. unfold bind at 1.
  destruct (b && (limit <=? length pool)) eqn:Hb.
  - unfold bind at 1. rewrite prisma_product_ranker_run. unfold ret at 1.
    apply andb_prop in Hb. destruct Hb as [_ Hlen]. apply Nat.leb_le in Hlen.
    destruct (length pool <? limit) eqn:Hlt; [apply Nat.ltb_lt in Hlt; lia|].
    destruct (Prisma.rankedForProduct _ pool limit);
      (eexists; split; [reflexivity|]); reflexivity.
  - unfold ret at 1. eexists. split; [reflexivity|]. simpl. rewrite app_nil_r. reflexivity.
Qed.

Lemma prisma_orderRank_run (w : Prisma.World) (order : Prisma.Order)
    (similar fb : list Prisma.Product) (limit : nat) (b : bool) (s : Prisma.State) :
  exists s',
    bind (if b && (2 <=? length similar)
          then bind (Prisma.getOllamaRecommendationsForOrder w order similar limit)
                    (fun recommendedIds =>
                       ret (Prisma.rankedForOrder recommendedIds similar limit))
          else ret None)
      (fun ranked =>
         match ranked with
         | Some recommended => ret recommended
         | None => ret (Prisma.categoryThenFallbackOrder similar fb limit)
         end) s
    = (Ok (fst (orderRank w order similar fb limit b)), s')
    /\ Prisma.calls s' = Prisma.calls s ++ snd (orderRank w order similar fb limit b).
Proof.
  unfold orderRank. unfold bind at 1.
  destruct (b && (2 <=? length similar)).
  - unfold bind at 1. rewrite prisma_order_ranker_run. unfold ret at 1.
    destruct (Prisma.rankedForOrder _ similar limit);
      (eexists; split; [reflexivity|]);
      simpl snd; destruct (length similar <? limit);
      try destruct (forallb PrismaSpec.hasProduct (Prisma.items order));
      simpl; rewrite ?app_nil_r; reflexivity.
  - unfold ret at 1. eexists. split; [reflexivity|]. simpl. rewrite app_nil_r. reflexivity.
Qed.

Ltac returns_fallback :=
  simpl; eexists; split; [reflexivity | simpl; rewrite app_nil_r; reflexivity].

Lemma prisma_productPath_run (w : Prisma.World) (pid : N) (limit : nat) (b : bool)
    (fb : list Prisma.Product) (s : Prisma.State) :
  exists s',
    Prisma.productPath w pid limit b fb s
    = (Ok (fst (productRun w pid limit b fb (Prisma.queries s))), s')
    /\ Prisma.calls s'
       = Prisma.calls s ++ snd (productRun w pid limit b fb (Prisma.queries s)).
Proof.
  unfold Prisma.productPath, productRun, tryCatch.
  unfold bind at 1. unfold Prisma.query at 1.
  destruct (Prisma.storageUp w (Prisma.queries s)); [|returns_fallback].
  destruct (Prisma.findUniqueProduct pid (Prisma.db w)) as [cur|]; [|returns_fallback].
  destruct (Prisma.isEmpty (Prisma.categories cur)); [returns_fallback|].
  unfold bind at 1. unfold Prisma.query at 1.
  change (Prisma.queries (Prisma.asked s)) with (S (Prisma.queries s)).
  destruct (Prisma.storageUp w (S (Prisma.queries s))); [|returns_fallback].
  cbv zeta. set (similar := Prisma.similarCategoryQuery pid cur (Prisma.db w)).
  unfold bind at 1.
  destruct (length similar <? limit).
  - unfold bind at 1. unfold Prisma.query at 1.
    change (Prisma.queries (Prisma.asked (Prisma.asked s))) with (S (S (Prisma.queries s))).
    destruct (Prisma.storageUp w (S (S (Prisma.queries s)))); [|returns_fallback].
    unfold ret at 1.
    destruct (prisma_productRank_run w cur
                (Prisma.poolOf similar
                   (Prisma.additionalQuery pid similar limit (Prisma.db w)))
                similar fb limit b (Prisma.asked (Prisma.asked (Prisma.asked s))))
      as (s' & -> & Hc).
    eexists. split; [reflexivity | exact Hc].
  - unfold ret at 1.
    destruct (prisma_productRank_run w cur similar similar fb limit b
                (Prisma.asked (Prisma.asked s))) as (s' & -> & Hc).
    eexists. split; [reflexivity | exact Hc].
Qed.

Lemma prisma_orderPath_run (w : Prisma.World) (oid : N) (limit : nat) (b : bool)
    (fb : list Prisma.Product) (s : Prisma.State) :
  exists s',
    Prisma.orderPath w oid limit b fb s
    = (Ok (fst (orderRun w oid limit b fb (Prisma.queries s))), s')
    /\ Prisma.calls s'
       = Prisma.calls s ++ snd (orderRun w oid limit b fb (Prisma.queries s)).
Proof.
  unfold Prisma.orderPath, orderRun, tryCatch.
  unfold bind at 1. unfold Prisma.query at 1.
  destruct (Prisma.storageUp w (Prisma.queries s)); [|returns_fallback].
  destruct (Prisma.findUniqueOrder oid (Prisma.db w)) as [order|]; [|returns_fallback].
  destruct (Prisma.isEmpty (Prisma.items order)); [returns_fallback|].
  cbv zeta.
  destruct (Prisma.isEmpty (Prisma.orderCategoryIds order)); [returns_fallback|].
  unfold bind at 1. unfold Prisma.query at 1.
  change (Prisma.queries (Prisma.asked s)) with (S (Prisma.queries s)).
  destruct (Prisma.storageUp w (S (Prisma.queries s))); [|returns_fallback].
  destruct (prisma_orderRank_run w order
              (Prisma.orderSimilarQuery order (Prisma.orderCategoryIds order) limit
                 (Prisma.db w))
              fb limit b (Prisma.asked (Prisma.asked s))) as (s' & -> & Hc).
  eexists. split; [reflexivity | exact Hc].
Qed.

(** The whole call: its result, and the calls it appends. *)
Lemma prisma_getRecommendations_pair (w : Prisma.World) (productId orderId : option N)
    (limit : nat) (s : Prisma.State) :
  exists s',
    Prisma.getRecommendations w productId orderId limit s
    = (if Prisma.storageUp w (Prisma.queries s)
       then Ok (fst (pathRun w productId orderId limit (PrismaSpec.rankingOn w)
                       (S (Prisma.queries s))))
       else if Prisma.storageUp w (S (Prisma.queries s))
            then Ok (Prisma.findMany (fun _ => true) true limit (Prisma.db w))
            else Throw StorageError, s')
    /\ Prisma.calls s'
       = Prisma.calls s
         ++ probeCalls w
         ++ (if Prisma.storageUp w (Prisma.queries s)
             then snd (pathRun w productId orderId limit (PrismaSpec.rankingOn w)
                         (S (Prisma.queries s)))
             else []).
Proof.
  assert (Hprobe : exists s1,
             (if Prisma.USE_OLLAMA w then Prisma.isOllamaAvailable w else ret false) s
             = (Ok (PrismaSpec.rankingOn w), s1)
             /\ Prisma.queries s1 = Prisma.queries s
             /\ Prisma.calls s1 = Prisma.calls s ++ probeCalls w).
  { unfold PrismaSpec.rankingOn, probeCalls. destruct (Prisma.USE_OLLAMA w).
    - rewrite prisma_isOllamaAvailable_run. eexists. repeat split.
    - eexists. split; [reflexivity|]. split; [reflexivity|].
      simpl. rewrite app_nil_r. reflexivity. }
  destruct Hprobe as (s1 & Hprobe & Hq & Hc).
  unfold Prisma.getRecommendations, tryCatch, pathRun.
  unfold bind at 1. rewrite Hprobe.
  unfold bind at 1. unfold Prisma.query at 1. rewrite Hq.
  destruct (Prisma.storageUp w (Prisma.queries s)).
  - cbv zeta.
    assert (Hq1 : Prisma.queries (Prisma.asked s1) = S (Prisma.queries s))
      by (simpl; rewrite Hq; reflexivity).
    assert (Hc1 : Prisma.calls (Prisma.asked s1) = Prisma.calls s ++ probeCalls w)
      by exact Hc.
    destruct (Prisma.truthyId orderId) as [oid|].
    + destruct (prisma_orderPath_run w oid limit (PrismaSpec.rankingOn w)
                  (Prisma.fallbackQuery productId limit (Prisma.db w))
                  (Prisma.asked s1)) as (s' & -> & Hcs).
      rewrite Hq1 in *. exists s'. split; [reflexivity|].
      rewrite Hcs, Hc1, <- app_assoc. reflexivity.
    + destruct (Prisma.truthyId productId) as [pid|].
      * destruct (prisma_productPath_run w pid limit (PrismaSpec.rankingOn w)
                    (Prisma.fallbackQuery productId limit (Prisma.db w))
                    (Prisma.asked s1)) as (s' & -> & Hcs).
        rewrite Hq1 in *. exists s'. split; [reflexivity|].
        rewrite Hcs, Hc1, <- app_assoc. reflexivity.
      * eexists. split; [reflexivity|]. simpl. rewrite Hc, app_nil_r. reflexivity.
  - unfold Prisma.getPopularProducts, Prisma.query. simpl Prisma.queries. rewrite Hq.
    destruct (Prisma.storageUp w (S (Prisma.queries s)));
      (eexists; split; [reflexivity|]); simpl; rewrite Hc, app_nil_r; reflexivity.
Qed.

(** *** An answer with too few valid ids is not used *)

Lemma prisma_productVerdict_few (w : Prisma.World) (cur : Prisma.Product)
    (pool : list Prisma.Product) (limit : nat) :
  fewValidIds w limit (Prisma.ProductPrompt cur pool limit) ->
  PrismaSpec.productVerdict w cur pool limit = None.
Proof.
  intros Hfew. unfold PrismaSpec.productVerdict.
  destruct (length pool <? limit); [reflexivity|].
  destruct (answerText _) as [t|] eqn:Ht; [|reflexivity].
  destruct (Prisma.isEmpty _); [reflexivity|].
  apply Hfew in Ht. unfold PrismaSpec.validCount in Ht. unfold Prisma.accept.
  apply Nat.ltb_lt in Ht. rewrite Ht. reflexivity.
Qed.

Lemma prisma_orderVerdict_few (w : Prisma.World) (order : Prisma.Order)
    (pool : list Prisma.Product) (limit : nat) :
  fewValidIds w limit (Prisma.OrderPrompt order pool limit) ->
  PrismaSpec.orderVerdict w order pool limit = None.
Proof.
  intros Hfew. unfold PrismaSpec.orderVerdict.
  destruct (length pool <? limit); [reflexivity|].
  destruct (forallb _ _); [|reflexivity].
  destruct (answerText _) as [t|] eqn:Ht; [|reflexivity].
  destruct (Prisma.isEmpty _); [reflexivity|].
  apply Hfew in Ht. unfold PrismaSpec.validCount in Ht. unfold Prisma.accept.
  apply Nat.ltb_lt in Ht. rewrite Ht. reflexivity.
Qed.

Lemma productRank_few (w : Prisma.World) (cur : Prisma.Product)
    (pool similar fb : list Prisma.Product) (limit : nat) (b : bool) :
  (forall p, In (Generate p) (snd (productRank w cur pool similar fb limit b)) ->
             fewValidIds w limit p) ->
  fst (productRank w cur pool similar fb limit b)
  = fst (productRank w cur pool similar fb limit false).
Proof.
  unfold productRank. rewrite andb_false_l.
  destruct (b && (limit <=? length pool)); [|reflexivity].
  intros H. simpl.
  rewrite prisma_productVerdict_few; [reflexivity|]. apply H. left. reflexivity.
Qed.

Lemma orderRank_few (w : Prisma.World) (order : Prisma.Order)
    (similar fb : list Prisma.Product) (limit : nat) (b : bool) :
  (forall p, In (Generate p) (snd (orderRank w order similar fb limit b)) ->
             fewValidIds w limit p) ->
  fst (orderRank w order similar fb limit b)
  = fst (orderRank w order similar fb limit false).
Proof.
  unfold orderRank. rewrite andb_false_l.
  destruct (b && (2 <=? length similar)); [|reflexivity].
  intros H. simpl fst.
  assert (Hnone : PrismaSpec.orderVerdict w order similar limit = None).
  { destruct (length similar <? limit) eqn:Hlen.
    - unfold PrismaSpec.orderVerdict. rewrite Hlen. reflexivity.
    - destruct (forallb PrismaSpec.hasProduct (Prisma.items order)) eqn:Hitems.
      + apply prisma_orderVerdict_few. apply H. simpl. left. reflexivity.
      + unfold PrismaSpec.orderVerdict. rewrite Hlen, Hitems. reflexivity. }
  rewrite Hnone. reflexivity.
Qed.

Lemma pathRun_few (w : Prisma.World) (productId orderId : option N) (limit : nat)
    (b : bool) (q : nat) :
  (forall p, In (Generate p) (snd (pathRun w productId orderId limit b q)) ->
             fewValidIds w limit p) ->
  fst (pathRun w productId orderId limit b q)
  = fst (pathRun w productId orderId limit false q).
Proof.
  unfold pathRun. cbv zeta.
  destruct (Prisma.truthyId orderId) as [oid|].
  - unfold orderRun.
    destruct (Prisma.storageUp w q); [|reflexivity].
    destruct (Prisma.findUniqueOrder oid (Prisma.db w)) as [order|]; [|reflexivity].
    destruct (Prisma.isEmpty (Prisma.items order)); [reflexivity|].
    destruct (Prisma.isEmpty (Prisma.orderCategoryIds order)); [reflexivity|].
    destruct (Prisma.storageUp w (S q)); [|reflexivity].
    apply orderRank_few.
  - destruct (Prisma.truthyId productId) as [pid|]; [|reflexivity].
    unfold productRun.
    destruct (Prisma.storageUp w q); [|reflexivity].
    destruct (Prisma.findUniqueProduct pid (Prisma.db w)) as [cur|]; [|reflexivity].
    destruct (Prisma.isEmpty (Prisma.categories cur)); [reflexivity|].
    destruct (Prisma.storageUp w (S q)); [|reflexivity].
    cbv zeta.
    destruct (length (Prisma.similarCategoryQuery pid cur (Prisma.db w)) <? limit).
    + destruct (Prisma.storageUp w (S (S q))); [|reflexivity].
      apply productRank_few.
    + apply productRank_few.
Qed.

(** With the model switched off the paths rank nothing. *)
Lemma pathRun_disabled (w : Prisma.World) (productId orderId : option N) (limit : nat)
    (b : bool) (q : nat) :
  pathRun (PrismaSpec.disabled w) productId orderId limit b q
  = pathRun w productId orderId limit b q.
Proof. reflexivity. Qed.

(** The result of a call whose generation requests all get an answer with
    too few valid ids is the result with the model switched off. *)
Lemma prisma_run_few (w : Prisma.World) (productId orderId : option N) (limit : nat)
    (s : Prisma.State) :
  (forall p, prismaSent w productId orderId limit s p -> fewValidIds w limit p) ->
  result (Prisma.getRecommendations w productId orderId limit) s
  = result (Prisma.getRecommendations (PrismaSpec.disabled w) productId orderId limit) s.
Proof.
  intros H.
  destruct (prisma_getRecommendations_pair w productId orderId limit s)
    as (s1 & Hrun & Hcalls).
  destruct (prisma_getRecommendations_pair (PrismaSpec.disabled w) productId orderId
              limit s) as (s2 & Hrun2 & _).
  assert (Hsent : forall p,
             Prisma.storageUp w (Prisma.queries s) = true ->
             In (Generate p)
                (snd (pathRun w productId orderId limit (PrismaSpec.rankingOn w)
                        (S (Prisma.queries s)))) ->
             fewValidIds w limit p).
  { intros p Hup Hin. apply H. unfold prismaSent, final. rewrite Hrun. simpl snd.
    eexists. split; [exact Hcalls|]. rewrite Hup.
    apply in_or_app. right. exact Hin. }
  unfold result. rewrite Hrun, Hrun2. simpl fst.
  change (Prisma.storageUp (PrismaSpec.disabled w)) with (Prisma.storageUp w).
  change (Prisma.db (PrismaSpec.disabled w)) with (Prisma.db w).
  change (PrismaSpec.rankingOn (PrismaSpec.disabled w)) with false.
  rewrite pathRun_disabled.
  destruct (Prisma.storageUp w (Prisma.queries s)); [|reflexivity].
  f_equal. apply pathRun_few. intros p. apply Hsent. reflexivity.
Qed.

(* ================================================================= *)
(** ** The cache-based orchestrator: the calls of a run *)

Lemma cache_ranking_calls (w : Cache.World) (cur : Cache.Product)
    (similar fb : list Cache.Product) (limit : nat) (s : Cache.State) :
  exists s',
    bind (if Cache.USE_OLLAMA w then Cache.isOllamaAvailable w else ret false)
      (fun available =>
         bind (if available && (limit <=? length similar)
               then bind (Cache.getOllamaRecommendations w cur similar limit)
                         (fun recommendedIds =>
                            ret (Cache.rankedOf w recommendedIds similar limit))
               else ret None)
           (fun ranked =>
              match ranked with
              | Some recommendations => ret recommendations
              | None => ret (Cache.similarOrFallback similar fb limit)
              end)) s
    = (Ok (match CacheSpec.ranking w cur similar limit with
           | Some r => r
           | None => Cache.similarOrFallback similar fb limit
           end), s')
    /\ Cache.calls s' = Cache.calls s ++ cacheRankCalls w cur similar limit.
Proof.
  unfold CacheSpec.ranking, CacheSpec.rankingOn, cacheRankCalls.
  unfold bind at 1.
  destruct (Cache.USE_OLLAMA w).
  - rewrite cache_isOllamaAvailable_run. simpl andb at 2.
    unfold bind at 1.
    destruct (probeOk (Cache.probe w) && (limit <=? length similar)) eqn:Hb.
    + unfold bind at 1. rewrite cache_ranker_run. unfold ret at 1.
      apply andb_prop in Hb. destruct Hb as [_ Hlen]. apply Nat.leb_le in Hlen.
      destruct (length similar <? limit) eqn:Hlt; [apply Nat.ltb_lt in Hlt; lia|].
      destruct (Cache.rankedOf w _ similar limit);
        (eexists; split; [reflexivity|]); simpl; rewrite <- app_assoc; reflexivity.
    + unfold ret at 1. eexists; split; [reflexivity | reflexivity].
  - unfold ret at 1. simpl andb. cbv iota. unfold bind at 1. unfold ret at 1.
    eexists; split; [reflexivity | simpl; rewrite app_nil_r; reflexivity].
Qed.

Lemma cache_getRecommendations_loaded_calls (w : Cache.World)
    (productId : option string) (limit : nat) (s : Cache.State)
    (arr : list Cache.Product) :
  CacheSpec.loaded w s = Some arr ->
  exists s',
    Cache.getRecommendations w productId limit s
    = (Ok (CacheSpec.answer w (sortDesc Cache.orderCount arr) productId limit), s')
    /\ Cache.calls s'
       = Cache.calls s ++ cacheCalls w (sortDesc Cache.orderCount arr) productId limit.
Proof.
  intros Hload.
  destruct (cache_accessor_loaded w s Hload) as (s1 & Hacc & Hcache & Hcalls).
  unfold Cache.getRecommendations, CacheSpec.answer, cacheCalls, tryCatch.
  unfold bind at 1. rewrite Hacc.
  assert (Hdata : Cache.data (Cache.productsCache s1) = Some arr)
    by (rewrite Hcache; reflexivity).
  unfold bind at 1. rewrite (@cache_sort_run Cache.CachedArray s1 arr Hdata).
  set (sorted := sortDesc Cache.orderCount arr).
  set (s2 := Cache.withCache _ s1).
  assert (Hdata2 : Cache.data (Cache.productsCache s2) = Some sorted) by reflexivity.
  assert (Hcalls2 : Cache.calls s2 = Cache.calls s) by exact Hcalls.
  unfold bind at 1. rewrite (@cache_read_run Cache.CachedArray s2 sorted Hdata2).
  cbv zeta.
  destruct (Cache.truthyId productId) as [pid|].
  - unfold bind at 1. rewrite (@cache_read_run Cache.CachedArray s2 sorted Hdata2).
    destruct (find _ sorted) as [cur|].
    + destruct (cache_ranking_calls w cur (Cache.similarOf pid cur sorted limit)
                  (slice0 limit sorted) limit s2) as (s' & Hrun & Hc).
      rewrite Hrun. eexists. split; [reflexivity|]. rewrite Hc, Hcalls2. reflexivity.
    + eexists. split; [reflexivity|]. simpl. rewrite app_nil_r. exact Hcalls.
  - eexists. split; [reflexivity|]. simpl. rewrite app_nil_r. exact Hcalls.
Qed.

Lemma cache_ranking_few (w : Cache.World) (cur : Cache.Product)
    (similar : list Cache.Product) (limit : nat) :
  (forall p, In (Generate p) (cacheRankCalls w cur similar limit) ->
             fewKeptIds w limit p) ->
  CacheSpec.ranking w cur similar limit = None.
Proof.
  unfold CacheSpec.ranking, CacheSpec.rankingOn, cacheRankCalls.
  destruct (Cache.USE_OLLAMA w); [|reflexivity]. simpl andb at 2.
  destruct (probeOk (Cache.probe w) && (limit <=? length similar)); [|reflexivity].
  intros H.
  assert (Hfew : fewKeptIds w limit (Cache.ProductPrompt cur similar limit))
    by (apply H; simpl; auto).
  unfold CacheSpec.rankerVerdict.
  destruct (length similar <? limit); [reflexivity|].
  destruct (answerText _) as [t|] eqn:Ht; [|reflexivity].
  destruct (matchDigits t); [reflexivity|].
  apply Hfew in Ht. simpl Cache.promptPool in Ht. unfold Cache.rankedOf.
  destruct (2 <=? length _) eqn:H2; [|reflexivity].
  apply Nat.leb_le in H2. lia.
Qed.

(** The result of a call whose generation request gets an answer from
    which fewer than two ids are kept is the result with the model
    switched off. *)
Lemma cache_run_few (w : Cache.World) (productId : option string) (limit : nat)
    (s : Cache.State) :
  (forall p, cacheSent w productId limit s p -> fewKeptIds w limit p) ->
  result (Cache.getRecommendations w productId limit) s
  = result (Cache.getRecommendations (CacheSpec.disabled w) productId limit) s.
Proof.
  intros H. destruct (CacheSpec.loaded w s) as [arr|] eqn:Hload.
  - destruct (cache_getRecommendations_loaded_calls w productId limit s Hload)
      as (s1 & Hrun & Hcalls).
    destruct (cache_getRecommendations_loaded (CacheSpec.disabled w) productId limit s
                Hload) as (s2 & Hrun2 & _).
    assert (Hsent : forall p,
               In (Generate p)
                  (cacheCalls w (sortDesc Cache.orderCount arr) productId limit) ->
               fewKeptIds w limit p).
    { intros p Hin. apply H. unfold cacheSent, final. rewrite Hrun. simpl snd.
      eexists. split; [exact Hcalls | exact Hin]. }
    unfold result. rewrite Hrun, Hrun2. simpl fst. f_equal.
    unfold CacheSpec.answer, cacheCalls in *. cbv zeta.
    destruct (Cache.truthyId productId) as [pid|]; [|reflexivity].
    destruct (find _ (sortDesc Cache.orderCount arr)) as [cur|]; [|reflexivity].
    rewrite (@cache_ranking_few w cur _ limit Hsent).
    unfold CacheSpec.ranking.
    change (CacheSpec.rankingOn (CacheSpec.disabled w)) with false.
    reflexivity.
  - destruct (cache_accessor_unloaded w s Hload) as (s1 & Hacc & _).
    assert (E1 : Cache.getRecommendations w productId limit s
                 = Cache.getPopularProducts w limit s1).
    { unfold Cache.getRecommendations, tryCatch. unfold bind at 1.
      rewrite Hacc. reflexivity. }
    assert (E2 : Cache.getRecommendations (CacheSpec.disabled w) productId limit s
                 = Cache.getPopularProducts w limit s1).
    { unfold Cache.getRecommendations, tryCatch. unfold bind at 1.
      change (Cache.getProductsWithOrderCounts (CacheSpec.disabled w))
        with (Cache.getProductsWithOrderCounts w).
      rewrite Hacc. reflexivity. }
    unfold result. rewrite E1, E2. reflexivity.
Qed.

(* ================================================================= *)
(** ** Requests without a usable seed *)

Lemma find_absent (A : Type) (f : A -> bool) (l : list A) :
  (forall x, In x l -> f x = false) -> find f l = None.
Proof.
  induction l as [|x l IH]; intros H; [reflexivity|].
  simpl. rewrite (H x (or_introl eq_refl)). apply IH. intros y Hy. apply H. right. exact Hy.
Qed.

Lemma prisma_isEmpty_true (A : Type) (l : list A) : l = [] -> Prisma.isEmpty l = true.
Proof. intros ->. reflexivity. Qed.

Lemma prisma_answer_unseeded (w : Prisma.World) (productId orderId : option N)
    (limit : nat) :
  noUsableSeed (Prisma.db w) productId orderId ->
  PrismaSpec.answer w productId orderId limit
  = Prisma.fallbackQuery productId limit (Prisma.db w).
Proof.
  unfold noUsableSeed, PrismaSpec.answer. cbv zeta.
  destruct (Prisma.truthyId orderId) as [oid|].
  - unfold PrismaSpec.orderAnswer.
    destruct (Prisma.findUniqueOrder oid (Prisma.db w)) as [order|]; [|reflexivity].
    destruct (Prisma.isEmpty (Prisma.items order)) eqn:Hitems; [reflexivity|].
    intros [H | H].
    + rewrite (prisma_isEmpty_true H) in Hitems. discriminate Hitems.
    + rewrite (prisma_isEmpty_true H). reflexivity.
  - destruct (Prisma.truthyId productId) as [pid|]; [|reflexivity].
    unfold PrismaSpec.productAnswer.
    destruct (Prisma.findUniqueProduct pid (Prisma.db w)) as [cur|]; [|reflexivity].
    intros H. rewrite (prisma_isEmpty_true H). reflexivity.
Qed.

Lemma cache_answer_unseeded (w : Cache.World) (arr : list Cache.Product)
    (productId : option string) (limit : nat) :
  noCurrentProduct arr productId ->
  CacheSpec.answer w (sortDesc Cache.orderCount arr) productId limit
  = slice0 limit (sortDesc Cache.orderCount arr).
Proof.
  unfold noCurrentProduct, CacheSpec.answer. cbv zeta.
  destruct (Cache.truthyId productId) as [pid|]; [|reflexivity].
  intros H. rewrite find_absent; [reflexivity|].
  intros p Hp. apply String.eqb_neq, H.
  apply (proj1 (@sortDesc_In _ Cache.orderCount arr p)), Hp.
Qed.

Lemma cache_loaded_source (w : Cache.World) (s : Cache.State) (arr : list Cache.Product) :
  CacheSpec.loaded w s = Some arr ->
  Cache.data (Cache.productsCache s) = Some arr \/ arr = CacheSpec.refill (Cache.db w).
Proof.
  unfold CacheSpec.loaded. destruct (CacheSpec.isFresh w s); [auto|].
  destruct (_ && _); [|discriminate]. intros [= <-]. auto.
Qed.

Lemma cache_popular_unloaded (w : Cache.World) (limit : nat) (s : Cache.State) :
  CacheSpec.loaded w s = None ->
  result (Cache.getPopularProducts w limit) s = Throw StorageError.
Proof.
  intros Hnone. destruct (cache_accessor_unloaded w s Hnone) as (s1 & Hacc & _).
  unfold result, Cache.getPopularProducts. unfold bind at 1. rewrite Hacc. reflexivity.
Qed.

(* ================================================================= *)
(** ** The cache accessor *)

Lemma cache_accessor_run (w : Cache.World) (s : Cache.State) :
  Cache.getProductsWithOrderCounts w s
  = if CacheSpec.isFresh w s then (Ok Cache.CachedArray, Cache.ticked s)
    else if Cache.storageUp w (Cache.queries s)
         then if Cache.storageUp w (S (Cache.queries s))
              then (Ok Cache.CachedArray,
                    Cache.withCache
                      {| Cache.data := Some (CacheSpec.refill (Cache.db w));
                         Cache.lastUpdate := Cache.clock w (Cache.clockReads s) |}
                      (Cache.asked (Cache.asked (Cache.ticked s))))
              else (Throw StorageError, Cache.asked (Cache.asked (Cache.ticked s)))
         else (Throw StorageError, Cache.asked (Cache.ticked s)).
Proof.
  unfold Cache.getProductsWithOrderCounts, CacheSpec.isFresh, CacheSpec.refill.
  unfold bind at 1. unfold Cache.dateNow. unfold bind at 1. unfold gets.
  simpl Cache.productsCache.
  assert (Hstale :
    bind (Cache.query w Cache.productDocs)
      (fun products =>
         bind (Cache.query w (fun d0 => Cache.aggregateOrderCounts (Cache.orderDocs d0)))
           (fun orderCounts =>
              bind (Cache.setCache
                      {| Cache.data := Some (map (Cache.withOrderCount orderCounts) products);
                         Cache.lastUpdate := Cache.clock w (Cache.clockReads s) |})
                   (fun _ => ret Cache.CachedArray))) (Cache.ticked s)
    = if Cache.storageUp w (Cache.queries s)
      then if Cache.storageUp w (S (Cache.queries s))
           then (Ok Cache.CachedArray,
                 Cache.withCache
                   {| Cache.data :=
                        Some (map (Cache.withOrderCount
                                     (Cache.aggregateOrderCounts (Cache.orderDocs (Cache.db w))))
                                  (Cache.productDocs (Cache.db w)));
                      Cache.lastUpdate := Cache.clock w (Cache.clockReads s) |}
                   (Cache.asked (Cache.asked (Cache.ticked s))))
           else (Throw StorageError, Cache.asked (Cache.asked (Cache.ticked s)))
      else (Throw StorageError, Cache.asked (Cache.ticked s))).
  { unfold bind, Cache.query, Cache.setCache, modify. simpl.
    destruct (Cache.storageUp w (Cache.queries s)); [|reflexivity]. simpl.
    destruct (Cache.storageUp w (S (Cache.queries s))); reflexivity. }
  change (Cache.productsCache (Cache.ticked s)) with (Cache.productsCache s).
  destruct (Cache.data (Cache.productsCache s)) as [cached|]; [|exact Hstale].
  destruct (_ <? 300000)%Z; [reflexivity | exact Hstale].
Qed.

Lemma cache_fresh_loaded (w : Cache.World) (s : Cache.State) (arr : list Cache.Product) :
  CacheSpec.freshWith w s arr ->
  CacheSpec.isFresh w s = true /\ CacheSpec.loaded w s = Some arr
  /\ CacheSpec.loadedAt w s = Cache.lastUpdate (Cache.productsCache s).
Proof.
  intros [Hdata Hfresh]. unfold CacheSpec.loaded, CacheSpec.loadedAt.
  assert (H : CacheSpec.isFresh w s = true).
  { unfold CacheSpec.isFresh. rewrite Hdata. apply Z.ltb_lt, Hfresh. }
  rewrite H. auto.
Qed.

(** The two exported functions on a fresh cache: the run, with the final
    state. *)
Lemma cache_getPopularProducts_fresh (w : Cache.World) (limit : nat) (s : Cache.State)
    (arr : list Cache.Product) :
  CacheSpec.freshWith w s arr ->
  Cache.getPopularProducts w limit s
  = (Ok (slice0 limit (sortDesc Cache.orderCount arr)),
     Cache.withCache {| Cache.data := Some (sortDesc Cache.orderCount arr);
                        Cache.lastUpdate := Cache.lastUpdate (Cache.productsCache s) |}
                     (Cache.ticked s)).
Proof.
  intros Hfresh. destruct (cache_fresh_loaded Hfresh) as (Hf & _ & _).
  destruct Hfresh as [Hdata _].
  unfold Cache.getPopularProducts. unfold bind at 1.
  rewrite cache_accessor_run, Hf.
  unfold bind at 1.
  rewrite (@cache_sort_run Cache.CachedArray (Cache.ticked s) arr Hdata).
  unfold bind at 1. rewrite cache_read_run with (arr := sortDesc Cache.orderCount arr);
    reflexivity.
Qed.

Lemma cache_getRecommendations_fresh (w : Cache.World) (productId : option string)
    (limit : nat) (s : Cache.State) (arr : list Cache.Product) :
  CacheSpec.freshWith w s arr ->
  exists s',
    Cache.getRecommendations w productId limit s
    = (Ok (CacheSpec.answer w (sortDesc Cache.orderCount arr) productId limit), s')
    /\ Cache.queries s' = Cache.queries s
    /\ Cache.productsCache s'
       = {| Cache.data := Some (sortDesc Cache.orderCount arr);
            Cache.lastUpdate := Cache.lastUpdate (Cache.productsCache s) |}.
Proof.
  intros Hfresh. destruct (cache_fresh_loaded Hfresh) as (Hf & _ & _).
  destruct Hfresh as [Hdata _].
  unfold Cache.getRecommendations, CacheSpec.answer, tryCatch.
  unfold bind at 1. rewrite cache_accessor_run, Hf.
  unfold bind at 1.
  rewrite (@cache_sort_run Cache.CachedArray (Cache.ticked s) arr Hdata).
  set (sorted := sortDesc Cache.orderCount arr).
  set (s2 := Cache.withCache _ (Cache.ticked s)).
  assert (Hdata2 : Cache.data (Cache.productsCache s2) = Some sorted) by reflexivity.
  unfold bind at 1. rewrite (@cache_read_run Cache.CachedArray s2 sorted Hdata2).
  cbv zeta.
  destruct (Cache.truthyId productId) as [pid|].
  - unfold bind at 1. rewrite (@cache_read_run Cache.CachedArray s2 sorted Hdata2).
    destruct (find _ sorted) as [cur|].
    + destruct (cache_ranking_run w cur (Cache.similarOf pid cur sorted limit)
                  (slice0 limit sorted) limit s2) as (s' & Hrun & Hc & Hq & _).
      rewrite Hrun. eexists. split; [reflexivity|]. rewrite Hq, Hc. split; reflexivity.
    + eexists. split; [reflexivity|]. split; reflexivity.
  - eexists. split; [reflexivity|]. split; reflexivity.
Qed.

(* ================================================================= *)
(** ** The cache over a run of calls *)





(* ================================================================= *)
(** ** The statements of the specification *)

(** C1: the code departs from the claim.  When the storage rejects every
    query, the fallback computation throws, the handler of the outermost
    [try] calls [getPopularProducts], which queries the storage again, and
    that rejection reaches the caller: [getRecommendations] throws instead
    of returning the empty list.  Both implementations (the cache-based
    one when the cache is empty). *)
Theorem storage_down_rejects :
  (forall (w : Prisma.World) (productId orderId : option N) (limit : nat)
          (s : Prisma.State),
     (forall n, Prisma.storageUp w n = false) ->
     result (Prisma.getRecommendations w productId orderId limit) s
     = Throw StorageError)
  /\ (forall (w : Cache.World) (productId : option string) (limit : nat)
             (s : Cache.State),
        (forall n, Cache.storageUp w n = false) ->
        Cache.data (Cache.productsCache s) = None ->
        result (Cache.getRecommendations w productId limit) s = Throw StorageError).
Proof.
  split.
  - intros w productId orderId limit s Hdown.
    unfold result, Prisma.getRecommendations, tryCatch. unfold bind at 1.
    assert (Hprobe : exists b s1,
               (if Prisma.USE_OLLAMA w then Prisma.isOllamaAvailable w else ret false) s
               = (Ok b, s1)).
    { destruct (Prisma.USE_OLLAMA w).
      - rewrite prisma_isOllamaAvailable_run. eauto.
      - unfold ret. eauto. }
    destruct Hprobe as (b & s1 & ->).
    unfold bind at 1. unfold Prisma.query at 1. rewrite Hdown.
    unfold Prisma.getPopularProducts, Prisma.query. rewrite Hdown. reflexivity.
  - intros w productId limit s Hdown Hcold.
    assert (Hacc : forall s0, Cache.data (Cache.productsCache s0) = None ->
               exists s1, Cache.getProductsWithOrderCounts w s0 = (Throw StorageError, s1)
                          /\ Cache.data (Cache.productsCache s1) = None).
    { intros s0 H0. unfold Cache.getProductsWithOrderCounts, bind, Cache.dateNow, gets.
      simpl. rewrite H0. unfold Cache.query. simpl. rewrite Hdown.
      eexists. split; [reflexivity|]. simpl. exact H0. }
    unfold result, Cache.getRecommendations, tryCatch. unfold bind at 1.
    destruct (Hacc s Hcold) as (s1 & -> & Hcold1).
    unfold Cache.getPopularProducts. unfold bind at 1.
    destruct (Hacc s1 Hcold1) as (s2 & -> & _). reflexivity.
Qed.

Lemma storage_down_rejects_witness :
  ((forall n, Prisma.storageUp (PrismaShop.world true false "") n = false)
   /\ result (Prisma.getRecommendations (PrismaShop.world true false "")
                (Some 1%N) None 4) Prisma.start
      = Throw StorageError)
  /\ ((forall n, Cache.storageUp (CacheShop.world true false "") n = false)
      /\ Cache.data (Cache.productsCache Cache.start) = None
      /\ result (Cache.getRecommendations (CacheShop.world true false "")
                   (Some "a1"%string) 4) Cache.start
         = Throw StorageError).
Proof.
  assert (Hdown : forall n, Prisma.storageUp (PrismaShop.world true false "") n = false)
    by (intros n; reflexivity).
  assert (Hdownc : forall n, Cache.storageUp (CacheShop.world true false "") n = false)
    by (intros n; reflexivity).
  assert (Hcold : Cache.data (Cache.productsCache Cache.start) = None) by reflexivity.
  split; [split; [exact Hdown|]|split; [exact Hdownc|split; [exact Hcold|]]].
  - exact (proj1 storage_down_rejects _ (Some 1%N) None 4 Prisma.start Hdown).
  - exact (proj2 storage_down_rejects _ (Some "a1"%string) 4 Cache.start Hdownc Hcold).
Defined.

(** C2: the code departs from the claim.  Order 7 bought the soap; the
    three category matches are fewer than [limit = 4], and the padding is
    drawn from a fallback list that excludes nothing on the order path, so
    the soap itself is recommended.  In the cache-based implementation the
    fallback list does not exclude the seed either: the request seeded by
    the soap returns the soap. *)
Theorem purchased_product_recommended :
  (exists order,
     Prisma.findUniqueOrder 7 PrismaShop.shop = Some order
     /\ Prisma.items order <> []
     /\ In (Prisma.id PrismaShop.soap) (map Prisma.productId (Prisma.items order)))
  /\ result (Prisma.getRecommendations (PrismaShop.world false true "")
               None (Some 7%N) 4) Prisma.start
     = Ok [PrismaShop.brush; PrismaShop.bag; PrismaShop.straw; PrismaShop.soap]
  /\ Cache.id CacheShop.soap = "a1"%string
  /\ result (Cache.getRecommendations (CacheShop.world false true "")
               (Some "a1"%string) 2) Cache.start
     = Ok [CacheShop.cup; CacheShop.soap].
Proof.
  split.
  - eexists. split; [vm_compute; reflexivity|]. split; [discriminate|].
    simpl. left. reflexivity.
  - split; [vm_compute; reflexivity|]. split; [reflexivity|].
    vm_compute. reflexivity.
Qed.

(** C3: the code departs from the claim.  The model names the brush
    twice; the orchestrator maps the ids to products one by one, without
    removing repetitions, and the brush is recommended twice.  (The length
    of the result stays within [limit].) *)
Theorem duplicate_recommended :
  result (Prisma.getRecommendations
            (PrismaShop.world true true "Recommended product IDs: 2, 2, 4, 5")
            (Some 1%N) None 4) Prisma.start
  = Ok [PrismaShop.brush; PrismaShop.brush; PrismaShop.bag; PrismaShop.straw]
  /\ ~ NoDup (map Prisma.id
                [PrismaShop.brush; PrismaShop.brush; PrismaShop.bag; PrismaShop.straw])
  /\ result (Prisma.getRecommendations
               (PrismaShop.world true true "5, 5")
               None (Some 7%N) 2) Prisma.start
     = Ok [PrismaShop.straw; PrismaShop.straw].
Proof.
  split; [vm_compute; reflexivity|]. split.
  - intros H. inversion H as [|x l Hnotin Hrest]; subst. apply Hnotin. left. reflexivity.
  - vm_compute. reflexivity.
Qed.

(** C4, as amended.  In the Prisma implementation, with the storage
    answering: when the ranker returns ids, the result is the ranked
    products in the model's order followed by the candidates the model did
    not name, in candidate order, cut to [limit]; when ranking is skipped
    or fails, the result is the category matches in selection order
    followed by the fallback products that are not among them, cut to
    [limit] (the fallback list alone when there is no category match).
    In the cache-based implementation, a ranking is used only when it
    holds two ids at least and yields exactly [limit] products, which are
    then returned in the model's order; otherwise the result is the first
    [limit] similar products when there are [limit] of them, and the
    popularity list alone, without the similar products, when there are
    fewer. *)
Theorem result_ordering :
  (forall (w : Prisma.World) (productId orderId : option N) (pid : N)
          (cur : Prisma.Product) (limit : nat) (ids : list N) (s s0 : Prisma.State),
     PrismaSpec.storageAlwaysUp w ->
     PrismaSpec.productSeeded w productId orderId pid cur ->
     let pool := PrismaSpec.productPool (Prisma.db w) pid cur limit in
     let similar := Prisma.similarCategoryQuery pid cur (Prisma.db w) in
     let fb := Prisma.fallbackQuery productId limit (Prisma.db w) in
     (PrismaSpec.rankingOn w = true ->
      result (Prisma.getOllamaRecommendations w cur pool limit) s0 = Ok (Some ids) ->
      map Prisma.id (PrismaSpec.rankedProducts pool ids) = ids
      /\ result (Prisma.getRecommendations w productId orderId limit) s
         = Ok (slice0 limit (PrismaSpec.rankedProducts pool ids
                             ++ PrismaSpec.remainingProducts pool ids)))
     /\ (PrismaSpec.rankingOn w = false
         \/ result (Prisma.getOllamaRecommendations w cur pool limit) s0 = Ok None ->
         result (Prisma.getRecommendations w productId orderId limit) s
         = Ok (match similar with
               | [] => fb
               | _ => slice0 limit (similar ++ PrismaSpec.padding similar fb)
               end)))
  /\ (forall (w : Prisma.World) (productId orderId : option N) (oid : N)
             (order : Prisma.Order) (limit : nat) (ids : list N) (s s0 : Prisma.State),
        PrismaSpec.storageAlwaysUp w ->
        PrismaSpec.orderSeeded w orderId oid order ->
        let similar := Prisma.orderSimilarQuery order (Prisma.orderCategoryIds order)
                         limit (Prisma.db w) in
        let fb := Prisma.fallbackQuery productId limit (Prisma.db w) in
        (PrismaSpec.rankingOn w = true -> 2 <= length similar ->
         result (Prisma.getOllamaRecommendationsForOrder w order similar limit) s0
         = Ok (Some ids) ->
         map Prisma.id (PrismaSpec.rankedProducts similar ids) = ids
         /\ result (Prisma.getRecommendations w productId orderId limit) s
            = Ok (slice0 limit (PrismaSpec.rankedProducts similar ids
                                ++ PrismaSpec.remainingProducts similar ids)))
        /\ (PrismaSpec.rankingOn w = false \/ length similar < 2
            \/ result (Prisma.getOllamaRecommendationsForOrder w order similar limit) s0
               = Ok None ->
            result (Prisma.getRecommendations w productId orderId limit) s
            = Ok (match similar with
                  | [] => fb
                  | _ => slice0 limit (similar ++ PrismaSpec.padding similar fb)
                  end)))
  /\ (forall (w : Cache.World) (productId : option string) (pid : string)
             (cur : Cache.Product) (limit : nat) (arr : list Cache.Product)
             (ids : list N) (s s0 : Cache.State),
        CacheSpec.loaded w s = Some arr ->
        Cache.truthyId productId = Some pid ->
        let sorted := sortDesc Cache.orderCount arr in
        find (fun p => String.eqb (Cache.id p) pid) sorted = Some cur ->
        let similar := Cache.similarOf pid cur sorted limit in
        let ranked := slice0 limit (CacheSpec.rankedProducts w similar ids) in
        (CacheSpec.rankingOn w = true ->
         result (Cache.getOllamaRecommendations w cur similar limit) s0 = Ok (Some ids) ->
         result (Cache.getRecommendations w productId limit) s
         = Ok (if (2 <=? length ids) && (length ranked =? limit)
               then ranked else slice0 limit similar))
        /\ (CacheSpec.rankingOn w = false
            \/ result (Cache.getOllamaRecommendations w cur similar limit) s0 = Ok None ->
            result (Cache.getRecommendations w productId limit) s
            = Ok (if limit <=? length similar
                  then slice0 limit similar else slice0 limit sorted))).
Proof.
  split; [|split].
  - intros w productId orderId pid cur limit ids s s0 Hup Hseed pool similar fb.
    split.
    + intros Hon Hrank. eapply prisma_product_ranked; eassumption.
    + intros Hun.
      erewrite prisma_product_unranked; [|eassumption..].
      subst similar fb.
      destruct (Prisma.similarCategoryQuery pid cur (Prisma.db w)); reflexivity.
  - intros w productId orderId oid order limit ids s s0 Hup Hseed similar fb.
    split.
    + intros Hon Htwo Hrank. eapply prisma_order_ranked; eassumption.
    + intros Hun.
      erewrite prisma_order_unranked; [|eassumption..].
      subst similar fb.
      destruct (Prisma.orderSimilarQuery _ _ _ _); reflexivity.
  - intros w productId pid cur limit arr ids s s0 Hload Hpid sorted Hcur similar ranked.
    split.
    + intros Hon Hrank. eapply cache_ranked; eassumption.
    + intros Hun. eapply cache_unranked; eassumption.
Qed.

Lemma result_ordering_witness :
  ((PrismaSpec.storageAlwaysUp (PrismaShop.world true true "Recommended product IDs: 4, 2")
   /\ PrismaSpec.productSeeded (PrismaShop.world true true "Recommended product IDs: 4, 2")
        (Some 1%N) None 1%N PrismaShop.soap
   /\ PrismaSpec.rankingOn (PrismaShop.world true true "Recommended product IDs: 4, 2")
      = true
   /\ result (Prisma.getOllamaRecommendations
                (PrismaShop.world true true "Recommended product IDs: 4, 2")
                PrismaShop.soap
                (PrismaSpec.productPool PrismaShop.shop 1%N PrismaShop.soap 2) 2)
             Prisma.start
      = Ok (Some [4%N; 2%N]))
  /\ result (Prisma.getRecommendations
               (PrismaShop.world true true "Recommended product IDs: 4, 2")
               (Some 1%N) None 2) Prisma.start
     = Ok (slice0 2
             (PrismaSpec.rankedProducts
                (PrismaSpec.productPool PrismaShop.shop 1%N PrismaShop.soap 2)
                [4%N; 2%N]
              ++ PrismaSpec.remainingProducts
                   (PrismaSpec.productPool PrismaShop.shop 1%N PrismaShop.soap 2)
                   [4%N; 2%N])))
  /\ ((CacheSpec.loaded (CacheShop.world false true "") Cache.start
       = Some (CacheSpec.refill CacheShop.shop)
       /\ Cache.truthyId (Some "a1"%string) = Some "a1"%string
       /\ find (fun p => String.eqb (Cache.id p) "a1")
               (sortDesc Cache.orderCount (CacheSpec.refill CacheShop.shop))
          = Some CacheShop.soap
       /\ CacheSpec.rankingOn (CacheShop.world false true "") = false)
      /\ result (Cache.getRecommendations (CacheShop.world false true "")
                   (Some "a1"%string) 2) Cache.start
         = Ok (if 2 <=? length (Cache.similarOf "a1" CacheShop.soap
                                  (sortDesc Cache.orderCount
                                     (CacheSpec.refill CacheShop.shop)) 2)
               then slice0 2 (Cache.similarOf "a1" CacheShop.soap
                                (sortDesc Cache.orderCount
                                   (CacheSpec.refill CacheShop.shop)) 2)
               else slice0 2 (sortDesc Cache.orderCount
                                (CacheSpec.refill CacheShop.shop)))).
Proof.
  assert (Hup : PrismaSpec.storageAlwaysUp
                  (PrismaShop.world true true "Recommended product IDs: 4, 2"))
    by (intros n; reflexivity).
  assert (Hseed : PrismaSpec.productSeeded
                    (PrismaShop.world true true "Recommended product IDs: 4, 2")
                    (Some 1%N) None 1%N PrismaShop.soap).
  { repeat split; try reflexivity. discriminate. }
  assert (Hon : PrismaSpec.rankingOn
                  (PrismaShop.world true true "Recommended product IDs: 4, 2") = true)
    by reflexivity.
  assert (Hrank : result (Prisma.getOllamaRecommendations
                            (PrismaShop.world true true "Recommended product IDs: 4, 2")
                            PrismaShop.soap
                            (PrismaSpec.productPool PrismaShop.shop 1%N PrismaShop.soap 2) 2)
                         Prisma.start
                  = Ok (Some [4%N; 2%N]))
    by (vm_compute; reflexivity).
  assert (Hload : CacheSpec.loaded (CacheShop.world false true "") Cache.start
                  = Some (CacheSpec.refill CacheShop.shop)) by reflexivity.
  assert (Hpid : Cache.truthyId (Some "a1"%string) = Some "a1"%string) by reflexivity.
  assert (Hcur : find (fun p => String.eqb (Cache.id p) "a1")
                      (sortDesc Cache.orderCount (CacheSpec.refill CacheShop.shop))
                 = Some CacheShop.soap) by (vm_compute; reflexivity).
  assert (Hoff : CacheSpec.rankingOn (CacheShop.world false true "") = false)
    by reflexivity.
  split; (split; [auto|]).
  - exact (proj2 (proj1 (proj1 result_ordering
                           (PrismaShop.world true true "Recommended product IDs: 4, 2")
                           (Some 1%N) None 1%N PrismaShop.soap 2 [4%N; 2%N]
                           Prisma.start Prisma.start Hup Hseed) Hon Hrank)).
  - exact (proj2 (proj2 (proj2 result_ordering)
                    (CacheShop.world false true "") (Some "a1"%string) "a1"%string
                    CacheShop.soap 2 (CacheSpec.refill CacheShop.shop) []
                    Cache.start Cache.start Hload Hpid Hcur) (or_introl Hoff)).
Defined.

(** C4, as stated, fails in the cache-based implementation: with ranking
    skipped and one similar product (the brush) for [limit = 2], the result
    is the popularity list, cup then soap; it does not start with the
    brush, so it is not the candidates followed by padding. *)
Lemma result_ordering_counterexample :
  result (Cache.getRecommendations (CacheShop.world false true "") (Some "a1"%string) 2)
         Cache.start
  = Ok [CacheShop.cup; CacheShop.soap]
  /\ Cache.similarOf "a1" CacheShop.soap
       [CacheShop.cup; CacheShop.soap; CacheShop.brush; CacheShop.bag] 2
     = [CacheShop.brush]
  /\ ~ (exists padding,
          [CacheShop.cup; CacheShop.soap] = slice0 2 ([CacheShop.brush] ++ padding)).
Proof.
  split; [vm_compute; reflexivity|]. split; [vm_compute; reflexivity|].
  intros [padding H]. simpl in H. destruct padding; discriminate H.
Qed.

(** C5, as amended.  On the product path the category matches are capped
    at 10 (not at [limit * 2]) and, when fewer than [limit] of them exist,
    up to [limit * 2] popular products are appended whatever the size of
    the pool: the pool handed to the ranker holds at most [10 + limit * 2]
    products.  On the order path, and in the cache-based implementation,
    every pool handed to the ranker holds at most [limit * 2] products. *)
Theorem candidate_pool_bound :
  (forall (d : Prisma.Db) (pid : N) (cur : Prisma.Product) (limit : nat),
     length (Prisma.similarCategoryQuery pid cur d) <= 10
     /\ length (Prisma.additionalQuery pid (Prisma.similarCategoryQuery pid cur d) limit d)
        <= limit * 2
     /\ length (PrismaSpec.productPool d pid cur limit) <= 10 + limit * 2)
  /\ (forall (w : Prisma.World) (productId orderId : option N) (limit : nat)
             (s : Prisma.State),
        PrismaSpec.poolsWithin limit s ->
        PrismaSpec.poolsWithin limit
          (final (Prisma.getRecommendations w productId orderId limit) s))
  /\ (forall (w : Cache.World) (productId : option string) (limit : nat)
             (s : Cache.State),
        CacheSpec.poolsWithin limit s ->
        CacheSpec.poolsWithin limit
          (final (Cache.getRecommendations w productId limit) s)).
Proof.
  split; [|split].
  - intros d pid cur limit. split; [|split].
    + apply prisma_findMany_length.
    + apply prisma_findMany_length.
    + apply prisma_productPool_length.
  - intros w productId orderId limit s Hs.
    eapply keeps_final; [apply prisma_pool_getRecommendations | exact Hs].
  - intros w productId limit s Hs.
    eapply keeps_final; [apply cache_pool_getRecommendations | exact Hs].
Qed.

Lemma candidate_pool_bound_witness :
  (PrismaSpec.poolsWithin 1 Prisma.start
   /\ PrismaSpec.poolsWithin 1
        (final (Prisma.getRecommendations (PrismaShop.world true true "2")
                  (Some 1%N) None 1) Prisma.start))
  /\ (CacheSpec.poolsWithin 1 Cache.start
      /\ CacheSpec.poolsWithin 1
           (final (Cache.getRecommendations (CacheShop.world true true "2")
                     (Some "a1"%string) 1) Cache.start)).
Proof.
  assert (H0 : PrismaSpec.poolsWithin 1 Prisma.start) by constructor.
  assert (H1 : CacheSpec.poolsWithin 1 Cache.start) by constructor.
  split; (split; [assumption|]).
  - exact (proj1 (proj2 candidate_pool_bound) _ _ _ _ _ H0).
  - exact (proj2 (proj2 candidate_pool_bound) _ _ _ _ H1).
Defined.

(** C5, as stated, fails: with [limit = 1] the three category matches of
    the soap are all handed to the ranker, more than [limit * 2]. *)
Lemma candidate_pool_bound_counterexample :
  Prisma.calls
    (final (Prisma.getRecommendations (PrismaShop.world true true "2")
              (Some 1%N) None 1) Prisma.start)
  = [Probe;
     Generate (Prisma.ProductPrompt PrismaShop.soap
                 [PrismaShop.brush; PrismaShop.bag; PrismaShop.straw] 1)]
  /\ 1 * 2 < length [PrismaShop.brush; PrismaShop.bag; PrismaShop.straw].
Proof. split; [vm_compute; reflexivity | simpl; lia]. Qed.

(** C6, as amended.  In the Prisma implementation both rankers return null
    whenever fewer than [min(2, limit)] integers of the answer map to
    candidate ids (a non-null answer holds [min(2, limit)] ids at least),
    and the orchestrator then returns what it returns with the model
    switched off: for every call, under any storage, if the answer to the
    generation request that the call sends maps fewer than [min(2, limit)]
    integers to candidates of that request, the result is the one of the
    same call with the model switched off.  In the cache-based
    implementation the ranker applies no threshold: it returns the valid
    ids, cut to [limit], however few they are; the orchestrator is the one
    that discards an answer with fewer than two ids: for every call, if
    the ranker keeps fewer than two ids from the answer to the request
    that the call sends, the result is the one of the same call with the
    model switched off. *)
Theorem ranker_threshold :
  (forall (w : Prisma.World) (cur : Prisma.Product) (order : Prisma.Order)
          (pool : list Prisma.Product) (limit : nat) (s : Prisma.State) (ids : list N),
     (result (Prisma.getOllamaRecommendations w cur pool limit) s = Ok (Some ids) ->
      Nat.min 2 limit <= length ids)
     /\ (result (Prisma.getOllamaRecommendationsForOrder w order pool limit) s
         = Ok (Some ids) ->
         Nat.min 2 limit <= length ids))
  /\ (forall (w : Prisma.World) (cur : Prisma.Product) (order : Prisma.Order)
             (pool : list Prisma.Product) (limit : nat) (s : Prisma.State)
             (t : list ascii),
        (answerText (Prisma.generate w (Prisma.ProductPrompt cur pool limit)) = Some t ->
         PrismaSpec.validCount (Prisma.ProductPrompt cur pool limit) t < Nat.min 2 limit ->
         result (Prisma.getOllamaRecommendations w cur pool limit) s = Ok None)
        /\ (answerText (Prisma.generate w (Prisma.OrderPrompt order pool limit)) = Some t ->
            PrismaSpec.validCount (Prisma.OrderPrompt order pool limit) t
            < Nat.min 2 limit ->
            result (Prisma.getOllamaRecommendationsForOrder w order pool limit) s
            = Ok None))
  /\ (forall (w : Prisma.World) (productId orderId : option N) (limit : nat)
             (s : Prisma.State),
        (forall p, prismaSent w productId orderId limit s p -> fewValidIds w limit p) ->
        result (Prisma.getRecommendations w productId orderId limit) s
        = result (Prisma.getRecommendations (PrismaSpec.disabled w)
                    productId orderId limit) s)
  /\ (forall (w : Cache.World) (cur : Cache.Product) (pool : list Cache.Product)
             (limit : nat) (s : Cache.State) (t : list ascii),
        limit <= length pool ->
        answerText (Cache.generate w (Cache.ProductPrompt cur pool limit)) = Some t ->
        matchDigits t <> [] ->
        result (Cache.getOllamaRecommendations w cur pool limit) s
        = Ok (Some (CacheSpec.keptIds w pool limit t)))
  /\ (forall (w : Cache.World) (productId : option string) (limit : nat)
             (s : Cache.State),
        (forall p, cacheSent w productId limit s p -> fewKeptIds w limit p) ->
        result (Cache.getRecommendations w productId limit) s
        = result (Cache.getRecommendations (CacheSpec.disabled w) productId limit) s).
Proof.
  split; [|split; [|split; [|split]]].
  - intros w cur order pool limit s ids. unfold result.
    rewrite prisma_product_ranker_run, prisma_order_ranker_run. simpl fst.
    split; intros [= Hv].
    + apply prisma_productVerdict_some in Hv. tauto.
    + apply prisma_orderVerdict_some in Hv. tauto.
  - intros w cur order pool limit s t. unfold result.
    rewrite prisma_product_ranker_run, prisma_order_ranker_run. simpl fst.
    unfold PrismaSpec.validCount.
    split; intros Ht Hfew; f_equal.
    + unfold PrismaSpec.productVerdict. rewrite Ht.
      destruct (length pool <? limit); [reflexivity|].
      destruct (Prisma.isEmpty _); [reflexivity|].
      unfold Prisma.accept. apply Nat.ltb_lt in Hfew. rewrite Hfew. reflexivity.
    + unfold PrismaSpec.orderVerdict. rewrite Ht.
      destruct (length pool <? limit); [reflexivity|].
      destruct (forallb _ _); [|reflexivity].
      destruct (Prisma.isEmpty _); [reflexivity|].
      unfold Prisma.accept. apply Nat.ltb_lt in Hfew. rewrite Hfew. reflexivity.
  - intros w productId orderId limit s Hfew. apply prisma_run_few, Hfew.
  - intros w cur pool limit s t Hlen Ht Hnum. unfold result.
    rewrite cache_ranker_run. simpl fst. f_equal.
    unfold CacheSpec.rankerVerdict. rewrite Ht.
    apply Nat.ltb_ge in Hlen. rewrite Hlen.
    destruct (matchDigits t); [contradiction | reflexivity].
  - intros w productId limit s Hfew. apply cache_run_few, Hfew.
Qed.

(** The model answers "2, 99" to a request for four products similar to
    the soap: one id is valid, the ranker returns null, and the result is
    the one with the model switched off.  The same in the cache-based
    implementation for the answer "2, 4", from which no id is kept. *)
Lemma ranker_threshold_witness :
  ((forall p, prismaSent (PrismaShop.world true true "2, 99") (Some 1%N) None 4
                Prisma.start p ->
              fewValidIds (PrismaShop.world true true "2, 99") 4 p)
   /\ Prisma.calls (final (Prisma.getRecommendations (PrismaShop.world true true "2, 99")
                             (Some 1%N) None 4) Prisma.start)
      = [Probe;
         Generate (Prisma.ProductPrompt PrismaShop.soap
                     [PrismaShop.brush; PrismaShop.bag; PrismaShop.straw; PrismaShop.cup]
                     4)]
   /\ result (Prisma.getRecommendations (PrismaShop.world true true "2, 99")
                (Some 1%N) None 4) Prisma.start
      = result (Prisma.getRecommendations
                  (PrismaSpec.disabled (PrismaShop.world true true "2, 99"))
                  (Some 1%N) None 4) Prisma.start)
  /\ (PrismaSpec.validCount
        (Prisma.ProductPrompt PrismaShop.soap [PrismaShop.brush; PrismaShop.bag] 2)
        (chars "7") < Nat.min 2 2
      /\ result (Prisma.getOllamaRecommendations (PrismaShop.world true true "7")
                   PrismaShop.soap [PrismaShop.brush; PrismaShop.bag] 2) Prisma.start
         = Ok None)
  /\ ((forall p, cacheSent (CacheShop.world true true "2, 4") (Some "a1"%string) 1
                   Cache.start p ->
                 fewKeptIds (CacheShop.world true true "2, 4") 1 p)
      /\ Cache.calls (final (Cache.getRecommendations (CacheShop.world true true "2, 4")
                               (Some "a1"%string) 1) Cache.start)
         = [Probe; Generate (Cache.ProductPrompt CacheShop.soap [CacheShop.brush] 1)]
      /\ result (Cache.getRecommendations (CacheShop.world true true "2, 4")
                   (Some "a1"%string) 1) Cache.start
         = result (Cache.getRecommendations
                     (CacheSpec.disabled (CacheShop.world true true "2, 4"))
                     (Some "a1"%string) 1) Cache.start).
Proof.
  assert (Hcalls : Prisma.calls
                     (final (Prisma.getRecommendations (PrismaShop.world true true "2, 99")
                               (Some 1%N) None 4) Prisma.start)
                   = [Probe;
                      Generate (Prisma.ProductPrompt PrismaShop.soap
                                  [PrismaShop.brush; PrismaShop.bag; PrismaShop.straw;
                                   PrismaShop.cup] 4)])
    by (vm_compute; reflexivity).
  assert (Hfew : forall p,
             prismaSent (PrismaShop.world true true "2, 99") (Some 1%N) None 4
               Prisma.start p ->
             fewValidIds (PrismaShop.world true true "2, 99") 4 p).
  { intros p (cs & Hcs & Hin) t Ht. rewrite Hcalls in Hcs. simpl in Hcs. subst cs.
    destruct Hin as [Hin | [Hin | []]]; [discriminate Hin|]. injection Hin as <-.
    simpl in Ht. injection Ht as <-. vm_compute. lia. }
  assert (Hcount : PrismaSpec.validCount
                     (Prisma.ProductPrompt PrismaShop.soap
                        [PrismaShop.brush; PrismaShop.bag] 2)
                     (chars "7") < Nat.min 2 2) by (vm_compute; lia).
  assert (Hcallsc : Cache.calls
                      (final (Cache.getRecommendations (CacheShop.world true true "2, 4")
                                (Some "a1"%string) 1) Cache.start)
                    = [Probe;
                       Generate (Cache.ProductPrompt CacheShop.soap [CacheShop.brush] 1)])
    by (vm_compute; reflexivity).
  assert (Hfewc : forall p,
             cacheSent (CacheShop.world true true "2, 4") (Some "a1"%string) 1
               Cache.start p ->
             fewKeptIds (CacheShop.world true true "2, 4") 1 p).
  { intros p (cs & Hcs & Hin) t Ht. rewrite Hcallsc in Hcs. simpl in Hcs. subst cs.
    destruct Hin as [Hin | [Hin | []]]; [discriminate Hin|]. injection Hin as <-.
    simpl in Ht. injection Ht as <-. vm_compute. lia. }
  split; [split; [exact Hfew | split; [exact Hcalls|]]
         | split; [split; [exact Hcount|]
                  | split; [exact Hfewc | split; [exact Hcallsc|]]]].
  - exact (proj1 (proj2 (proj2 ranker_threshold)) _ (Some 1%N) None 4 Prisma.start Hfew).
  - exact (proj1 (proj1 (proj2 ranker_threshold) (PrismaShop.world true true "7")
                    PrismaShop.soap {| Prisma.order_id := 7; Prisma.items := [] |}
                    [PrismaShop.brush; PrismaShop.bag] 2 Prisma.start (chars "7"))
                 eq_refl Hcount).
  - exact (proj2 (proj2 (proj2 (proj2 ranker_threshold))) _ (Some "a1"%string) 1
                 Cache.start Hfewc).
Defined.

(** C6, as stated, fails in the cache-based implementation: for
    [limit = 1] and an answer whose only integer, 7, is no candidate, no
    id is valid, fewer than [min(2, 1)], and the ranker returns the empty
    list, not null. *)
Lemma ranker_threshold_counterexample :
  CacheSpec.keptIds (CacheShop.world true true "7") [CacheShop.brush] 1 (chars "7") = []
  /\ length (@nil N) < Nat.min 2 1
  /\ result (Cache.getOllamaRecommendations (CacheShop.world true true "7")
               CacheShop.soap [CacheShop.brush] 1) Cache.start
     = Ok (Some []).
Proof.
  split; [vm_compute; reflexivity|]. split; [simpl; lia|]. vm_compute. reflexivity.
Qed.




(** C8.  The rankers never throw: each run returns; with fewer candidates
    than [limit] the answer is null at once and nothing is sent (the state,
    which records the outbound calls, is unchanged); and a network error, a
    timeout, a non-success status, malformed JSON, or a missing or empty
    text all give null.  The two rankers of the Prisma implementation, and
    the ranker of the cache-based one. *)
Theorem ranker_never_throws :
  (forall (w : Prisma.World) (cur : Prisma.Product) (order : Prisma.Order)
          (pool : list Prisma.Product) (limit : nat) (s : Prisma.State),
     (exists r, result (Prisma.getOllamaRecommendations w cur pool limit) s = Ok r)
     /\ (exists r, result (Prisma.getOllamaRecommendationsForOrder w order pool limit) s
                   = Ok r)
     /\ (length pool < limit ->
         Prisma.getOllamaRecommendations w cur pool limit s = (Ok None, s)
         /\ Prisma.getOllamaRecommendationsForOrder w order pool limit s = (Ok None, s))
     /\ (failedAnswer (Prisma.generate w (Prisma.ProductPrompt cur pool limit)) ->
         result (Prisma.getOllamaRecommendations w cur pool limit) s = Ok None)
     /\ (failedAnswer (Prisma.generate w (Prisma.OrderPrompt order pool limit)) ->
         result (Prisma.getOllamaRecommendationsForOrder w order pool limit) s
         = Ok None))
  /\ (forall (w : Cache.World) (cur : Cache.Product) (pool : list Cache.Product)
             (limit : nat) (s : Cache.State),
        (exists r, result (Cache.getOllamaRecommendations w cur pool limit) s = Ok r)
        /\ (length pool < limit ->
            Cache.getOllamaRecommendations w cur pool limit s = (Ok None, s))
        /\ (failedAnswer (Cache.generate w (Cache.ProductPrompt cur pool limit)) ->
            result (Cache.getOllamaRecommendations w cur pool limit) s = Ok None)).
Proof.
  split.
  - intros w cur order pool limit s. unfold result.
    rewrite prisma_product_ranker_run, prisma_order_ranker_run. simpl fst.
    split; [eexists; reflexivity|]. split; [eexists; reflexivity|].
    split; [|split].
    + intros Hlt. apply Nat.ltb_lt in Hlt.
      unfold PrismaSpec.productVerdict, PrismaSpec.orderVerdict. rewrite Hlt. auto.
    + intros Hf. unfold PrismaSpec.productVerdict.
      destruct (length pool <? limit); [reflexivity|].
      destruct Hf as [H|[H|[[b H]|[H|[H|H]]]]]; rewrite H; reflexivity.
    + intros Hf. unfold PrismaSpec.orderVerdict.
      destruct (length pool <? limit); [reflexivity|].
      destruct (forallb _ _); [|reflexivity].
      destruct Hf as [H|[H|[[b H]|[H|[H|H]]]]]; rewrite H; reflexivity.
  - intros w cur pool limit s. unfold result.
    rewrite cache_ranker_run. simpl fst.
    split; [eexists; reflexivity|]. split.
    + intros Hlt. apply Nat.ltb_lt in Hlt.
      unfold CacheSpec.rankerVerdict. rewrite Hlt. reflexivity.
    + intros Hf. unfold CacheSpec.rankerVerdict.
      destruct (length pool <? limit); [reflexivity|].
      destruct Hf as [H|[H|[[b H]|[H|[H|H]]]]]; rewrite H; reflexivity.
Qed.

Lemma ranker_never_throws_witness :
  (length [PrismaShop.brush] < 4
   /\ Prisma.getOllamaRecommendations (PrismaShop.world true true "")
        PrismaShop.soap [PrismaShop.brush] 4 Prisma.start = (Ok None, Prisma.start))
  /\ (failedAnswer
        (Prisma.generate (PrismaShop.world true true "")
           (Prisma.ProductPrompt PrismaShop.soap [PrismaShop.brush; PrismaShop.bag] 2))
      /\ result (Prisma.getOllamaRecommendations (PrismaShop.world true true "")
                   PrismaShop.soap [PrismaShop.brush; PrismaShop.bag] 2) Prisma.start
         = Ok None)
  /\ (failedAnswer
        (Prisma.generate (PrismaShop.world true true "")
           (Prisma.OrderPrompt {| Prisma.order_id := 7; Prisma.items := [] |}
              [PrismaShop.brush; PrismaShop.bag] 2))
      /\ result (Prisma.getOllamaRecommendationsForOrder (PrismaShop.world true true "")
                   {| Prisma.order_id := 7; Prisma.items := [] |}
                   [PrismaShop.brush; PrismaShop.bag] 2) Prisma.start
         = Ok None)
  /\ (length [CacheShop.brush] < 4
      /\ Cache.getOllamaRecommendations (CacheShop.world true true "")
           CacheShop.soap [CacheShop.brush] 4 Cache.start = (Ok None, Cache.start))
  /\ (failedAnswer
        (Cache.generate (CacheShop.world true true "")
           (Cache.ProductPrompt CacheShop.soap [CacheShop.brush] 1))
      /\ result (Cache.getOllamaRecommendations (CacheShop.world true true "")
                   CacheShop.soap [CacheShop.brush] 1) Cache.start
         = Ok None).
Proof.
  pose (o := {| Prisma.order_id := 7%N; Prisma.items := [] |}).
  assert (Hlt : length [PrismaShop.brush] < 4) by (simpl; lia).
  assert (Hf : failedAnswer
                 (Prisma.generate (PrismaShop.world true true "")
                    (Prisma.ProductPrompt PrismaShop.soap
                       [PrismaShop.brush; PrismaShop.bag] 2))).
  { unfold failedAnswer. simpl. do 5 right. reflexivity. }
  assert (Hfo : failedAnswer
                  (Prisma.generate (PrismaShop.world true true "")
                     (Prisma.OrderPrompt o [PrismaShop.brush; PrismaShop.bag] 2))).
  { unfold failedAnswer. simpl. do 5 right. reflexivity. }
  assert (Hltc : length [CacheShop.brush] < 4) by (simpl; lia).
  assert (Hfc : failedAnswer
                  (Cache.generate (CacheShop.world true true "")
                     (Cache.ProductPrompt CacheShop.soap [CacheShop.brush] 1))).
  { unfold failedAnswer. simpl. do 5 right. reflexivity. }
  pose proof (proj1 ranker_never_throws (PrismaShop.world true true "") PrismaShop.soap o
                [PrismaShop.brush] 4 Prisma.start) as (_ & _ & H1 & _).
  pose proof (proj1 ranker_never_throws (PrismaShop.world true true "") PrismaShop.soap o
                [PrismaShop.brush; PrismaShop.bag] 2 Prisma.start) as (_ & _ & _ & H2 & H3).
  pose proof (proj2 ranker_never_throws (CacheShop.world true true "") CacheShop.soap
                [CacheShop.brush] 4 Cache.start) as (_ & H4 & _).
  pose proof (proj2 ranker_never_throws (CacheShop.world true true "") CacheShop.soap
                [CacheShop.brush] 1 Cache.start) as (_ & _ & H5).
  split; [split; [exact Hlt | exact (proj1 (H1 Hlt))]|].
  split; [split; [exact Hf | exact (H2 Hf)]|].
  split; [split; [exact Hfo | exact (H3 Hfo)]|].
  split; [split; [exact Hltc | exact (H4 Hltc)]|].
  split; [exact Hfc | exact (H5 Hfc)].
Defined.

(** C9.  With the flag that disables the language model set, a call of
    [getRecommendations] issues no outbound call, neither probe nor
    generation request, its run is the same behind any endpoint, and its
    result is computed from candidate selection and the popularity
    fallback alone.  In the Prisma implementation, with the storage
    answering: the fallback list (the [limit] most ordered products other
    than the product named) when the request has no usable seed; else the
    category matches of the seed in selection order, followed by the
    fallback products that are not among them, cut to [limit] (the
    fallback list when there is no category match).  In the cache-based
    implementation, when the accessor hands out an array: the first
    [limit] products by order count when no current product is found;
    else the first [limit] similar products when there are [limit] of
    them, the first [limit] products by order count otherwise. *)
Theorem disabled_flag_no_llm :
  (forall (w : Prisma.World) (productId orderId : option N) (limit : nat)
          (s : Prisma.State),
     Prisma.USE_OLLAMA w = false ->
     Prisma.calls (final (Prisma.getRecommendations w productId orderId limit) s)
     = Prisma.calls s
     /\ forall (p : Fetch) (g : Prisma.Prompt -> Fetch),
          Prisma.getRecommendations (PrismaSpec.withEndpoint w p g)
            productId orderId limit s
          = Prisma.getRecommendations w productId orderId limit s)
  /\ (forall (w : Cache.World) (productId : option string) (limit : nat)
             (s : Cache.State),
        Cache.USE_OLLAMA w = false ->
        Cache.calls (final (Cache.getRecommendations w productId limit) s)
        = Cache.calls s
        /\ forall (p : Fetch) (g : Cache.Prompt -> Fetch),
             Cache.getRecommendations (CacheSpec.withEndpoint w p g) productId limit s
             = Cache.getRecommendations w productId limit s)
  /\ (forall (w : Prisma.World) (productId orderId : option N) (limit : nat)
             (s : Prisma.State),
        Prisma.USE_OLLAMA w = false ->
        PrismaSpec.storageAlwaysUp w ->
        (noUsableSeed (Prisma.db w) productId orderId ->
         result (Prisma.getRecommendations w productId orderId limit) s
         = Ok (Prisma.fallbackQuery productId limit (Prisma.db w)))
        /\ (forall (pid : N) (cur : Prisma.Product),
              PrismaSpec.productSeeded w productId orderId pid cur ->
              result (Prisma.getRecommendations w productId orderId limit) s
              = Ok (match Prisma.similarCategoryQuery pid cur (Prisma.db w) with
                    | [] => Prisma.fallbackQuery productId limit (Prisma.db w)
                    | similar =>
                        slice0 limit
                          (similar
                           ++ PrismaSpec.padding similar
                                (Prisma.fallbackQuery productId limit (Prisma.db w)))
                    end))
        /\ (forall (oid : N) (order : Prisma.Order),
              PrismaSpec.orderSeeded w orderId oid order ->
              result (Prisma.getRecommendations w productId orderId limit) s
              = Ok (match Prisma.orderSimilarQuery order (Prisma.orderCategoryIds order)
                            limit (Prisma.db w) with
                    | [] => Prisma.fallbackQuery productId limit (Prisma.db w)
                    | similar =>
                        slice0 limit
                          (similar
                           ++ PrismaSpec.padding similar
                                (Prisma.fallbackQuery productId limit (Prisma.db w)))
                    end)))
  /\ (forall (w : Cache.World) (productId : option string) (limit : nat)
             (s : Cache.State) (arr : list Cache.Product),
        Cache.USE_OLLAMA w = false ->
        CacheSpec.loaded w s = Some arr ->
        (noCurrentProduct arr productId ->
         result (Cache.getRecommendations w productId limit) s
         = Ok (slice0 limit (sortDesc Cache.orderCount arr)))
        /\ (forall (pid : string) (cur : Cache.Product),
              Cache.truthyId productId = Some pid ->
              find (fun p => String.eqb (Cache.id p) pid) (sortDesc Cache.orderCount arr)
              = Some cur ->
              result (Cache.getRecommendations w productId limit) s
              = Ok (if limit <=? length (Cache.similarOf pid cur
                                           (sortDesc Cache.orderCount arr) limit)
                    then slice0 limit
                           (Cache.similarOf pid cur (sortDesc Cache.orderCount arr) limit)
                    else slice0 limit (sortDesc Cache.orderCount arr)))).
Proof.
  split; [|split; [|split]].
  - intros w productId orderId limit s Hoff. split.
    + apply (keeps_final (I := fun s' => Prisma.calls s' = Prisma.calls s)
               (post := fun _ => True)); [|reflexivity].
      apply prisma_disabled_silent, Hoff.
    + intros p g. apply prisma_disabled_blind, Hoff.
  - intros w productId limit s Hoff. split.
    + apply (keeps_final (I := fun s' => Cache.calls s' = Cache.calls s)
               (post := fun _ => True)); [|reflexivity].
      apply cache_disabled_silent, Hoff.
    + intros p g. apply cache_disabled_blind, Hoff.
  - intros w productId orderId limit s Hoff Hup.
    assert (Hrank : PrismaSpec.rankingOn w = false)
      by (unfold PrismaSpec.rankingOn; rewrite Hoff; reflexivity).
    split; [|split].
    + intros Hseed. rewrite (prisma_getRecommendations_up Hup).
      rewrite (@prisma_answer_unseeded w productId orderId limit Hseed). reflexivity.
    + intros pid cur Hseed.
      exact (@prisma_product_unranked w Hup productId orderId pid cur limit s s Hseed
               (or_introl Hrank)).
    + intros oid order Hseed.
      exact (@prisma_order_unranked w Hup productId orderId oid order limit s s Hseed
               (or_introl Hrank)).
  - intros w productId limit s arr Hoff Hload.
    assert (Hrank : CacheSpec.rankingOn w = false)
      by (unfold CacheSpec.rankingOn; rewrite Hoff; reflexivity).
    split.
    + intros Hseed.
      destruct (cache_getRecommendations_loaded w productId limit s Hload)
        as (s' & Hrun & _).
      unfold result. rewrite Hrun. simpl fst.
      rewrite (@cache_answer_unseeded w arr productId limit Hseed). reflexivity.
    + intros pid cur Hpid Hcur.
      exact (@cache_unranked w productId pid cur limit arr s s Hload Hpid Hcur
               (or_introl Hrank)).
Qed.

(** The soap as seed with the model switched off: nothing is sent, and
    the result is the first two category matches, brush and bag; in the
    cache-based implementation, where the brush is the one product similar
    to the soap, fewer than the two asked for, it is the popularity list,
    cup and soap. *)
Lemma disabled_flag_no_llm_witness :
  (Prisma.USE_OLLAMA (PrismaShop.world false true "2, 4") = false
   /\ Prisma.calls
        (final (Prisma.getRecommendations (PrismaShop.world false true "2, 4")
                  (Some 1%N) None 2) Prisma.start)
      = Prisma.calls Prisma.start)
  /\ (Cache.USE_OLLAMA (CacheShop.world false true "2, 4") = false
      /\ Cache.calls
           (final (Cache.getRecommendations (CacheShop.world false true "2, 4")
                     (Some "a1"%string) 2) Cache.start)
         = Cache.calls Cache.start)
  /\ (PrismaSpec.productSeeded (PrismaShop.world false true "2, 4") (Some 1%N) None
        1%N PrismaShop.soap
      /\ result (Prisma.getRecommendations (PrismaShop.world false true "2, 4")
                   (Some 1%N) None 2) Prisma.start
         = Ok [PrismaShop.brush; PrismaShop.bag])
  /\ (CacheSpec.loaded (CacheShop.world false true "2, 4") Cache.start
      = Some (CacheSpec.refill CacheShop.shop)
      /\ result (Cache.getRecommendations (CacheShop.world false true "2, 4")
                   (Some "a1"%string) 2) Cache.start
         = Ok [CacheShop.cup; CacheShop.soap]).
Proof.
  assert (Hoff : Prisma.USE_OLLAMA (PrismaShop.world false true "2, 4") = false)
    by reflexivity.
  assert (Hoffc : Cache.USE_OLLAMA (CacheShop.world false true "2, 4") = false)
    by reflexivity.
  assert (Hup : PrismaSpec.storageAlwaysUp (PrismaShop.world false true "2, 4"))
    by (intros n; reflexivity).
  assert (Hseed : PrismaSpec.productSeeded (PrismaShop.world false true "2, 4")
                    (Some 1%N) None 1%N PrismaShop.soap).
  { repeat split. discriminate. }
  assert (Hload : CacheSpec.loaded (CacheShop.world false true "2, 4") Cache.start
                  = Some (CacheSpec.refill CacheShop.shop)) by reflexivity.
  split; [split; [exact Hoff|] | split; [split; [exact Hoffc|]
         | split; [split; [exact Hseed|] | split; [exact Hload|]]]].
  - exact (proj1 (proj1 disabled_flag_no_llm _ (Some 1%N) None 2 Prisma.start Hoff)).
  - exact (proj1 (proj1 (proj2 disabled_flag_no_llm) _ (Some "a1"%string) 2
                    Cache.start Hoffc)).
  - exact (proj1 (proj2 (proj1 (proj2 (proj2 disabled_flag_no_llm)) _ (Some 1%N) None 2
                           Prisma.start Hoff Hup))
                 1%N PrismaShop.soap Hseed).
  - exact (proj2 (proj2 (proj2 (proj2 disabled_flag_no_llm)) _ (Some "a1"%string) 2
                    Cache.start (CacheSpec.refill CacheShop.shop) Hoffc Hload)
                 "a1"%string CacheShop.soap eq_refl eq_refl).
Defined.



(* ================================================================= *)
(** * Further properties of the code *)

(* ================================================================= *)
(** ** Statements: the endpoint *)

(** X1.  [isOllamaAvailable] never throws: it records exactly one probe
    and returns true exactly when the probe is answered with a success
    status; a network failure, a timeout and a non-success status all give
    false.  Both implementations. *)
Theorem probe_never_throws :
  (forall (w : Prisma.World) (s : Prisma.State),
     Prisma.calls (final (Prisma.isOllamaAvailable w) s) = Prisma.calls s ++ [Probe]
     /\ Prisma.queries (final (Prisma.isOllamaAvailable w) s) = Prisma.queries s
     /\ result (Prisma.isOllamaAvailable w) s
        = Ok (match Prisma.probe w with Http true _ => true | _ => false end))
  /\ (forall (w : Cache.World) (s : Cache.State),
        Cache.calls (final (Cache.isOllamaAvailable w) s) = Cache.calls s ++ [Probe]
        /\ Cache.productsCache (final (Cache.isOllamaAvailable w) s) = Cache.productsCache s
        /\ result (Cache.isOllamaAvailable w) s
           = Ok (match Cache.probe w with Http true _ => true | _ => false end)).
Proof.
  split; intros w s; unfold final, result.
  - rewrite prisma_isOllamaAvailable_run. simpl.
    repeat split. destruct (Prisma.probe w) as [| |[|] b]; reflexivity.
  - rewrite cache_isOllamaAvailable_run. simpl.
    repeat split. destruct (Cache.probe w) as [| |[|] b]; reflexivity.
Qed.

(** X2.  The warm-up of the Prisma file never throws and always sends
    exactly one request, whether or not the flag disables the model; once
    the request settles (an answer, or a failure), it returns true exactly
    when the request is answered with a success status. *)
Theorem prisma_prewarm_always_sends :
  forall (w : Warmup.World) (s : Warmup.State),
    final (PrismaWarmup.prewarmOllamaModel w) s
    = s ++ [Generate "Hello, this is a warmup request to load the model into memory."%string]
    /\ result (PrismaWarmup.prewarmOllamaModel w) s
       = Ok (match Warmup.answer w with Http true _ => true | _ => false end).
Proof.
  intros w s.
  unfold final, result, PrismaWarmup.prewarmOllamaModel, tryCatch, bind,
    Warmup.awaitFetch, bind, modify.
  destruct (Warmup.answer w) as [| |[|] b]; simpl; auto.
Qed.

(** X3.  The warm-up of the cache-based file never throws; with the flag
    that disables the model set it sends nothing and returns false;
    otherwise it sends exactly one request and, once the request settles,
    returns true exactly when it is answered with a success status. *)
Theorem cache_prewarm_respects_flag :
  forall (w : Warmup.World) (s : Warmup.State),
    (Warmup.USE_OLLAMA w = false ->
     CacheWarmup.prewarmOllamaModel w s = (Ok false, s))
    /\ (Warmup.USE_OLLAMA w = true ->
        final (CacheWarmup.prewarmOllamaModel w) s = s ++ [Generate "Warmup request"%string]
        /\ result (CacheWarmup.prewarmOllamaModel w) s
           = Ok (match Warmup.answer w with Http true _ => true | _ => false end)).
Proof.
  intros w s. unfold CacheWarmup.prewarmOllamaModel. split; intros ->; simpl.
  - reflexivity.
  - unfold final, result, tryCatch, bind, Warmup.awaitFetch, bind, modify.
    destruct (Warmup.answer w) as [| |[|] b]; simpl; auto.
Qed.

Lemma cache_prewarm_respects_flag_witness :
  (Warmup.USE_OLLAMA (warmEndpoint false) = false
   /\ CacheWarmup.prewarmOllamaModel (warmEndpoint false) [] = (Ok false, []))
  /\ (Warmup.USE_OLLAMA (deadEndpoint true) = true
      /\ result (CacheWarmup.prewarmOllamaModel (deadEndpoint true)) [] = Ok false).
Proof.
  assert (Hoff : Warmup.USE_OLLAMA (warmEndpoint false) = false) by reflexivity.
  assert (Hon : Warmup.USE_OLLAMA (deadEndpoint true) = true) by reflexivity.
  split; (split; [assumption|]).
  - exact (proj1 (cache_prewarm_respects_flag (warmEndpoint false) []) Hoff).
  - exact (proj2 (proj2 (cache_prewarm_respects_flag (deadEndpoint true) []) Hon)).
Defined.

(** X4.  One call of the Prisma [getRecommendations] issues, whatever the
    storage does: nothing when the flag disables the model; otherwise the
    probe first (even for a request without seed), then at most one
    generation request, and that only after a probe that succeeded. *)
Theorem prisma_outbound_calls :
  forall (w : Prisma.World) (productId orderId : option N) (limit : nat)
         (s : Prisma.State),
    exists cs,
      Prisma.calls (final (Prisma.getRecommendations w productId orderId limit) s)
      = Prisma.calls s ++ cs
      /\ prismaCallsOf w cs.
Proof. intros w productId orderId limit s. apply prisma_getRecommendations_calls. Qed.

(** X5.  One call of the cache-based [getRecommendations] issues at most
    one probe and at most one generation request, the request only after a
    probe that succeeded, and nothing at all when the flag disables the
    model. *)
Theorem cache_outbound_calls :
  forall (w : Cache.World) (productId : option string) (limit : nat) (s : Cache.State),
    exists cs,
      Cache.calls (final (Cache.getRecommendations w productId limit) s)
      = Cache.calls s ++ cs
      /\ cacheCallsOf w cs.
Proof. intros w productId limit s. apply cache_getRecommendations_calls. Qed.

(* ================================================================= *)
(** ** Statements: errors *)

(** X6.  The Prisma [getRecommendations] throws only when the storage
    rejects two queries in a row.  If the fallback query (the first query
    of the run) is answered, the call returns a list whatever fails
    afterwards.  If it is rejected, the call returns what
    [getPopularProducts] returns, the [limit] most ordered products with
    no seed excluded, when the next query is answered, and throws the
    storage error when that one is rejected too. *)
Theorem prisma_throws_only_on_double_rejection :
  forall (w : Prisma.World) (productId orderId : option N) (limit : nat)
         (s : Prisma.State),
    (Prisma.storageUp w (Prisma.queries s) = true ->
     exists r, result (Prisma.getRecommendations w productId orderId limit) s = Ok r)
    /\ (Prisma.storageUp w (Prisma.queries s) = false ->
        result (Prisma.getRecommendations w productId orderId limit) s
        = if Prisma.storageUp w (S (Prisma.queries s))
          then Ok (Prisma.findMany (fun _ => true) true limit (Prisma.db w))
          else Throw StorageError).
Proof.
  intros w productId orderId limit s.
  destruct (prisma_probe_step w s) as (b & s1 & Hprobe & Hq).
  split; intros Hup;
    unfold result, Prisma.getRecommendations, tryCatch; unfold bind at 1;
    rewrite Hprobe; unfold bind at 1; unfold Prisma.query at 1;
    rewrite Hq, Hup.
  - destruct (Prisma.truthyId orderId) as [oid|].
    + unfold Prisma.orderPath.
      match goal with
      | |- context [tryCatch ?m (fun _ => ret ?a) ?s0] =>
          destruct (tryCatch_ret_returns m a s0) as (r & Hr);
          destruct (tryCatch m (fun _ => ret a) s0) as [x s2]
      end.
      simpl in Hr. subst x. simpl. eauto.
    + destruct (Prisma.truthyId productId) as [pid|]; [| simpl; eauto].
      unfold Prisma.productPath.
      match goal with
      | |- context [tryCatch ?m (fun _ => ret ?a) ?s0] =>
          destruct (tryCatch_ret_returns m a s0) as (r & Hr);
          destruct (tryCatch m (fun _ => ret a) s0) as [x s2]
      end.
      simpl in Hr. subst x. simpl. eauto.
  - unfold Prisma.getPopularProducts, Prisma.query. simpl Prisma.queries. rewrite Hq.
    destruct (Prisma.storageUp w (S (Prisma.queries s))); reflexivity.
Qed.

Lemma prisma_throws_only_on_double_rejection_witness :
  (Prisma.storageUp (PrismaShop.world true true "") (Prisma.queries Prisma.start) = true
   /\ exists r, result (Prisma.getRecommendations (PrismaShop.world true true "")
                          (Some 1%N) None 4) Prisma.start = Ok r)
  /\ (Prisma.storageUp flakyShop (Prisma.queries Prisma.start) = false
      /\ result (Prisma.getRecommendations flakyShop (Some 1%N) None 4) Prisma.start
         = if Prisma.storageUp flakyShop (S (Prisma.queries Prisma.start))
           then Ok (Prisma.findMany (fun _ => true) true 4 (Prisma.db flakyShop))
           else Throw StorageError).
Proof.
  assert (Hup : Prisma.storageUp (PrismaShop.world true true "")
                  (Prisma.queries Prisma.start) = true) by reflexivity.
  assert (Hdown : Prisma.storageUp flakyShop (Prisma.queries Prisma.start) = false)
    by reflexivity.
  split; (split; [assumption|]).
  - exact (proj1 (prisma_throws_only_on_double_rejection
                    (PrismaShop.world true true "") (Some 1%N) None 4 Prisma.start) Hup).
  - exact (proj2 (prisma_throws_only_on_double_rejection
                    flakyShop (Some 1%N) None 4 Prisma.start) Hdown).
Defined.

(** X7.  The cache-based [getRecommendations] throws only when the cache
    accessor fails twice in a row.  If the accessor can hand out an array
    (a fresh cache, or a refill that the storage answers), the call
    returns a list.  If it cannot, the call is what [getPopularProducts]
    is from the state the failed accessor left. *)
Theorem cache_throws_only_on_double_failure :
  forall (w : Cache.World) (productId : option string) (limit : nat) (s : Cache.State),
    (CacheSpec.loaded w s <> None ->
     exists r, result (Cache.getRecommendations w productId limit) s = Ok r)
    /\ (CacheSpec.loaded w s = None ->
        Cache.getRecommendations w productId limit s
        = Cache.getPopularProducts w limit (final (Cache.getProductsWithOrderCounts w) s)).
Proof.
  intros w productId limit s. split.
  - destruct (CacheSpec.loaded w s) as [arr|] eqn:Hload; [|contradiction].
    intros _. destruct (cache_getRecommendations_loaded w productId limit s Hload)
      as (s' & Hrun & _).
    unfold result. rewrite Hrun. simpl. eauto.
  - intros Hnone. destruct (cache_accessor_unloaded w s Hnone) as (s1 & Hacc & _).
    unfold final, Cache.getRecommendations, tryCatch. unfold bind at 1.
    rewrite Hacc. reflexivity.
Qed.

Lemma cache_throws_only_on_double_failure_witness :
  (CacheSpec.loaded (CacheShop.world false false "") CacheShop.warm <> None
   /\ exists r, result (Cache.getRecommendations (CacheShop.world false false "")
                          (Some "a1"%string) 2) CacheShop.warm = Ok r)
  /\ (CacheSpec.loaded (CacheShop.world false false "") Cache.start = None
      /\ Cache.getRecommendations (CacheShop.world false false "") (Some "a1"%string) 2
           Cache.start
         = Cache.getPopularProducts (CacheShop.world false false "") 2
             (final (Cache.getProductsWithOrderCounts (CacheShop.world false false ""))
                    Cache.start)).
Proof.
  assert (Hwarm : CacheSpec.loaded (CacheShop.world false false "") CacheShop.warm <> None)
    by (vm_compute; discriminate).
  assert (Hcold : CacheSpec.loaded (CacheShop.world false false "") Cache.start = None)
    by reflexivity.
  split; (split; [assumption|]).
  - exact (proj1 (cache_throws_only_on_double_failure
                    (CacheShop.world false false "") (Some "a1"%string) 2 CacheShop.warm)
                 Hwarm).
  - exact (proj2 (cache_throws_only_on_double_failure
                    (CacheShop.world false false "") (Some "a1"%string) 2 Cache.start)
                 Hcold).
Defined.

(* ================================================================= *)
(** ** Statements: what the rankers return *)

Lemma cache_keptIds_valid (w : Cache.World) (pool : list Cache.Product) (limit : nat)
    (t : list ascii) (n : N) :
  In n (CacheSpec.keptIds w pool limit t) ->
  exists p, In p pool /\ Cache.idIsNumber w (Cache.id p) n = true.
Proof.
  unfold CacheSpec.keptIds. intros H. apply In_slice0 in H.
  apply filter_In in H. destruct H as [_ H]. apply existsb_exists in H. exact H.
Qed.

(** X8.  A ranker never returns an id that is no candidate: every id of a
    non-null answer of the two Prisma rankers is the id of a product of
    the list handed to the ranker; the cache-based ranker returns at most
    [limit] ids, each equal to the id of a candidate. *)
Theorem ranker_names_candidates_only :
  (forall (w : Prisma.World) (cur : Prisma.Product) (pool : list Prisma.Product)
          (limit : nat) (s : Prisma.State) (ids : list N) (i : N),
     result (Prisma.getOllamaRecommendations w cur pool limit) s = Ok (Some ids) ->
     In i ids -> exists p, In p pool /\ Prisma.id p = i)
  /\ (forall (w : Prisma.World) (order : Prisma.Order) (pool : list Prisma.Product)
             (limit : nat) (s : Prisma.State) (ids : list N) (i : N),
        result (Prisma.getOllamaRecommendationsForOrder w order pool limit) s
        = Ok (Some ids) ->
        In i ids -> exists p, In p pool /\ Prisma.id p = i)
  /\ (forall (w : Cache.World) (cur : Cache.Product) (pool : list Cache.Product)
             (limit : nat) (s : Cache.State) (ids : list N),
        result (Cache.getOllamaRecommendations w cur pool limit) s = Ok (Some ids) ->
        length ids <= limit
        /\ forall n, In n ids ->
             exists p, In p pool /\ Cache.idIsNumber w (Cache.id p) n = true).
Proof.
  split; [|split].
  - intros w cur pool limit s ids i. unfold result.
    rewrite prisma_product_ranker_run. simpl fst. intros [= Hv] Hi.
    apply prisma_productVerdict_some in Hv. destruct Hv as (_ & _ & Hvalid).
    apply Hvalid, existsb_exists in Hi. destruct Hi as (p & Hp & Hid).
    exists p. split; [exact Hp|]. apply N.eqb_eq, Hid.
  - intros w order pool limit s ids i. unfold result.
    rewrite prisma_order_ranker_run. simpl fst. intros [= Hv] Hi.
    apply prisma_orderVerdict_some in Hv. destruct Hv as (_ & _ & Hvalid).
    apply Hvalid, existsb_exists in Hi. destruct Hi as (p & Hp & Hid).
    exists p. split; [exact Hp|]. apply N.eqb_eq, Hid.
  - intros w cur pool limit s ids. unfold result.
    rewrite cache_ranker_run. simpl fst. intros [= Hv].
    unfold CacheSpec.rankerVerdict in Hv.
    destruct (length pool <? limit); [discriminate|].
    destruct (answerText _) as [t|]; [|discriminate].
    destruct (matchDigits t); [discriminate|].
    injection Hv as <-. split.
    + unfold CacheSpec.keptIds. apply slice0_length.
    + intros n. apply cache_keptIds_valid.
Qed.

Lemma ranker_names_candidates_only_witness :
  (exists p, In p [PrismaShop.brush; PrismaShop.bag; PrismaShop.straw]
             /\ Prisma.id p = 4%N)
  /\ (exists p, In p [PrismaShop.brush; PrismaShop.bag] /\ Prisma.id p = 2%N)
  /\ (length [4%N; 2%N] <= 2
      /\ forall n, In n [4%N; 2%N] ->
           exists p, In p [NumericShop.brush; NumericShop.bag]
                     /\ Cache.idIsNumber (NumericShop.world "4, 9, 2") (Cache.id p) n
                        = true).
Proof.
  split; [|split].
  - refine (proj1 ranker_names_candidates_only
              (PrismaShop.world true true "I suggest 3. Recommended product IDs: 4, 9, 2")
              PrismaShop.soap [PrismaShop.brush; PrismaShop.bag; PrismaShop.straw] 2
              Prisma.start [4%N; 2%N] 4%N _ _); [vm_compute; reflexivity | simpl; auto].
  - refine (proj1 (proj2 ranker_names_candidates_only)
              (PrismaShop.world true true "4,7,2")
              {| Prisma.order_id := 7; Prisma.items := [] |}
              [PrismaShop.brush; PrismaShop.bag] 2
              Prisma.start [4%N; 2%N] 2%N _ _); [vm_compute; reflexivity | simpl; auto].
  - refine (proj2 (proj2 ranker_names_candidates_only)
              (NumericShop.world "4, 9, 2") NumericShop.soap
              [NumericShop.brush; NumericShop.bag] 2 Cache.start [4%N; 2%N] _).
    vm_compute. reflexivity.
Defined.

(* ================================================================= *)
(** ** Numbers as text, and the scanning of an answer *)

Lemma digitChar_spec (d : N) :
  (d < 10)%N -> isDigit (digitChar d) = true /\ digitValue (digitChar d) = d.
Proof.
  intros H.
  assert (Hd : (d = 0 \/ d = 1 \/ d = 2 \/ d = 3 \/ d = 4 \/ d = 5 \/ d = 6 \/ d = 7
                \/ d = 8 \/ d = 9)%N) by lia.
  repeat (destruct Hd as [-> | Hd]; [split; reflexivity|]). subst d. split; reflexivity.
Qed.

Lemma digitChar_mod (n : N) :
  isDigit (digitChar (n mod 10)) = true /\ digitValue (digitChar (n mod 10)) = (n mod 10)%N.
Proof. apply digitChar_spec. apply N.mod_lt. lia. Qed.

Lemma parseInt_snoc (l : list ascii) (c : ascii) :
  parseInt (l ++ [c]) = (10 * parseInt l + digitValue c)%N.
Proof. unfold parseInt. rewrite fold_left_app. reflexivity. Qed.

Lemma decimalFuel_digits (fuel : nat) (n : N) :
  forallb isDigit (decimalFuel fuel n) = true /\ decimalFuel fuel n <> [].
Proof.
  revert n. induction fuel as [|fuel IH]; intros n; simpl.
  - split; [|discriminate].
    rewrite (proj1 (digitChar_mod n)). reflexivity.
  - destruct (n <? 10)%N eqn:Hn.
    + apply N.ltb_lt in Hn. split; [|discriminate].
      simpl. rewrite (proj1 (digitChar_spec Hn)). reflexivity.
    + split.
      * rewrite forallb_app. rewrite (proj1 (IH (n / 10)%N)). simpl.
        rewrite (proj1 (digitChar_mod n)).
        reflexivity.
      * intros H. apply app_eq_nil in H. destruct H as [_ H]. discriminate.
Qed.

Lemma decimalFuel_parseInt (fuel : nat) (n : N) :
  (n <= N.of_nat fuel)%N -> parseInt (decimalFuel fuel n) = n.
Proof.
  revert n. induction fuel as [|fuel IH]; intros n Hn; simpl.
  - assert (n = 0%N) by lia. subst n. reflexivity.
  - destruct (n <? 10)%N eqn:H10.
    + apply N.ltb_lt in H10. unfold parseInt. simpl.
      rewrite (proj2 (digitChar_spec H10)). reflexivity.
    + apply N.ltb_ge in H10. rewrite parseInt_snoc.
      assert (Hdiv : (n / 10 <= N.of_nat fuel)%N).
      { assert (n / 10 < n)%N by (apply N.div_lt; lia). lia. }
      rewrite (IH _ Hdiv).
      rewrite (proj2 (digitChar_mod n)).
      symmetry. apply N.div_mod. lia.
Qed.

Lemma decimal_digits (n : N) : forallb isDigit (decimal n) = true /\ decimal n <> [].
Proof. apply decimalFuel_digits. Qed.

Lemma decimal_parseInt (n : N) : parseInt (decimal n) = n.
Proof. unfold decimal. apply decimalFuel_parseInt. lia. Qed.

Lemma map_decimal_parseInt (ids : list N) : map parseInt (map decimal ids) = ids.
Proof.
  induction ids as [|i ids IH]; [reflexivity|].
  simpl. rewrite decimal_parseInt, IH. reflexivity.
Qed.

Section Runs.

Variable cls : ascii -> bool.

Lemma runsOf_run (r s cur : list ascii) :
  forallb cls r = true -> runsOf cls (r ++ s) cur = runsOf cls s (rev r ++ cur).
Proof.
  revert cur. induction r as [|c r IH]; intros cur Hr; [reflexivity|].
  simpl in Hr. apply andb_prop in Hr. destruct Hr as [Hc Hr].
  simpl. rewrite Hc, (IH _ Hr). rewrite <- app_assoc. reflexivity.
Qed.

Lemma runsOf_gap (gap s : list ascii) :
  forallb (fun c => negb (cls c)) gap = true -> runsOf cls (gap ++ s) [] = runsOf cls s [].
Proof.
  induction gap as [|c gap IH]; intros Hg; [reflexivity|].
  simpl in Hg. apply andb_prop in Hg. destruct Hg as [Hc Hg].
  apply negb_true_iff in Hc. simpl. rewrite Hc. simpl. apply IH, Hg.
Qed.

Lemma runsOf_sep (sep s cur : list ascii) :
  sep <> [] -> forallb (fun c => negb (cls c)) sep = true ->
  runsOf cls (sep ++ s) cur = flush cur ++ runsOf cls s [].
Proof.
  destruct sep as [|c sep]; [contradiction|]. intros _ Hs.
  simpl in Hs. apply andb_prop in Hs. destruct Hs as [Hc Hs].
  apply negb_true_iff in Hc. simpl. rewrite Hc. f_equal. apply runsOf_gap, Hs.
Qed.

Lemma flush_run (r : list ascii) : r <> [] -> flush (rev r) = [r].
Proof.
  intros Hr. unfold flush. destruct (rev r) eqn:E.
  - exfalso. apply Hr. rewrite <- (rev_involutive r), E. reflexivity.
  - rewrite <- E, rev_involutive. reflexivity.
Qed.

(** Runs joined by a separator are read back one by one. *)
Lemma runsOf_join (sep : list ascii) (runs : list (list ascii)) :
  sep <> [] -> forallb (fun c => negb (cls c)) sep = true ->
  Forall (fun r => r <> [] /\ forallb cls r = true) runs ->
  runsOf cls (joinWith sep runs) [] = runs.
Proof.
  intros Hne Hsep Hruns. induction Hruns as [|r runs [Hr Hcls] Hruns IH]; [reflexivity|].
  destruct runs as [|q runs].
  - simpl. rewrite <- (app_nil_r r) at 1. rewrite runsOf_run by exact Hcls.
    simpl. rewrite app_nil_r. apply flush_run, Hr.
  - change (joinWith sep (r :: q :: runs)) with (r ++ sep ++ joinWith sep (q :: runs)).
    rewrite runsOf_run by exact Hcls. rewrite app_nil_r.
    rewrite runsOf_sep by assumption. rewrite IH, flush_run by assumption. reflexivity.
Qed.

Lemma runsOf_concat (s cur : list ascii) :
  concat (runsOf cls s cur) = rev cur ++ filter cls s.
Proof.
  revert cur. induction s as [|c s IH]; intros cur; simpl.
  - rewrite app_nil_r. unfold flush. destruct cur; [reflexivity|].
    simpl. rewrite app_nil_r. reflexivity.
  - destruct (cls c).
    + rewrite IH. simpl. rewrite <- app_assoc. reflexivity.
    + rewrite concat_app, IH. simpl. f_equal.
      unfold flush. destruct cur; [reflexivity|]. simpl. rewrite app_nil_r. reflexivity.
Qed.

End Runs.

Lemma matchDigits_none (s : list ascii) :
  matchDigits s = [] <-> forallb (fun c => negb (isDigit c)) s = true.
Proof.
  unfold matchDigits. split.
  - intros H. pose proof (runsOf_concat isDigit s []) as Hc. rewrite H in Hc.
    simpl in Hc. symmetry in Hc. clear H.
    induction s as [|c s IH]; [reflexivity|].
    simpl in *. destruct (isDigit c); [discriminate|]. simpl. apply IH, Hc.
  - intros H. rewrite <- (app_nil_r s). rewrite runsOf_gap by exact H. reflexivity.
Qed.

Lemma decimal_runs (cls : ascii -> bool) (ids : list N) :
  (forall c, isDigit c = true -> cls c = true) ->
  Forall (fun r => r <> [] /\ forallb cls r = true) (map decimal ids).
Proof.
  intros Hcls. apply Forall_forall. intros r Hr. apply in_map_iff in Hr.
  destruct Hr as (n & <- & _). destruct (decimal_digits n) as [Hd Hne].
  split; [exact Hne|]. rewrite forallb_forall in *. intros c Hc. apply Hcls, Hd, Hc.
Qed.

Lemma separator_not_digit (sep : list ascii) :
  forallb isSeparator sep = true -> forallb (fun c => negb (isDigit c)) sep = true.
Proof.
  rewrite !forallb_forall. intros H c Hc. specialize (H c Hc).
  unfold isSeparator, isWordChar in H. apply andb_prop in H. destruct H as [H _].
  destruct (isDigit c); [discriminate | reflexivity].
Qed.

Lemma separator_not_word (sep : list ascii) :
  forallb isSeparator sep = true -> forallb (fun c => negb (isWordChar c)) sep = true.
Proof.
  rewrite !forallb_forall. intros H c Hc. specialize (H c Hc).
  unfold isSeparator in H. apply andb_prop in H. apply H.
Qed.

Lemma separator_not_newline (sep : list ascii) :
  forallb isSeparator sep = true -> forallb (fun c => negb (isNewline c)) sep = true.
Proof.
  rewrite !forallb_forall. intros H c Hc. specialize (H c Hc).
  unfold isSeparator in H. apply andb_prop in H. apply H.
Qed.

Lemma digit_not_newline (c : ascii) : isDigit c = true -> negb (isNewline c) = true.
Proof.
  unfold isDigit, isNewline. intros H. apply andb_prop in H. destruct H as [H _].
  apply Nat.leb_le in H. apply negb_true_iff, Nat.eqb_neq. lia.
Qed.

(** The id list of an answer holds no line break. *)
Lemma idList_one_line (sep : list ascii) (ids : list N) :
  forallb isSeparator sep = true ->
  forallb (fun c => negb (isNewline c)) (idList sep ids) = true.
Proof.
  intros Hsep. unfold idList. induction ids as [|i ids IH]; [reflexivity|].
  assert (Hi : forallb (fun c => negb (isNewline c)) (decimal i) = true).
  { destruct (decimal_digits i) as [Hd _]. rewrite forallb_forall in *.
    intros c Hc. apply digit_not_newline, Hd, Hc. }
  destruct ids as [|j ids]; [exact Hi|].
  change (joinWith sep (map decimal (i :: j :: ids)))
    with (decimal i ++ sep ++ joinWith sep (map decimal (j :: ids))).
  rewrite !forallb_app, Hi, (separator_not_newline _ Hsep), IH. reflexivity.
Qed.

Lemma idList_not_nil (sep : list ascii) (ids : list N) : ids <> [] -> idList sep ids <> [].
Proof.
  destruct ids as [|i ids]; [contradiction|]. intros _. unfold idList.
  destruct (decimal_digits i) as [_ Hne].
  destruct ids as [|j ids]; [exact Hne|].
  change (joinWith sep (map decimal (i :: j :: ids)))
    with (decimal i ++ sep ++ joinWith sep (map decimal (j :: ids))).
  intros H. apply app_eq_nil in H. apply Hne, H.
Qed.

Lemma takeWhile_line (line tail : list ascii) :
  forallb (fun c => negb (isNewline c)) line = true -> startsNewLine tail ->
  takeWhile (fun c => negb (isNewline c)) (line ++ tail) = line.
Proof.
  intros Hline Htail. induction line as [|c line IH].
  - destruct tail as [|c tail]; [reflexivity|]. simpl in *. rewrite Htail. reflexivity.
  - simpl in Hline. apply andb_prop in Hline. destruct Hline as [Hc Hline].
    simpl. rewrite Hc, (IH Hline). reflexivity.
Qed.

(** *** The label of the id section *)

Lemma stripPrefixCI_same (lit rest : list ascii) :
  stripPrefixCI lit (lit ++ rest) = Some rest.
Proof.
  induction lit as [|a lit IH]; [reflexivity|].
  simpl. rewrite Ascii.eqb_refl. exact IH.
Qed.

Lemma lowerAscii_colon (c : ascii) : lowerAscii c = ":"%char -> c = ":"%char.
Proof.
  destruct c as [[] [] [] [] [] [] [] []]; vm_compute; intros H;
    try reflexivity; discriminate H.
Qed.

(** A match of a literal agrees with it, up to case, at every position. *)
Lemma stripPrefixCI_nth (lit s rest : list ascii) (k : nat) (d : ascii) :
  stripPrefixCI lit s = Some rest -> k < length lit ->
  lowerAscii (nth k s d) = lowerAscii (nth k lit d).
Proof.
  revert s k. induction lit as [|a lit IH]; intros s k Hs Hk; [simpl in Hk; lia|].
  destruct s as [|c s]; [discriminate|]. simpl in Hs.
  destruct (Ascii.eqb (lowerAscii a) (lowerAscii c)) eqn:E; [|discriminate].
  apply Ascii.eqb_eq in E. destruct k as [|k]; [symmetry; exact E|].
  simpl. apply IH; [exact Hs | simpl in Hk; lia].
Qed.

Lemma idLabel_colon_last (j : nat) : j < 23 -> nth j idLabel " "%char <> ":"%char.
Proof.
  intros Hj. do 23 (destruct j as [|j]; [vm_compute; discriminate|]). lia.
Qed.

Lemma colonFree_nth (l : list ascii) (k : nat) :
  forallb (fun c => negb (isColon c)) l = true -> k < length l ->
  nth k l " "%char <> ":"%char.
Proof.
  intros Hl Hk E. rewrite forallb_forall in Hl.
  specialize (Hl (nth k l " "%char) (nth_In _ _ Hk)).
  rewrite E in Hl. discriminate Hl.
Qed.

(** The label cannot match at a position of a text without colon that
    precedes it. *)
Lemma label_not_before (c : ascii) (pre rest : list ascii) :
  forallb (fun c => negb (isColon c)) (c :: pre) = true ->
  stripPrefixCI idLabel ((c :: pre) ++ idLabel ++ rest) = None.
Proof.
  intros Hfree.
  destruct (stripPrefixCI idLabel ((c :: pre) ++ idLabel ++ rest)) as [r|] eqn:E;
    [|reflexivity].
  exfalso.
  pose proof (@stripPrefixCI_nth idLabel _ _ 23 " "%char E ltac:(vm_compute; lia)) as H.
  change (lowerAscii (nth 23 idLabel " "%char)) with ":"%char in H.
  apply lowerAscii_colon in H. revert H.
  destruct (Nat.lt_ge_cases 23 (length (c :: pre))) as [Hin | Hout].
  - rewrite app_nth1 by exact Hin. apply colonFree_nth; assumption.
  - rewrite app_nth2 by exact Hout.
    assert (Hj : 23 - length (c :: pre) < 23) by (cbn [length]; lia).
    assert (Hlen : length idLabel = 24) by reflexivity.
    rewrite app_nth1 by (rewrite Hlen; lia).
    apply idLabel_colon_last, Hj.
Qed.

Lemma idSection_cons (c : ascii) (s : list ascii) :
  idSection (c :: s)
  = match stripPrefixCI idLabel (c :: s) with
    | Some rest =>
        match takeWhile (fun c => negb (isNewline c)) rest with
        | [] => idSection s
        | cap => Some cap
        end
    | None => idSection s
    end.
Proof. reflexivity. Qed.

(** The section of an answer that holds the label once, after a text
    without colon. *)
Lemma idSection_found (prefix line tail : list ascii) :
  forallb (fun c => negb (isColon c)) prefix = true ->
  line <> [] -> forallb (fun c => negb (isNewline c)) line = true ->
  startsNewLine tail ->
  idSection (prefix ++ idLabel ++ line ++ tail) = Some line.
Proof.
  intros Hfree Hne Hline Htail. induction prefix as [|c pre IH].
  - change ([] ++ idLabel ++ line ++ tail) with (idLabel ++ line ++ tail).
    destruct (idLabel ++ line ++ tail) as [|c s] eqn:E.
    + apply app_eq_nil in E. destruct E as [E _]. discriminate E.
    + rewrite idSection_cons, <- E, stripPrefixCI_same, takeWhile_line by assumption.
      destruct line; [contradiction | reflexivity].
  - pose proof (@label_not_before c pre (line ++ tail) Hfree) as Hn.
    simpl in Hfree. apply andb_prop in Hfree. destruct Hfree as [_ Hpre].
    change ((c :: pre) ++ idLabel ++ line ++ tail)
      with (c :: (pre ++ idLabel ++ line ++ tail)) in *.
    rewrite idSection_cons, Hn. apply IH, Hpre.
Qed.

Lemma filter_all (A : Type) (f : A -> bool) (l : list A) :
  (forall x, In x l -> f x = true) -> filter f l = l.
Proof.
  induction l as [|x l IH]; intros H; [reflexivity|].
  simpl. rewrite (H x (or_introl eq_refl)), IH; [reflexivity|].
  intros y Hy. apply H. right. exact Hy.
Qed.

Lemma prisma_validIds_all (sep : list ascii) (pool : list Prisma.Product) (ids : list N) :
  (forall i, In i ids -> exists p, In p pool /\ Prisma.id p = i) ->
  Prisma.validIds (map decimal ids) pool = ids.
Proof.
  intros Hvalid. unfold Prisma.validIds. rewrite map_decimal_parseInt.
  apply filter_all. intros i Hi. apply existsb_exists.
  destruct (Hvalid i Hi) as (p & Hp & Hid). exists p. split; [exact Hp|].
  apply N.eqb_eq, Hid.
Qed.

Lemma prisma_accept_enough (ids : list N) (limit : nat) :
  Nat.min 2 limit <= length ids -> Prisma.accept ids limit = Some ids.
Proof.
  intros H. unfold Prisma.accept.
  destruct (length ids <? Nat.min 2 limit) eqn:E; [|reflexivity].
  apply Nat.ltb_lt in E. lia.
Qed.

Lemma matchDigits_idList (gap sep : list ascii) (ids : list N) :
  forallb isSeparator gap = true -> sep <> [] -> forallb isSeparator sep = true ->
  matchDigits (gap ++ idList sep ids) = map decimal ids.
Proof.
  intros Hgap Hne Hsep. unfold matchDigits, idList.
  rewrite runsOf_gap by (apply separator_not_digit, Hgap).
  apply runsOf_join; [exact Hne | apply separator_not_digit, Hsep|].
  apply decimal_runs. auto.
Qed.

Lemma matchBoundedDigits_idList (sep : list ascii) (ids : list N) :
  sep <> [] -> forallb isSeparator sep = true ->
  matchBoundedDigits (idList sep ids) = map decimal ids.
Proof.
  intros Hne Hsep. unfold matchBoundedDigits, idList.
  rewrite runsOf_join; [|exact Hne | apply separator_not_word, Hsep|].
  - apply filter_all. intros r Hr. apply in_map_iff in Hr. destruct Hr as (n & <- & _).
    apply decimal_digits.
  - apply decimal_runs. intros c Hc. unfold isWordChar. rewrite Hc. reflexivity.
Qed.

(* ================================================================= *)
(** ** Statements: reading an answer *)

(** X9.  An answer in the format the prompt asks for is read back
    exactly.  Product ranker: when the answer is a text without colon (the
    reasoning, which may hold digits), then the label
    [Recommended product IDs:], then candidate ids in decimal separated by
    commas or blanks, up to the end of the line, the ranker returns these
    ids, in the order written, provided there are [min(2, limit)] of them
    at least.  Order ranker: the same for an answer that is the
    comma-separated candidate ids alone. *)
Theorem answer_in_format_read_back :
  (forall (w : Prisma.World) (cur : Prisma.Product) (pool : list Prisma.Product)
          (limit : nat) (s : Prisma.State) (prefix gap sep tail : list ascii)
          (ids : list N) (text : string),
     limit <= length pool ->
     ids <> [] -> Nat.min 2 limit <= length ids ->
     (forall i, In i ids -> exists p, In p pool /\ Prisma.id p = i) ->
     forallb (fun c => negb (isColon c)) prefix = true ->
     forallb isSeparator gap = true ->
     sep <> [] -> forallb isSeparator sep = true ->
     startsNewLine tail ->
     Prisma.generate w (Prisma.ProductPrompt cur pool limit) = Http true (Text text) ->
     chars text = prefix ++ idLabel ++ (gap ++ idList sep ids) ++ tail ->
     result (Prisma.getOllamaRecommendations w cur pool limit) s = Ok (Some ids))
  /\ (forall (w : Prisma.World) (order : Prisma.Order) (pool : list Prisma.Product)
             (limit : nat) (s : Prisma.State) (sep : list ascii)
             (ids : list N) (text : string),
        limit <= length pool ->
        ids <> [] -> Nat.min 2 limit <= length ids ->
        (forall i, In i ids -> exists p, In p pool /\ Prisma.id p = i) ->
        forallb PrismaSpec.hasProduct (Prisma.items order) = true ->
        sep <> [] -> forallb isSeparator sep = true ->
        Prisma.generate w (Prisma.OrderPrompt order pool limit) = Http true (Text text) ->
        chars text = idList sep ids ->
        result (Prisma.getOllamaRecommendationsForOrder w order pool limit) s
        = Ok (Some ids)).
Proof.
  split.
  - intros w cur pool limit s prefix gap sep tail ids text
      Hlen Hne Hmin Hvalid Hfree Hgap Hsne Hsep Htail Hgen Htext.
    unfold result. rewrite prisma_product_ranker_run. simpl fst. f_equal.
    unfold PrismaSpec.productVerdict.
    destruct (length pool <? limit) eqn:E; [apply Nat.ltb_lt in E; lia|].
    rewrite Hgen. unfold answerText. rewrite Htext.
    unfold Prisma.productNumberMatches.
    rewrite idSection_found; try assumption.
    + rewrite matchDigits_idList by assumption.
      destruct ids as [|i ids]; [contradiction|].
      change (Prisma.isEmpty (map decimal (i :: ids))) with false. cbv iota.
      rewrite (prisma_validIds_all sep) by exact Hvalid.
      apply prisma_accept_enough, Hmin.
    + intros H. apply app_eq_nil in H. destruct H as [_ H].
      revert H. apply idList_not_nil, Hne.
    + rewrite forallb_app, (separator_not_newline _ Hgap). apply idList_one_line, Hsep.
  - intros w order pool limit s sep ids text
      Hlen Hne Hmin Hvalid Hitems Hsne Hsep Hgen Htext.
    unfold result. rewrite prisma_order_ranker_run. simpl fst. f_equal.
    unfold PrismaSpec.orderVerdict.
    destruct (length pool <? limit) eqn:E; [apply Nat.ltb_lt in E; lia|].
    rewrite Hitems, Hgen. unfold answerText. rewrite Htext.
    rewrite matchBoundedDigits_idList by assumption.
    destruct ids as [|i ids]; [contradiction|].
    change (Prisma.isEmpty (map decimal (i :: ids))) with false. cbv iota.
    rewrite (prisma_validIds_all sep) by exact Hvalid.
    apply prisma_accept_enough, Hmin.
Qed.

Lemma answer_in_format_read_back_witness :
  result (Prisma.getOllamaRecommendations
            (PrismaShop.world true true
               "Product 3 is a cup. Recommended product IDs: 4, 2"%string)
            PrismaShop.soap [PrismaShop.brush; PrismaShop.bag; PrismaShop.straw] 2)
         Prisma.start
  = Ok (Some [4%N; 2%N])
  /\ result (Prisma.getOllamaRecommendationsForOrder
               (PrismaShop.world true true "5,2,4"%string)
               {| Prisma.order_id := 7;
                  Prisma.items := [ {| Prisma.productId := 1;
                                       Prisma.product := Some PrismaShop.soap |} ] |}
               [PrismaShop.brush; PrismaShop.bag; PrismaShop.straw] 3)
            Prisma.start
     = Ok (Some [5%N; 2%N; 4%N]).
Proof.
  split.
  - apply (proj1 answer_in_format_read_back
             (PrismaShop.world true true
                "Product 3 is a cup. Recommended product IDs: 4, 2"%string)
             PrismaShop.soap [PrismaShop.brush; PrismaShop.bag; PrismaShop.straw] 2
             Prisma.start (chars "Product 3 is a cup. "%string) (chars " "%string) (chars ", "%string) []
             [4%N; 2%N]
             "Product 3 is a cup. Recommended product IDs: 4, 2"%string).
    + simpl. lia.
    + discriminate.
    + simpl. lia.
    + intros i [<- | [<- | []]]; [exists PrismaShop.bag | exists PrismaShop.brush];
        (split; [simpl; auto | reflexivity]).
    + reflexivity.
    + reflexivity.
    + discriminate.
    + reflexivity.
    + exact I.
    + reflexivity.
    + vm_compute. reflexivity.
  - apply (proj2 answer_in_format_read_back
             (PrismaShop.world true true "5,2,4"%string)
             {| Prisma.order_id := 7;
                Prisma.items := [ {| Prisma.productId := 1;
                                     Prisma.product := Some PrismaShop.soap |} ] |}
             [PrismaShop.brush; PrismaShop.bag; PrismaShop.straw] 3
             Prisma.start (chars ","%string) [5%N; 2%N; 4%N] "5,2,4"%string).
    + simpl. lia.
    + discriminate.
    + simpl. lia.
    + intros i [<- | [<- | [<- | []]]];
        [exists PrismaShop.straw | exists PrismaShop.brush | exists PrismaShop.bag];
        (split; [simpl; auto | reflexivity]).
    + reflexivity.
    + discriminate.
    + reflexivity.
    + reflexivity.
    + vm_compute. reflexivity.
Defined.

Lemma stripPrefixCI_In (lit s rest : list ascii) (c : ascii) :
  stripPrefixCI lit s = Some rest -> In c rest -> In c s.
Proof.
  revert s. induction lit as [|a lit IH]; intros s Hs Hc.
  - simpl in Hs. injection Hs as <-. exact Hc.
  - destruct s as [|b s]; [discriminate|]. simpl in Hs.
    destruct (Ascii.eqb (lowerAscii a) (lowerAscii b)); [|discriminate].
    right. apply IH; assumption.
Qed.

Lemma takeWhile_In (A : Type) (f : A -> bool) (l : list A) (x : A) :
  In x (takeWhile f l) -> In x l.
Proof.
  induction l as [|y l IH]; [intros []|].
  simpl. destruct (f y); [|intros []]. intros [H | H]; [left; exact H | right; auto].
Qed.

Lemma idSection_In (s sec : list ascii) (c : ascii) :
  idSection s = Some sec -> In c sec -> In c s.
Proof.
  induction s as [|a s IH]; [discriminate|].
  rewrite idSection_cons.
  destruct (stripPrefixCI idLabel (a :: s)) as [rest|] eqn:E.
  - destruct (takeWhile (fun c => negb (isNewline c)) rest) as [|x cap] eqn:T.
    + intros H Hc. right. apply IH; assumption.
    + intros [= <-] Hc. rewrite <- T in Hc. apply takeWhile_In in Hc.
      eapply stripPrefixCI_In; eassumption.
  - intros H Hc. right. apply IH; assumption.
Qed.

Lemma runsOf_In (cls : ascii -> bool) (s cur r : list ascii) :
  In r (runsOf cls s cur) ->
  r <> [] /\ forall c, In c r -> In c cur \/ In c s.
Proof.
  assert (Hflush : forall cur, In r (flush cur) ->
                   r <> [] /\ forall c, In c r -> In c cur).
  { intros cur0. unfold flush. destruct cur0 as [|x cur0]; [intros []|].
    intros [<- | []]. split.
    - intros H. apply (f_equal (@rev ascii)) in H. rewrite rev_involutive in H.
      discriminate H.
    - intros c Hc. apply in_rev. exact Hc. }
  revert cur. induction s as [|a s IH]; intros cur; simpl.
  - intros H. destruct (Hflush _ H) as [Hne Hin]. split; [exact Hne|]. auto.
  - destruct (cls a).
    + intros H. destruct (IH _ H) as [Hne Hin]. split; [exact Hne|].
      intros c Hc. destruct (Hin c Hc) as [[<- | Hcur] | Hs]; auto.
    + intros H. apply in_app_or in H. destruct H as [H | H].
      * destruct (Hflush _ H) as [Hne Hin]. split; [exact Hne|]. auto.
      * destruct (IH _ H) as [Hne Hin]. split; [exact Hne|].
        intros c Hc. destruct (Hin c Hc) as [[] | Hs]; auto.
Qed.

Lemma no_digit_incl (s t : list ascii) :
  (forall c, In c s -> In c t) ->
  forallb (fun c => negb (isDigit c)) t = true ->
  forallb (fun c => negb (isDigit c)) s = true.
Proof. rewrite !forallb_forall. auto. Qed.

Lemma matchBoundedDigits_none (t : list ascii) :
  forallb (fun c => negb (isDigit c)) t = true -> matchBoundedDigits t = [].
Proof.
  intros Ht. unfold matchBoundedDigits.
  destruct (filter (forallb isDigit) (runsOf isWordChar t [])) as [|r l] eqn:E;
    [reflexivity|].
  exfalso. assert (Hr : In r (r :: l)) by (left; reflexivity).
  rewrite <- E in Hr. apply filter_In in Hr. destruct Hr as [Hr Hd].
  apply runsOf_In in Hr. destruct Hr as [Hne Hin].
  destruct r as [|c r]; [contradiction|].
  simpl in Hd. apply andb_prop in Hd. destruct Hd as [Hc _].
  destruct (Hin c (or_introl eq_refl)) as [[] | Hct].
  rewrite forallb_forall in Ht. specialize (Ht c Hct). rewrite Hc in Ht. discriminate.
Qed.

Lemma productNumberMatches_none (t : list ascii) :
  forallb (fun c => negb (isDigit c)) t = true -> Prisma.productNumberMatches t = [].
Proof.
  intros Ht. unfold Prisma.productNumberMatches.
  destruct (idSection t) as [sec|] eqn:E; apply matchDigits_none; [|exact Ht].
  eapply no_digit_incl; [|exact Ht]. intros c. eapply idSection_In, E.
Qed.

(** X10.  An answer that holds no digit makes every ranker return null.
    For the cache-based ranker, given enough candidates and an answer with
    a text, this is the only way to null: it returns null exactly when the
    text holds no digit (and a list, possibly empty, otherwise). *)
Theorem answer_without_digit_is_null :
  (forall (w : Prisma.World) (cur : Prisma.Product) (pool : list Prisma.Product)
          (limit : nat) (s : Prisma.State) (t : list ascii),
     answerText (Prisma.generate w (Prisma.ProductPrompt cur pool limit)) = Some t ->
     forallb (fun c => negb (isDigit c)) t = true ->
     result (Prisma.getOllamaRecommendations w cur pool limit) s = Ok None)
  /\ (forall (w : Prisma.World) (order : Prisma.Order) (pool : list Prisma.Product)
             (limit : nat) (s : Prisma.State) (t : list ascii),
        answerText (Prisma.generate w (Prisma.OrderPrompt order pool limit)) = Some t ->
        forallb (fun c => negb (isDigit c)) t = true ->
        result (Prisma.getOllamaRecommendationsForOrder w order pool limit) s = Ok None)
  /\ (forall (w : Cache.World) (cur : Cache.Product) (pool : list Cache.Product)
             (limit : nat) (s : Cache.State) (t : list ascii),
        limit <= length pool ->
        answerText (Cache.generate w (Cache.ProductPrompt cur pool limit)) = Some t ->
        (result (Cache.getOllamaRecommendations w cur pool limit) s = Ok None
         <-> forallb (fun c => negb (isDigit c)) t = true)).
Proof.
  split; [|split].
  - intros w cur pool limit s t Ht Hno. unfold result.
    rewrite prisma_product_ranker_run. simpl fst. f_equal.
    unfold PrismaSpec.productVerdict. destruct (length pool <? limit); [reflexivity|].
    rewrite Ht, (productNumberMatches_none _ Hno). reflexivity.
  - intros w order pool limit s t Ht Hno. unfold result.
    rewrite prisma_order_ranker_run. simpl fst. f_equal.
    unfold PrismaSpec.orderVerdict. destruct (length pool <? limit); [reflexivity|].
    destruct (forallb PrismaSpec.hasProduct _); [|reflexivity].
    rewrite Ht, (matchBoundedDigits_none _ Hno). reflexivity.
  - intros w cur pool limit s t Hlen Ht. unfold result.
    rewrite cache_ranker_run. simpl fst. unfold CacheSpec.rankerVerdict.
    destruct (length pool <? limit) eqn:E; [apply Nat.ltb_lt in E; lia|].
    rewrite Ht, <- matchDigits_none.
    destruct (matchDigits t); split; intros H; try reflexivity; discriminate H.
Qed.

Lemma answer_without_digit_is_null_witness :
  result (Prisma.getOllamaRecommendations
            (PrismaShop.world true true "Recommended product IDs: none")
            PrismaShop.soap [PrismaShop.brush; PrismaShop.bag] 2) Prisma.start
  = Ok None
  /\ result (Prisma.getOllamaRecommendationsForOrder
               (PrismaShop.world true true "brush, bag")
               {| Prisma.order_id := 7; Prisma.items := [] |}
               [PrismaShop.brush; PrismaShop.bag] 2) Prisma.start
     = Ok None
  /\ (result (Cache.getOllamaRecommendations
                (CacheShop.world true true "brush, bag")
                CacheShop.soap [CacheShop.brush; CacheShop.bag] 2) Cache.start
      = Ok None
      <-> forallb (fun c => negb (isDigit c)) (chars "brush, bag") = true).
Proof.
  split; [|split].
  - apply (proj1 answer_without_digit_is_null
             (PrismaShop.world true true "Recommended product IDs: none"%string)
             PrismaShop.soap [PrismaShop.brush; PrismaShop.bag] 2 Prisma.start
             (chars "Recommended product IDs: none"%string)); reflexivity.
  - apply (proj1 (proj2 answer_without_digit_is_null)
             (PrismaShop.world true true "brush, bag"%string)
             {| Prisma.order_id := 7; Prisma.items := [] |}
             [PrismaShop.brush; PrismaShop.bag] 2 Prisma.start
             (chars "brush, bag"%string)); reflexivity.
  - apply (proj2 (proj2 answer_without_digit_is_null)
             (CacheShop.world true true "brush, bag"%string)
             CacheShop.soap [CacheShop.brush; CacheShop.bag] 2 Cache.start
             (chars "brush, bag"%string)); [simpl; lia | reflexivity].
Defined.

(* ================================================================= *)
(** ** Properties of every recommended product *)

Lemma prisma_first_query_step (w : Prisma.World) (productId orderId : option N)
    (limit : nat) (s : Prisma.State) :
  Prisma.storageUp w (Prisma.queries s) = true ->
  exists b s1,
    Prisma.queries s1 = S (Prisma.queries s)
    /\ Prisma.getRecommendations w productId orderId limit s
       = match Prisma.truthyId orderId with
         | Some oid =>
             Prisma.orderPath w oid limit b
               (Prisma.fallbackQuery productId limit (Prisma.db w))
         | None =>
             match Prisma.truthyId productId with
             | Some pid =>
                 Prisma.productPath w pid limit b
                   (Prisma.fallbackQuery productId limit (Prisma.db w))
             | None => ret (Prisma.fallbackQuery productId limit (Prisma.db w))
             end
         end s1.
Proof.
  intros Hup. destruct (prisma_probe_step w s) as (b & s1 & Hprobe & Hq).
  exists b, (Prisma.asked s1). split; [simpl; rewrite Hq; reflexivity|].
  unfold Prisma.getRecommendations, tryCatch. unfold bind at 1. rewrite Hprobe.
  unfold bind at 1. unfold Prisma.query at 1. rewrite Hq, Hup.
  destruct (Prisma.truthyId orderId) as [oid|].
  - unfold Prisma.orderPath.
    match goal with
    | |- context [tryCatch ?m (fun _ => ret ?a) ?s0] =>
        destruct (tryCatch_ret_returns m a s0) as (r & Hr);
        destruct (tryCatch m (fun _ => ret a) s0) as [x s2]
    end.
    simpl in Hr. subst x. reflexivity.
  - destruct (Prisma.truthyId productId) as [pid|]; [|reflexivity].
    unfold Prisma.productPath.
    match goal with
    | |- context [tryCatch ?m (fun _ => ret ?a) ?s0] =>
        destruct (tryCatch_ret_returns m a s0) as (r & Hr);
        destruct (tryCatch m (fun _ => ret a) s0) as [x s2]
    end.
    simpl in Hr. subst x. reflexivity.
Qed.

Lemma keeps_result (S A : Type) (m : M S A) (post : A -> Prop) (s : S) (r : A) :
  keeps (fun _ => True) m post -> fst (m s) = Ok r -> post r.
Proof.
  intros H Hr. specialize (H s Logic.I). destruct (m s) as [[a|e] s']; simpl in Hr.
  - injection Hr as <-. apply H.
  - discriminate Hr.
Qed.

(** A property [P] of products that the selections of a path establish
    holds of every product the path returns. *)
Section PrismaSources.

Variable w : Prisma.World.
Variable limit : nat.
Variable P : Prisma.Product -> Prop.
Variable fb : list Prisma.Product.
Hypothesis P_fb : forall p, In p fb -> P p.

Lemma prisma_productPath_all (pid : N) (b : bool) :
  (forall cur p, In p (Prisma.similarCategoryQuery pid cur (Prisma.db w)) -> P p) ->
  (forall similar p, In p (Prisma.additionalQuery pid similar limit (Prisma.db w)) -> P p) ->
  keeps (fun _ => True) (Prisma.productPath w pid limit b fb)
        (fun r => forall p, In p r -> P p).
Proof.
  intros Hsim Hadd. unfold Prisma.productPath.
  apply keeps_tryCatch; [| intros e; apply keeps_ret, P_fb].
  apply keeps_bind_any; [apply prisma_keeps_query_any; auto|].
  intros [cur|]; [| apply keeps_ret, P_fb].
  destruct (Prisma.isEmpty _); [apply keeps_ret, P_fb|].
  eapply keeps_bind; [apply prisma_keeps_query; auto|]. intros similar ->.
  apply keeps_bind with (mid := fun pool => forall p, In p pool -> P p).
  { destruct (_ <? limit); [| apply keeps_ret, Hsim].
    eapply keeps_bind; [apply prisma_keeps_query; auto|]. intros additional ->.
    apply keeps_ret. unfold Prisma.poolOf. intros p Hp. apply in_app_or in Hp.
    destruct Hp as [Hp | Hp]; [eapply Hsim | eapply Hadd]; exact Hp. }
  intros pool Hpool.
  apply keeps_bind with (mid := fun ranked => forall r, ranked = Some r ->
                                             forall p, In p r -> P p).
  { destruct (b && _); [| apply keeps_ret; discriminate].
    apply keeps_bind_any.
    - eapply keeps_run; [apply prisma_product_ranker_run | auto].
    - intros ids. apply keeps_ret. intros r Hr p Hp. apply Hpool.
      eapply prisma_ranked_In; [left; exact Hr | exact Hp]. }
  intros [r|] Hr; apply keeps_ret; [apply Hr; reflexivity|].
  intros p Hp.
  destruct (prisma_unranked_In _ _ _ _ (or_introl Hp)) as [H | H];
    [eapply Hsim; exact H | apply P_fb, H].
Qed.

Lemma prisma_orderPath_all (oid : N) (b : bool) :
  (forall order, Prisma.findUniqueOrder oid (Prisma.db w) = Some order ->
     forall p, In p (Prisma.orderSimilarQuery order (Prisma.orderCategoryIds order)
                       limit (Prisma.db w)) -> P p) ->
  keeps (fun _ => True) (Prisma.orderPath w oid limit b fb)
        (fun r => forall p, In p r -> P p).
Proof.
  intros Hsim. unfold Prisma.orderPath.
  apply keeps_tryCatch; [| intros e; apply keeps_ret, P_fb].
  eapply keeps_bind; [apply prisma_keeps_query; auto|]. intros found ->.
  destruct (Prisma.findUniqueOrder oid (Prisma.db w)) as [order|] eqn:Hfound;
    [| apply keeps_ret, P_fb].
  destruct (Prisma.isEmpty (Prisma.items order)); [apply keeps_ret, P_fb|].
  destruct (Prisma.isEmpty (Prisma.orderCategoryIds order)); [apply keeps_ret, P_fb|].
  eapply keeps_bind; [apply prisma_keeps_query; auto|]. intros similar ->.
  apply keeps_bind with (mid := fun ranked => forall r, ranked = Some r ->
                                             forall p, In p r -> P p).
  { destruct (b && _); [| apply keeps_ret; discriminate].
    apply keeps_bind_any.
    - eapply keeps_run; [apply prisma_order_ranker_run | auto].
    - intros ids. apply keeps_ret. intros r Hr p Hp. apply (Hsim order eq_refl).
      eapply prisma_ranked_In; [right; exact Hr | exact Hp]. }
  intros [r|] Hr; apply keeps_ret; [apply Hr; reflexivity|].
  intros p Hp.
  destruct (prisma_unranked_In _ _ _ _ (or_intror Hp)) as [H | H];
    [apply (Hsim order eq_refl), H | apply P_fb, H].
Qed.

End PrismaSources.

Lemma cache_rankedOf_In (w : Cache.World) (ids : option (list N))
    (similar r : list Cache.Product) (limit : nat) (p : Cache.Product) :
  Cache.rankedOf w ids similar limit = Some r -> In p r -> In p similar.
Proof.
  unfold Cache.rankedOf. destruct ids as [ids|]; [|discriminate].
  destruct (2 <=? length ids); [|discriminate].
  destruct (_ =? limit); [|discriminate].
  intros [= <-] Hp. apply In_slice0 in Hp. unfold filterMapDefined in Hp.
  apply in_flat_map in Hp. destruct Hp as (n & _ & Hp).
  destruct (find _ similar) as [q|] eqn:Hq; [|contradiction].
  destruct Hp as [<- | []]. apply find_some in Hq. apply Hq.
Qed.

Lemma cache_answer_In (w : Cache.World) (sorted : list Cache.Product)
    (productId : option string) (limit : nat) (p : Cache.Product) :
  In p (CacheSpec.answer w sorted productId limit) -> In p sorted.
Proof.
  unfold CacheSpec.answer. cbv zeta.
  destruct (Cache.truthyId productId) as [pid|]; [| apply In_slice0].
  destruct (find _ sorted) as [cur|]; [| apply In_slice0].
  assert (Hsim : In p (Cache.similarOf pid cur sorted limit) -> In p sorted).
  { unfold Cache.similarOf. intros H. apply In_slice0, filter_In in H. apply H. }
  destruct (CacheSpec.ranking w cur _ limit) as [r|] eqn:Hr.
  - unfold CacheSpec.ranking in Hr. destruct (_ && _); [|discriminate].
    intros Hp. apply Hsim. eapply cache_rankedOf_In; eassumption.
  - unfold Cache.similarOrFallback. destruct (limit <=? _); intros Hp.
    + apply Hsim. apply In_slice0 in Hp. exact Hp.
    + apply In_slice0 in Hp. exact Hp.
Qed.

(* ================================================================= *)
(** ** Statements: the returned list *)

(** X11.  Whatever the storage, the endpoint and the state of the cache
    do, a list returned by [getRecommendations] holds at most [limit]
    products.  Both implementations. *)
Theorem result_within_limit :
  (forall (w : Prisma.World) (productId orderId : option N) (limit : nat)
          (s : Prisma.State) (r : list Prisma.Product),
     result (Prisma.getRecommendations w productId orderId limit) s = Ok r ->
     length r <= limit)
  /\ (forall (w : Cache.World) (productId : option string) (limit : nat)
             (s : Cache.State) (r : list Cache.Product),
        result (Cache.getRecommendations w productId limit) s = Ok r ->
        length r <= limit).
Proof.
  split.
  - intros w productId orderId limit s r. apply prisma_result_within_limit.
  - intros w productId limit s r. apply cache_result_within_limit.
Qed.

Lemma result_within_limit_witness :
  length [PrismaShop.bag; PrismaShop.brush] <= 2
  /\ length [CacheShop.cup; CacheShop.soap] <= 2.
Proof.
  split.
  - apply (proj1 result_within_limit
             (PrismaShop.world true true "Recommended product IDs: 4, 2, 5"%string)
             (Some 1%N) None 2 Prisma.start).
    vm_compute. reflexivity.
  - apply (proj2 result_within_limit
             (CacheShop.world true true "7"%string) (Some "a1"%string) 2 Cache.start).
    vm_compute. reflexivity.
Defined.

(** X12.  Every recommended product is a product of the store.  In the
    Prisma implementation it is a row of the product table, whatever the
    storage and the model do: an id the model invents is never turned into
    a product.  In the cache-based implementation it is an element of the
    array the cache held at the call, or of the array a refill builds from
    the product collection. *)
Theorem recommended_from_catalog :
  (forall (w : Prisma.World) (productId orderId : option N) (limit : nat)
          (s : Prisma.State) (r : list Prisma.Product) (p : Prisma.Product),
     result (Prisma.getRecommendations w productId orderId limit) s = Ok r ->
     In p r -> In p (Prisma.products (Prisma.db w)))
  /\ (forall (w : Cache.World) (productId : option string) (limit : nat)
             (s : Cache.State) (r : list Cache.Product) (p : Cache.Product),
        result (Cache.getRecommendations w productId limit) s = Ok r ->
        In p r ->
        (exists arr, Cache.data (Cache.productsCache s) = Some arr /\ In p arr)
        \/ In p (CacheSpec.refill (Cache.db w))).
Proof.
  split.
  - intros w productId orderId limit s r p Hr Hp.
    assert (Hfind : forall wh b take q,
               In q (Prisma.findMany wh b take (Prisma.db w)) ->
               In q (Prisma.products (Prisma.db w))).
    { intros wh b take q Hq. apply prisma_findMany_In in Hq. apply Hq. }
    assert (H : keeps (fun _ => True) (Prisma.getRecommendations w productId orderId limit)
                      (fun r => forall p, In p r -> In p (Prisma.products (Prisma.db w)))).
    { unfold Prisma.getRecommendations. apply keeps_tryCatch.
      - apply keeps_bind_any.
        + destruct (Prisma.USE_OLLAMA w); [| apply keeps_ret; exact Logic.I].
          eapply keeps_run; [apply prisma_isOllamaAvailable_run | auto].
        + intros b. eapply keeps_bind; [apply prisma_keeps_query; auto|].
          intros fb ->.
          destruct (Prisma.truthyId orderId) as [oid|].
          * apply prisma_orderPath_all; [apply Hfind|]. intros order _. apply Hfind.
          * destruct (Prisma.truthyId productId) as [pid|].
            -- apply prisma_productPath_all; [apply Hfind | |]; intros x; apply Hfind.
            -- apply keeps_ret. apply Hfind.
      - intros e. unfold Prisma.getPopularProducts.
        eapply keeps_weaken; [apply prisma_keeps_query; auto|].
        intros a ->. apply Hfind. }
    exact (keeps_result _ H Hr p Hp).
  - intros w productId limit s r p Hr Hp.
    assert (Hsrc : forall s1 arr,
               Cache.productsCache s1 = Cache.productsCache s ->
               CacheSpec.loaded w s1 = Some arr -> In p arr ->
               (exists arr0, Cache.data (Cache.productsCache s) = Some arr0 /\ In p arr0)
               \/ In p (CacheSpec.refill (Cache.db w))).
    { intros s1 arr Hsame Hload Harr. apply cache_loaded_source in Hload.
      destruct Hload as [Hd | ->]; [left | right; exact Harr].
      exists arr. rewrite <- Hsame. auto. }
    destruct (CacheSpec.loaded w s) as [arr|] eqn:Hload.
    + destruct (cache_getRecommendations_loaded w productId limit s Hload)
        as (s' & Hrun & _).
      unfold result in Hr. rewrite Hrun in Hr. simpl in Hr. injection Hr as <-.
      apply cache_answer_In, sortDesc_In in Hp.
      exact (Hsrc s arr eq_refl Hload Hp).
    + destruct (cache_accessor_unloaded w s Hload) as (s1 & Hacc & Hsame & _).
      assert (Hrun : Cache.getRecommendations w productId limit s
                     = Cache.getPopularProducts w limit s1).
      { unfold Cache.getRecommendations, tryCatch. unfold bind at 1.
        rewrite Hacc. reflexivity. }
      unfold result in Hr. rewrite Hrun in Hr.
      destruct (CacheSpec.loaded w s1) as [arr|] eqn:Hload1.
      * destruct (cache_getPopularProducts_loaded w limit s1 Hload1) as (s' & Hpop & _).
        rewrite Hpop in Hr. simpl in Hr. injection Hr as <-.
        apply In_slice0, sortDesc_In in Hp.
        exact (Hsrc s1 arr Hsame Hload1 Hp).
      * pose proof (cache_popular_unloaded w limit s1 Hload1) as Hthrow.
        unfold result in Hthrow. rewrite Hthrow in Hr. discriminate Hr.
Qed.

Lemma recommended_from_catalog_witness :
  In PrismaShop.bag (Prisma.products (Prisma.db
       (PrismaShop.world true true "Recommended product IDs: 4, 99, 2")))
  /\ ((exists arr, Cache.data (Cache.productsCache Cache.start) = Some arr
                   /\ In CacheShop.cup arr)
      \/ In CacheShop.cup (CacheSpec.refill (Cache.db (CacheShop.world true true "7")))).
Proof.
  split.
  - apply (proj1 recommended_from_catalog
             (PrismaShop.world true true "Recommended product IDs: 4, 99, 2"%string)
             (Some 1%N) None 2 Prisma.start [PrismaShop.bag; PrismaShop.brush]).
    + vm_compute. reflexivity.
    + simpl. auto.
  - apply (proj2 recommended_from_catalog
             (CacheShop.world true true "7"%string) (Some "a1"%string) 2 Cache.start
             [CacheShop.cup; CacheShop.soap]).
    + vm_compute. reflexivity.
    + simpl. auto.
Defined.

(** X13.  When the storage answers every query, no two rows of the
    product table share an id, and the model names no id twice, the
    recommended products are pairwise distinct. *)
Theorem distinct_when_model_names_no_id_twice :
  forall (w : Prisma.World) (productId orderId : option N) (limit : nat)
         (s : Prisma.State) (r : list Prisma.Product),
    PrismaSpec.storageAlwaysUp w ->
    PrismaSpec.distinctIds (Prisma.products (Prisma.db w)) ->
    PrismaSpec.noRepeatedId w limit ->
    result (Prisma.getRecommendations w productId orderId limit) s = Ok r ->
    NoDup (map Prisma.id r).
Proof.
  intros w productId orderId limit s r Hup Hrows Htidy Hr.
  eapply prisma_result_distinct; eassumption.
Qed.

(** X14.  On a request seeded by a product alone, when the first storage
    query of the run (the fallback query) is answered, the seed is never
    recommended, whatever the model answers and whatever fails later:
    every selection of the product path excludes it. *)
Theorem product_path_excludes_seed :
  forall (w : Prisma.World) (productId orderId : option N) (pid : N) (limit : nat)
         (s : Prisma.State) (r : list Prisma.Product) (p : Prisma.Product),
    Prisma.storageUp w (Prisma.queries s) = true ->
    Prisma.truthyId orderId = None -> Prisma.truthyId productId = Some pid ->
    result (Prisma.getRecommendations w productId orderId limit) s = Ok r ->
    In p r -> Prisma.id p <> pid.
Proof.
  intros w productId orderId pid limit s r p Hup Hno Hpid Hr Hp.
  destruct (prisma_first_query_step w productId orderId limit s Hup)
    as (b & s1 & _ & Hrun).
  unfold result in Hr. rewrite Hrun, Hno, Hpid in Hr.
  assert (Hwh : forall (g : Prisma.Product -> bool) byPop take q,
             In q (Prisma.findMany (fun x => negb (N.eqb (Prisma.id x) pid) && g x)
                     byPop take (Prisma.db w)) ->
             Prisma.id q <> pid).
  { intros g byPop take q Hq. apply prisma_findMany_In in Hq. destruct Hq as [_ Hq].
    apply andb_prop in Hq. destruct Hq as [Hq _].
    apply negb_true_iff, N.eqb_neq in Hq. exact Hq. }
  assert (Hk : keeps (fun _ => True)
                 (Prisma.productPath w pid limit b
                    (Prisma.fallbackQuery productId limit (Prisma.db w)))
                 (fun r => forall q, In q r -> Prisma.id q <> pid));
    [| exact (keeps_result _ Hk Hr p Hp)].
  apply prisma_productPath_all with (P := fun q => Prisma.id q <> pid).
  - intros q Hq. unfold Prisma.fallbackQuery in Hq. rewrite Hpid in Hq.
    apply prisma_findMany_In in Hq. destruct Hq as [_ Hq].
    apply negb_true_iff, N.eqb_neq in Hq. exact Hq.
  - intros cur q. apply Hwh.
  - intros similar q. apply Hwh.
Qed.

(** X15.  On a request seeded by an order, when the first storage query
    of the run is answered, a product that the order bought can be
    recommended only as an element of the popularity fallback list: the
    category selection of the order path excludes the purchased products,
    and the ranked products come from that selection. *)
Theorem purchased_only_from_fallback :
  forall (w : Prisma.World) (productId orderId : option N) (oid : N)
         (order : Prisma.Order) (limit : nat) (s : Prisma.State)
         (r : list Prisma.Product) (p : Prisma.Product),
    Prisma.storageUp w (Prisma.queries s) = true ->
    Prisma.truthyId orderId = Some oid ->
    Prisma.findUniqueOrder oid (Prisma.db w) = Some order ->
    result (Prisma.getRecommendations w productId orderId limit) s = Ok r ->
    In p r -> In (Prisma.id p) (map Prisma.productId (Prisma.items order)) ->
    In p (Prisma.fallbackQuery productId limit (Prisma.db w)).
Proof.
  intros w productId orderId oid order limit s r p Hup Hoid Horder Hr Hp Hbought.
  destruct (prisma_first_query_step w productId orderId limit s Hup)
    as (b & s1 & _ & Hrun).
  unfold result in Hr. rewrite Hrun, Hoid in Hr.
  assert (Hk : keeps (fun _ => True)
                 (Prisma.orderPath w oid limit b
                    (Prisma.fallbackQuery productId limit (Prisma.db w)))
                 (fun r => forall q, In q r ->
                    In (Prisma.id q) (map Prisma.productId (Prisma.items order)) ->
                    In q (Prisma.fallbackQuery productId limit (Prisma.db w))));
    [| exact (keeps_result _ Hk Hr p Hp Hbought)].
  apply prisma_orderPath_all
    with (P := fun q => In (Prisma.id q) (map Prisma.productId (Prisma.items order)) ->
                        In q (Prisma.fallbackQuery productId limit (Prisma.db w))).
  - auto.
  - intros order0 Hfound q Hq Hb. exfalso.
    rewrite Horder in Hfound. injection Hfound as <-.
    unfold Prisma.orderSimilarQuery in Hq. apply prisma_findMany_In in Hq.
    destruct Hq as [_ Hq]. apply andb_prop in Hq. destruct Hq as [Hq _].
    apply negb_true_iff in Hq. apply prisma_includes_In in Hb.
    rewrite Hb in Hq. discriminate Hq.
Qed.

Lemma distinct_when_model_names_no_id_twice_witness :
  NoDup (map Prisma.id [PrismaShop.bag; PrismaShop.brush]).
Proof.
  assert (Hup : PrismaSpec.storageAlwaysUp
                  (PrismaShop.world true true "Recommended product IDs: 4, 2"))
    by (intros n; reflexivity).
  assert (Hrows : PrismaSpec.distinctIds
                    (Prisma.products
                       (Prisma.db (PrismaShop.world true true
                                     "Recommended product IDs: 4, 2")))).
  { unfold PrismaSpec.distinctIds. simpl.
    repeat (constructor; [simpl; intuition discriminate|]). constructor. }
  assert (Htidy : PrismaSpec.noRepeatedId
                    (PrismaShop.world true true "Recommended product IDs: 4, 2") 2).
  { assert (Hids : forall pool, NoDup (Prisma.validIds [chars "4"; chars "2"] pool)).
    { intros pool. unfold Prisma.validIds. apply NoDup_filter. simpl.
      repeat (constructor; [simpl; intuition discriminate|]). constructor. }
    split.
    - intros cur pool ids. unfold PrismaSpec.productVerdict.
      destruct (length pool <? 2); [discriminate|].
      change (answerText _) with (Some (chars "Recommended product IDs: 4, 2")).
      replace (Prisma.productNumberMatches (chars "Recommended product IDs: 4, 2"))
        with [chars "4"; chars "2"] by (vm_compute; reflexivity).
      intros H. apply prisma_accept_some in H. destruct H as [-> _]. apply Hids.
    - intros order pool ids. unfold PrismaSpec.orderVerdict.
      destruct (length pool <? 2); [discriminate|].
      destruct (forallb _ _); [|discriminate].
      change (answerText _) with (Some (chars "Recommended product IDs: 4, 2")).
      replace (matchBoundedDigits (chars "Recommended product IDs: 4, 2"))
        with [chars "4"; chars "2"] by (vm_compute; reflexivity).
      intros H. apply prisma_accept_some in H. destruct H as [-> _]. apply Hids. }
  apply (@distinct_when_model_names_no_id_twice
           (PrismaShop.world true true "Recommended product IDs: 4, 2"%string)
           (Some 1%N) None 2 Prisma.start [PrismaShop.bag; PrismaShop.brush]
           Hup Hrows Htidy).
  vm_compute. reflexivity.
Defined.

Lemma product_path_excludes_seed_witness : Prisma.id PrismaShop.brush <> 1%N.
Proof.
  apply (@product_path_excludes_seed
           (PrismaShop.world true true "Recommended product IDs: 1, 2"%string)
           (Some 1%N) None 1%N 2 Prisma.start
           [PrismaShop.brush; PrismaShop.bag] PrismaShop.brush).
  - reflexivity.
  - reflexivity.
  - reflexivity.
  - vm_compute. reflexivity.
  - simpl. auto.
Defined.

Lemma purchased_only_from_fallback_witness :
  In PrismaShop.soap
     (Prisma.fallbackQuery None 4 (Prisma.db (PrismaShop.world false true ""))).
Proof.
  apply (@purchased_only_from_fallback
           (PrismaShop.world false true ""%string) None (Some 7%N) 7%N
           {| Prisma.order_id := 7;
              Prisma.items := [ {| Prisma.productId := 1;
                                   Prisma.product := Some PrismaShop.soap |} ] |}
           4 Prisma.start
           [PrismaShop.brush; PrismaShop.bag; PrismaShop.straw; PrismaShop.soap]
           PrismaShop.soap).
  - reflexivity.
  - reflexivity.
  - vm_compute. reflexivity.
  - vm_compute. reflexivity.
  - simpl. auto.
  - simpl. auto.
Defined.

(* ================================================================= *)
(** ** Statements: selections *)

Lemma uniqueFirst_In (l : list N) (x : N) : In x (uniqueFirst N.eqb l) <-> In x l.
Proof.
  induction l as [|y l IH]; [reflexivity|].
  simpl. rewrite filter_In, IH, negb_true_iff, N.eqb_neq.
  destruct (N.eq_dec y x) as [-> | Hne]; tauto.
Qed.

Lemma uniqueFirst_NoDup (l : list N) : NoDup (uniqueFirst N.eqb l).
Proof.
  induction l as [|y l IH]; simpl; constructor.
  - intros H. apply filter_In in H. destruct H as [_ H].
    rewrite N.eqb_refl in H. discriminate H.
  - apply NoDup_filter, IH.
Qed.

Lemma prisma_orderEligible_iff (order : Prisma.Order) (p : Prisma.Product) :
  orderEligible order p = true
  <-> ~ In (Prisma.id p) (map Prisma.productId (Prisma.items order))
      /\ sharesCategoryWithOrder order p.
Proof.
  unfold orderEligible, sharesCategoryWithOrder, Prisma.inCategories,
    Prisma.orderCategoryIds.
  rewrite andb_true_iff, negb_true_iff, existsb_exists.
  rewrite <- not_true_iff_false, prisma_includes_In.
  split; intros [Hid Hcat]; (split; [exact Hid|]).
  - destruct Hcat as (c & Hc & Hin). apply (proj1 (prisma_includes_In _ _)) in Hin.
    apply (proj1 (uniqueFirst_In _ _)) in Hin.
    apply in_flat_map in Hin. destruct Hin as (item & Hitem & Hin).
    destruct (Prisma.product item) as [q|] eqn:Hq; [|contradiction].
    apply in_map_iff in Hin. destruct Hin as (c' & Heq & Hc').
    exists item, q, c, c'. auto.
  - destruct Hcat as (item & q & c & c' & Hitem & Hq & Hc & Hc' & Heq).
    exists c. split; [exact Hc|]. apply (proj2 (prisma_includes_In _ _)).
    apply (proj2 (uniqueFirst_In _ _)).
    apply in_flat_map. exists item. split; [exact Hitem|]. rewrite Hq, Heq.
    apply in_map, Hc'.
Qed.

(** X16.  On the order path a product is a category match exactly when
    the order did not buy it and it shares a category with a product the
    order bought (all of them are selected when they are at most
    [limit * 2], the cap); the category ids collected from the order hold
    no duplicate. *)
Theorem order_candidate_eligibility :
  forall (d : Prisma.Db) (order : Prisma.Order) (limit : nat) (p : Prisma.Product),
    NoDup (Prisma.orderCategoryIds order)
    /\ (In p (Prisma.orderSimilarQuery order (Prisma.orderCategoryIds order) limit d) ->
        In p (Prisma.products d)
        /\ ~ In (Prisma.id p) (map Prisma.productId (Prisma.items order))
        /\ sharesCategoryWithOrder order p)
    /\ (length (filter (orderEligible order) (Prisma.products d)) <= limit * 2 ->
        In p (Prisma.products d) ->
        ~ In (Prisma.id p) (map Prisma.productId (Prisma.items order)) ->
        sharesCategoryWithOrder order p ->
        In p (Prisma.orderSimilarQuery order (Prisma.orderCategoryIds order) limit d)).
Proof.
  intros d order limit p. split; [apply uniqueFirst_NoDup|].
  unfold Prisma.orderSimilarQuery, Prisma.findMany.
  change (fun p0 : Prisma.Product =>
            negb (Prisma.includes (map Prisma.productId (Prisma.items order))
                    (Prisma.id p0))
            && Prisma.inCategories (Prisma.orderCategoryIds order) p0)
    with (orderEligible order).
  split.
  - intros Hin. apply (In_slice0 (limit * 2)) in Hin. apply filter_In in Hin.
    destruct Hin as [Hp He]. apply prisma_orderEligible_iff in He. tauto.
  - intros Hcap Hp Hid Hcat.
    fold (slice0 (limit * 2) (filter (orderEligible order) (Prisma.products d))).
    rewrite slice0_all by exact Hcap.
    apply filter_In. split; [exact Hp|]. apply prisma_orderEligible_iff. tauto.
Qed.

Lemma order_candidate_eligibility_witness :
  (In PrismaShop.brush
      (Prisma.orderSimilarQuery order7 (Prisma.orderCategoryIds order7) 4 PrismaShop.shop)
   /\ sharesCategoryWithOrder order7 PrismaShop.brush)
  /\ ~ In PrismaShop.soap
         (Prisma.orderSimilarQuery order7 (Prisma.orderCategoryIds order7) 4
            PrismaShop.shop).
Proof.
  assert (H : In PrismaShop.brush
                (Prisma.orderSimilarQuery order7 (Prisma.orderCategoryIds order7) 4
                   PrismaShop.shop)) by (vm_compute; tauto).
  split; [split; [exact H|] |].
  - exact (proj2 (proj2 (proj1 (proj2 (order_candidate_eligibility
                                         PrismaShop.shop order7 4 PrismaShop.brush)) H))).
  - intros Hsoap.
    apply (proj1 (proj2 (proj1 (proj2 (order_candidate_eligibility
                                         PrismaShop.shop order7 4 PrismaShop.soap))
                                Hsoap))).
    simpl. auto.
Defined.

(* ================================================================= *)
(** ** Popularity *)








(* ================================================================= *)
(** ** Statements: the cache *)

(** X18.  While the cache is fresh, the two exported functions are served
    from it: they return without issuing any storage query, whatever the
    storage would answer, also when it is down. *)
Theorem fresh_cache_needs_no_storage :
  forall (w : Cache.World) (productId : option string) (limit : nat) (s : Cache.State)
         (arr : list Cache.Product),
    CacheSpec.freshWith w s arr ->
    (result (Cache.getPopularProducts w limit) s
     = Ok (slice0 limit (sortDesc Cache.orderCount arr))
     /\ Cache.queries (final (Cache.getPopularProducts w limit) s) = Cache.queries s)
    /\ ((exists r, result (Cache.getRecommendations w productId limit) s = Ok r)
        /\ Cache.queries (final (Cache.getRecommendations w productId limit) s)
           = Cache.queries s).
Proof.
  intros w productId limit s arr Hfresh. split.
  - unfold result, final. rewrite (cache_getPopularProducts_fresh limit Hfresh).
    split; reflexivity.
  - destruct (cache_getRecommendations_fresh productId limit Hfresh)
      as (s' & Hrun & Hq & _).
    unfold result, final. rewrite Hrun. simpl. split; [eauto | exact Hq].
Qed.

Lemma fresh_cache_needs_no_storage_witness :
  (result (Cache.getPopularProducts (CacheShop.world false false "") 2) CacheShop.warm
   = Ok (slice0 2 (sortDesc Cache.orderCount
                     [CacheShop.soap; CacheShop.brush; CacheShop.cup; CacheShop.bag]))
   /\ Cache.queries (final (Cache.getPopularProducts (CacheShop.world false false "") 2)
                           CacheShop.warm)
      = Cache.queries CacheShop.warm)
  /\ ((exists r, result (Cache.getRecommendations (CacheShop.world false false "")
                           (Some "a1"%string) 2) CacheShop.warm = Ok r)
      /\ Cache.queries (final (Cache.getRecommendations (CacheShop.world false false "")
                                 (Some "a1"%string) 2) CacheShop.warm)
         = Cache.queries CacheShop.warm).
Proof.
  apply (@fresh_cache_needs_no_storage (CacheShop.world false false ""%string)
           (Some "a1"%string) 2 CacheShop.warm
           [CacheShop.soap; CacheShop.brush; CacheShop.cup; CacheShop.bag]).
  split; [reflexivity | vm_compute; reflexivity].
Defined.

(** X19.  A call that throws leaves the cache exactly as it was, and what
    it throws is the storage error: neither exported function clears the
    cache or stores a partial refill when the storage fails. *)
Theorem failed_call_leaves_cache :
  forall (w : Cache.World) (productId : option string) (limit : nat) (s : Cache.State)
         (e : Exn),
    (result (Cache.getPopularProducts w limit) s = Throw e ->
     e = StorageError
     /\ Cache.productsCache (final (Cache.getPopularProducts w limit) s)
        = Cache.productsCache s)
    /\ (result (Cache.getRecommendations w productId limit) s = Throw e ->
        e = StorageError
        /\ Cache.productsCache (final (Cache.getRecommendations w productId limit) s)
           = Cache.productsCache s).
Proof.
  intros w productId limit s e.
  assert (Hpop : forall s0,
             result (Cache.getPopularProducts w limit) s0 = Throw e ->
             e = StorageError
             /\ Cache.productsCache (final (Cache.getPopularProducts w limit) s0)
                = Cache.productsCache s0).
  { intros s0. unfold result, final.
    destruct (CacheSpec.loaded w s0) as [arr|] eqn:Hload.
    - destruct (cache_getPopularProducts_loaded w limit s0 Hload) as (s' & Hrun & _).
      rewrite Hrun. simpl. intros H. discriminate H.
    - destruct (cache_accessor_unloaded w s0 Hload) as (s1 & Hacc & Hsame & _).
      unfold Cache.getPopularProducts.
      assert (Hrun : bind (Cache.getProductsWithOrderCounts w)
                       (fun products =>
                          bind (Cache.sortInPlace products)
                            (fun _ => bind (Cache.readArray products)
                                        (fun sorted => ret (slice0 limit sorted)))) s0
                     = (Throw StorageError, s1))
        by (unfold bind at 1; rewrite Hacc; reflexivity).
      rewrite Hrun. simpl. intros [= <-]. split; [reflexivity | exact Hsame]. }
  split; [apply Hpop|].
  unfold result, final.
  destruct (CacheSpec.loaded w s) as [arr|] eqn:Hload.
  - destruct (cache_getRecommendations_loaded w productId limit s Hload)
      as (s' & Hrun & _).
    rewrite Hrun. simpl. intros H. discriminate H.
  - destruct (cache_accessor_unloaded w s Hload) as (s1 & Hacc & Hsame & _).
    assert (Hrun : Cache.getRecommendations w productId limit s
                   = Cache.getPopularProducts w limit s1).
    { unfold Cache.getRecommendations, tryCatch. unfold bind at 1.
      rewrite Hacc. reflexivity. }
    rewrite Hrun. intros Hr. destruct (Hpop s1 Hr) as [He Hc].
    split; [exact He|]. unfold final in Hc. rewrite Hc. exact Hsame.
Qed.

Lemma failed_call_leaves_cache_witness :
  (StorageError = StorageError
   /\ Cache.productsCache
        (final (Cache.getPopularProducts (CacheShop.world false false "") 2) Cache.start)
      = Cache.productsCache Cache.start)
  /\ (StorageError = StorageError
      /\ Cache.productsCache
           (final (Cache.getRecommendations (CacheShop.world false false "")
                     (Some "a1"%string) 2) Cache.start)
         = Cache.productsCache Cache.start).
Proof.
  split.
  - apply (proj1 (@failed_call_leaves_cache (CacheShop.world false false ""%string)
                    (Some "a1"%string) 2 Cache.start StorageError)).
    reflexivity.
  - apply (proj2 (@failed_call_leaves_cache (CacheShop.world false false ""%string)
                    (Some "a1"%string) 2 Cache.start StorageError)).
    reflexivity.
Defined.

Lemma uniqueFirst_In_string (l : list string) (x : string) :
  In x (uniqueFirst String.eqb l) <-> In x l.
Proof.
  induction l as [|y l IH]; [reflexivity|].
  simpl. rewrite filter_In, IH, negb_true_iff, String.eqb_neq.
  destruct (string_dec y x) as [-> | Hne]; tauto.
Qed.

Lemma find_group (total : string -> Z) (pid : string) (u : list string) :
  match find (fun o : string * Z => String.eqb (fst o) pid)
             (map (fun i => (i, total i)) u) with
  | Some o => snd o
  | None => 0%Z
  end
  = if in_dec string_dec pid u then total pid else 0%Z.
Proof.
  induction u as [|i u IH]; [reflexivity|].
  simpl find. destruct (String.eqb i pid) eqn:E.
  - apply String.eqb_eq in E. subst i.
    destruct (in_dec string_dec pid (pid :: u)) as [_ | Hn]; [reflexivity|].
    exfalso. apply Hn. left. reflexivity.
  - rewrite IH. apply String.eqb_neq in E.
    destruct (in_dec string_dec pid u) as [Hin | Hn];
      destruct (in_dec string_dec pid (i :: u)) as [Hin' | Hn']; try reflexivity.
    + exfalso. apply Hn'. right. exact Hin.
    + exfalso. destruct Hin' as [-> | Hin']; [apply E; reflexivity | apply Hn, Hin'].
Qed.

Lemma no_line_no_quantity (lines : list Cache.OrderItemDoc) (pid : string) :
  ~ In pid (map Cache.item_product lines) ->
  filter (fun l => String.eqb (Cache.item_product l) pid) lines = [].
Proof.
  induction lines as [|l lines IH]; intros Hn; [reflexivity|].
  simpl. destruct (String.eqb (Cache.item_product l) pid) eqn:E.
  - exfalso. apply Hn. left. apply String.eqb_eq, E.
  - apply IH. intros H. apply Hn. right. exact H.
Qed.

Lemma cache_refill_counted (d : Cache.Db) :
  CacheSpec.refill d = map (counted d) (Cache.productDocs d).
Proof.
  unfold CacheSpec.refill. apply map_ext. intros doc.
  unfold Cache.withOrderCount, counted. f_equal.
  unfold Cache.aggregateOrderCounts. cbv zeta.
  rewrite (find_group
             (fun pid => fold_right Z.add 0%Z
                           (map Cache.quantity
                                (filter (fun l => String.eqb (Cache.item_product l) pid)
                                        (flat_map Cache.orderItems (Cache.orderDocs d)))))).
  unfold totalQuantity.
  destruct (in_dec string_dec (Cache._id doc) _) as [_ | Hn]; [reflexivity|].
  rewrite no_line_no_quantity; [reflexivity|].
  intros H. apply Hn. apply uniqueFirst_In_string. exact H.
Qed.

(** X20.  When the cache is stale or empty and the storage answers the
    two queries of the refill, [getProductsWithOrderCounts] stores, with
    the time read at its start, one product per document of the product
    collection, in collection order, whose [orderCount] is the total
    quantity of the product over all order lines (0 for a product never
    ordered) and whose [categories] is the one category of the
    document. *)
Theorem refill_counts_quantities :
  forall (w : Cache.World) (s : Cache.State),
    CacheSpec.isFresh w s = false ->
    Cache.storageUp w (Cache.queries s) = true ->
    Cache.storageUp w (S (Cache.queries s)) = true ->
    result (Cache.getProductsWithOrderCounts w) s = Ok Cache.CachedArray
    /\ Cache.productsCache (final (Cache.getProductsWithOrderCounts w) s)
       = {| Cache.data := Some (map (counted (Cache.db w)) (Cache.productDocs (Cache.db w)));
            Cache.lastUpdate := Cache.clock w (Cache.clockReads s) |}.
Proof.
  intros w s Hstale Hup1 Hup2. unfold result, final.
  rewrite cache_accessor_run, Hstale, Hup1, Hup2, cache_refill_counted.
  split; reflexivity.
Qed.

Lemma refill_counts_quantities_witness :
  result (Cache.getProductsWithOrderCounts (CacheShop.world false true "")) Cache.start
  = Ok Cache.CachedArray
  /\ Cache.productsCache
       (final (Cache.getProductsWithOrderCounts (CacheShop.world false true ""))
              Cache.start)
     = {| Cache.data :=
            Some (map (counted (Cache.db (CacheShop.world false true "")))
                      (Cache.productDocs (Cache.db (CacheShop.world false true ""))));
          Cache.lastUpdate :=
            Cache.clock (CacheShop.world false true "") (Cache.clockReads Cache.start) |}.
Proof.
  apply (@refill_counts_quantities (CacheShop.world false true ""%string) Cache.start);
    reflexivity.
Defined.

(** X21.  After a call of [getPopularProducts] that returned, a second
    call whose clock reading falls within five minutes of the load
    returns the same list, issues no storage query, and leaves the cache
    as the first call left it. *)
Theorem second_call_served_from_cache :
  forall (w : Cache.World) (limit : nat) (s : Cache.State) (arr : list Cache.Product),
    CacheSpec.loaded w s = Some arr ->
    (Cache.clock w (Cache.clockReads (final (Cache.getPopularProducts w limit) s))
     - CacheSpec.loadedAt w s < 300000)%Z ->
    result (Cache.getPopularProducts w limit) (final (Cache.getPopularProducts w limit) s)
    = result (Cache.getPopularProducts w limit) s
    /\ Cache.queries (final (Cache.getPopularProducts w limit)
                            (final (Cache.getPopularProducts w limit) s))
       = Cache.queries (final (Cache.getPopularProducts w limit) s)
    /\ Cache.productsCache (final (Cache.getPopularProducts w limit)
                                  (final (Cache.getPopularProducts w limit) s))
       = Cache.productsCache (final (Cache.getPopularProducts w limit) s).
Proof.
  intros w limit s arr Hload.
  destruct (cache_getPopularProducts_loaded w limit s Hload) as (s' & Hrun & Hcache).
  unfold result, final. rewrite Hrun. simpl fst. simpl snd. intros Htime.
  assert (Hfresh : CacheSpec.freshWith w s' (sortDesc Cache.orderCount arr)).
  { unfold CacheSpec.freshWith. rewrite Hcache. simpl. auto. }
  rewrite (cache_getPopularProducts_fresh limit Hfresh). simpl fst. simpl snd.
  rewrite (@sortDesc_fixed _ _ _ (@sortDesc_descending _ Cache.orderCount arr)).
  rewrite Hcache. repeat split.
Qed.

Lemma second_call_served_from_cache_witness :
  result (Cache.getPopularProducts (CacheShop.world false true "") 2)
         (final (Cache.getPopularProducts (CacheShop.world false true "") 2) Cache.start)
  = result (Cache.getPopularProducts (CacheShop.world false true "") 2) Cache.start
  /\ Cache.queries (final (Cache.getPopularProducts (CacheShop.world false true "") 2)
                      (final (Cache.getPopularProducts (CacheShop.world false true "") 2)
                             Cache.start))
     = Cache.queries (final (Cache.getPopularProducts (CacheShop.world false true "") 2)
                            Cache.start)
  /\ Cache.productsCache
       (final (Cache.getPopularProducts (CacheShop.world false true "") 2)
              (final (Cache.getPopularProducts (CacheShop.world false true "") 2)
                     Cache.start))
     = Cache.productsCache
         (final (Cache.getPopularProducts (CacheShop.world false true "") 2) Cache.start).
Proof.
  apply (@second_call_served_from_cache (CacheShop.world false true ""%string) 2
           Cache.start (CacheSpec.refill CacheShop.shop)).
  - reflexivity.
  - vm_compute. reflexivity.
Defined.

(* ================================================================= *)
(** ** Statements: requests without a usable seed *)

Lemma prisma_isEmpty_nil (A : Type) (l : list A) : l = [] -> Prisma.isEmpty l = true.
Proof. intros ->. reflexivity. Qed.

(** X22.  When the fallback query (the first query of the run) is
    answered, the Prisma [getRecommendations] returns the fallback list,
    the [limit] most ordered products other than the product named by the
    request, in each of these cases: the request names neither order nor
    product (an id 0 counts as none); it names an order or a product the
    storage does not hold; the product has no category; the order has no
    line, or no line with a category; or the storage rejects the next
    query. *)
Theorem fallback_without_usable_seed :
  forall (w : Prisma.World) (productId orderId : option N) (limit : nat)
         (s : Prisma.State),
    Prisma.storageUp w (Prisma.queries s) = true ->
    noUsableSeed (Prisma.db w) productId orderId
    \/ Prisma.storageUp w (S (Prisma.queries s)) = false ->
    result (Prisma.getRecommendations w productId orderId limit) s
    = Ok (Prisma.fallbackQuery productId limit (Prisma.db w)).
Proof.
  intros w productId orderId limit s Hup Hcase.
  destruct (prisma_first_query_step w productId orderId limit s Hup)
    as (b & s1 & Hq & Hrun).
  unfold result. rewrite Hrun. clear Hrun. unfold noUsableSeed in Hcase.
  destruct (Prisma.truthyId orderId) as [oid|].
  - unfold Prisma.orderPath, tryCatch. unfold bind at 1. unfold Prisma.query at 1.
    rewrite Hq.
    destruct (Prisma.storageUp w (S (Prisma.queries s))); [|reflexivity].
    destruct Hcase as [Hcase | Hcase]; [|discriminate Hcase].
    destruct (Prisma.findUniqueOrder oid (Prisma.db w)) as [order|]; [|reflexivity].
    destruct (Prisma.isEmpty (Prisma.items order)) eqn:Hitems; [reflexivity|].
    destruct Hcase as [Hcase | Hcase].
    + rewrite (prisma_isEmpty_nil Hcase) in Hitems. discriminate Hitems.
    + rewrite (prisma_isEmpty_nil Hcase). reflexivity.
  - destruct (Prisma.truthyId productId) as [pid|]; [|reflexivity].
    unfold Prisma.productPath, tryCatch. unfold bind at 1. unfold Prisma.query at 1.
    rewrite Hq.
    destruct (Prisma.storageUp w (S (Prisma.queries s))); [|reflexivity].
    destruct Hcase as [Hcase | Hcase]; [|discriminate Hcase].
    destruct (Prisma.findUniqueProduct pid (Prisma.db w)) as [cur|]; [|reflexivity].
    rewrite (prisma_isEmpty_nil Hcase). reflexivity.
Qed.

Lemma fallback_without_usable_seed_witness :
  result (Prisma.getRecommendations (PrismaShop.world true true "2, 4")
            (Some 9%N) (Some 0%N) 2) Prisma.start
  = Ok (Prisma.fallbackQuery (Some 9%N) 2
          (Prisma.db (PrismaShop.world true true "2, 4")))
  /\ result (Prisma.getRecommendations onceShop (Some 1%N) None 2) Prisma.start
     = Ok (Prisma.fallbackQuery (Some 1%N) 2 (Prisma.db onceShop)).
Proof.
  split.
  - apply (@fallback_without_usable_seed (PrismaShop.world true true "2, 4"%string)
             (Some 9%N) (Some 0%N) 2 Prisma.start).
    + reflexivity.
    + left. exact I.
  - apply (@fallback_without_usable_seed onceShop (Some 1%N) None 2 Prisma.start).
    + reflexivity.
    + right. reflexivity.
Defined.

(** X23.  When the accessor hands out an array, a request of the
    cache-based [getRecommendations] that names no product (the empty
    string counts as none), or a product that is not in the array, runs
    exactly as [getPopularProducts] does: same result, same final state;
    in particular it issues no outbound call. *)
Theorem no_current_product_is_popular :
  forall (w : Cache.World) (productId : option string) (limit : nat) (s : Cache.State)
         (arr : list Cache.Product),
    CacheSpec.loaded w s = Some arr ->
    noCurrentProduct arr productId ->
    Cache.getRecommendations w productId limit s = Cache.getPopularProducts w limit s.
Proof.
  intros w productId limit s arr Hload Hno.
  destruct (cache_accessor_loaded w s Hload) as (s1 & Hacc & Hcache & _).
  assert (Hdata : Cache.data (Cache.productsCache s1) = Some arr)
    by (rewrite Hcache; reflexivity).
  pose (sorted := sortDesc Cache.orderCount arr).
  pose (s2 := Cache.withCache
                {| Cache.data := Some sorted;
                   Cache.lastUpdate := Cache.lastUpdate (Cache.productsCache s1) |} s1).
  assert (Hdata2 : Cache.data (Cache.productsCache s2) = Some sorted) by reflexivity.
  assert (Hpop : Cache.getPopularProducts w limit s = (Ok (slice0 limit sorted), s2)).
  { unfold Cache.getPopularProducts. unfold bind at 1. rewrite Hacc.
    unfold bind at 1. rewrite (@cache_sort_run Cache.CachedArray s1 arr Hdata).
    unfold bind at 1. fold sorted. fold s2.
    rewrite (@cache_read_run Cache.CachedArray s2 sorted Hdata2). reflexivity. }
  rewrite Hpop.
  unfold Cache.getRecommendations, tryCatch. unfold bind at 1. rewrite Hacc.
  unfold bind at 1. rewrite (@cache_sort_run Cache.CachedArray s1 arr Hdata).
  fold sorted. fold s2.
  unfold bind at 1. rewrite (@cache_read_run Cache.CachedArray s2 sorted Hdata2).
  cbv zeta. unfold noCurrentProduct in Hno.
  destruct (Cache.truthyId productId) as [pid|]; [|reflexivity].
  unfold bind at 1. rewrite (@cache_read_run Cache.CachedArray s2 sorted Hdata2).
  rewrite find_absent; [reflexivity|].
  intros p Hp. apply String.eqb_neq, Hno. apply (proj1 (@sortDesc_In _ Cache.orderCount arr p)), Hp.
Qed.

Lemma no_current_product_is_popular_witness :
  Cache.getRecommendations (CacheShop.world true true "1, 2") (Some "zz"%string) 2
    Cache.start
  = Cache.getPopularProducts (CacheShop.world true true "1, 2") 2 Cache.start.
Proof.
  apply (@no_current_product_is_popular (CacheShop.world true true "1, 2"%string)
           (Some "zz"%string) 2 Cache.start (CacheSpec.refill CacheShop.shop)).
  - reflexivity.
  - intros p Hp. vm_compute in Hp.
    destruct Hp as [<- | [<- | [<- | [<- | []]]]]; discriminate.
Defined.

Lemma existsb_never (A : Type) (f : A -> bool) (l : list A) :
  (forall x, f x = false) -> existsb f l = false.
Proof.
  intros H. induction l as [|x l IH]; [reflexivity|]. simpl. rewrite H, IH. reflexivity.
Qed.

Lemma filter_never (A : Type) (f : A -> bool) (l : list A) :
  (forall x, f x = false) -> filter f l = [].
Proof.
  intros H. induction l as [|x l IH]; [reflexivity|]. simpl. rewrite H. exact IH.
Qed.

(** X24.  The cache-based [getRecommendations] never uses the answer of
    the model when [limit] is below 2 (a ranking needs two ids, and the
    ranker cuts its answer to [limit]), nor when no product id is equal to
    a number (the ids of the cached products are document ids): the
    result is then the one computed with the model switched off. *)
Theorem cache_ranking_never_used :
  forall (w : Cache.World) (productId : option string) (limit : nat) (s : Cache.State),
    limit < 2 \/ (forall i n, Cache.idIsNumber w i n = false) ->
    result (Cache.getRecommendations w productId limit) s
    = result (Cache.getRecommendations (CacheSpec.disabled w) productId limit) s.
Proof.
  intros w productId limit s Hcase.
  apply (related_result (sim := CacheSpec.sameStorage));
    [| unfold CacheSpec.sameStorage; auto].
  apply cache_getRecommendations_unranked.
  intros p t _. unfold CacheSpec.keptIds. destruct Hcase as [Hlimit | Hids].
  - pose proof (slice0_length limit
                  (filter (fun n => existsb (fun q => Cache.idIsNumber w (Cache.id q) n)
                                            (Cache.promptPool p))
                          (map parseInt (matchDigits t)))) as Hlen.
    lia.
  - rewrite filter_never; [unfold slice0; rewrite firstn_nil; simpl; lia|].
    intros n. apply existsb_never. intros q. apply Hids.
Qed.

Lemma cache_ranking_never_used_witness :
  result (Cache.getRecommendations (NumericShop.world "4, 2") (Some "1"%string) 1)
         Cache.start
  = result (Cache.getRecommendations (CacheSpec.disabled (NumericShop.world "4, 2"))
              (Some "1"%string) 1) Cache.start
  /\ result (Cache.getRecommendations (CacheShop.world true true "2, 4")
               (Some "a1"%string) 2) Cache.start
     = result (Cache.getRecommendations
                 (CacheSpec.disabled (CacheShop.world true true "2, 4"))
                 (Some "a1"%string) 2) Cache.start.
Proof.
  split.
  - apply (@cache_ranking_never_used (NumericShop.world "4, 2"%string)
             (Some "1"%string) 1 Cache.start).
    left. lia.
  - apply (@cache_ranking_never_used (CacheShop.world true true "2, 4"%string)
             (Some "a1"%string) 2 Cache.start).
    right. intros i n. reflexivity.
Defined.



(* ================================================================= *)
(** ** Statements: an order line without product *)

Lemma prisma_orderVerdict_missing (w : Prisma.World) (order : Prisma.Order)
    (pool : list Prisma.Product) (limit : nat) :
  forallb PrismaSpec.hasProduct (Prisma.items order) = false ->
  PrismaSpec.orderVerdict w order pool limit = None.
Proof.
  intros H. unfold PrismaSpec.orderVerdict. rewrite H.
  destruct (length pool <? limit); reflexivity.
Qed.

(** X26.  The order ranker reads the product of every order line inside
    its [try]: for an order one of whose lines has no product, it returns
    null and sends nothing.  With the storage answering, a request seeded
    by such an order then gets the result it gets with the model switched
    off. *)
Theorem order_line_without_product_not_ranked :
  (forall (w : Prisma.World) (order : Prisma.Order) (pool : list Prisma.Product)
          (limit : nat) (s : Prisma.State),
     forallb PrismaSpec.hasProduct (Prisma.items order) = false ->
     Prisma.getOllamaRecommendationsForOrder w order pool limit s = (Ok None, s))
  /\ (forall (w : Prisma.World) (productId orderId : option N) (oid : N)
             (order : Prisma.Order) (limit : nat) (s : Prisma.State),
        PrismaSpec.storageAlwaysUp w ->
        Prisma.truthyId orderId = Some oid ->
        Prisma.findUniqueOrder oid (Prisma.db w) = Some order ->
        forallb PrismaSpec.hasProduct (Prisma.items order) = false ->
        result (Prisma.getRecommendations w productId orderId limit) s
        = result (Prisma.getRecommendations (PrismaSpec.disabled w)
                    productId orderId limit) s).
Proof.
  split.
  - intros w order pool limit s H.
    rewrite prisma_order_ranker_run, (prisma_orderVerdict_missing w order pool limit H), H.
    destruct (length pool <? limit); reflexivity.
  - intros w productId orderId oid order limit s Hup Hoid Horder H.
    rewrite (prisma_getRecommendations_up Hup).
    rewrite (@prisma_getRecommendations_up (PrismaSpec.disabled w) Hup).
    f_equal. unfold PrismaSpec.answer. cbv zeta. rewrite Hoid.
    unfold PrismaSpec.orderAnswer.
    change (Prisma.db (PrismaSpec.disabled w)) with (Prisma.db w).
    rewrite Horder.
    destruct (Prisma.isEmpty (Prisma.items order)); [reflexivity|].
    destruct (Prisma.isEmpty (Prisma.orderCategoryIds order)); [reflexivity|].
    cbv zeta. unfold PrismaSpec.orderRanking.
    rewrite !(prisma_orderVerdict_missing _ order _ limit H).
    change (PrismaSpec.rankingOn (PrismaSpec.disabled w)) with false.
    destruct (PrismaSpec.rankingOn w && _); reflexivity.
Qed.

Lemma order_line_without_product_not_ranked_witness :
  Prisma.getOllamaRecommendationsForOrder (danglingShop "2,4")
    {| Prisma.order_id := 8;
       Prisma.items := [ {| Prisma.productId := 99; Prisma.product := None |};
                         {| Prisma.productId := 1;
                            Prisma.product := Some PrismaShop.soap |} ] |}
    [PrismaShop.brush; PrismaShop.bag] 2 Prisma.start
  = (Ok None, Prisma.start)
  /\ result (Prisma.getRecommendations (danglingShop "2,4") None (Some 8%N) 2)
            Prisma.start
     = result (Prisma.getRecommendations (PrismaSpec.disabled (danglingShop "2,4"))
                 None (Some 8%N) 2) Prisma.start.
Proof.
  split.
  - apply (proj1 order_line_without_product_not_ranked (danglingShop "2,4"%string)).
    reflexivity.
  - apply (proj2 order_line_without_product_not_ranked (danglingShop "2,4"%string)
             None (Some 8%N) 8%N
             {| Prisma.order_id := 8;
                Prisma.items := [ {| Prisma.productId := 99; Prisma.product := None |};
                                  {| Prisma.productId := 1;
                                     Prisma.product := Some PrismaShop.soap |} ] |}
             2 Prisma.start).
    + intros n. reflexivity.
    + reflexivity.
    + vm_compute. reflexivity.
    + reflexivity.
Defined.
